(** * HRMS-Dashboard: the leave / attendance routes

    A shallow embedding of [server/routes/attendance.js] (the attendance
    router and the leaves router), of the Mongoose models they use and of
    the parts of the JavaScript [Date] object the routes rely on, followed
    by the properties of the leave-attendance reconciliation logic.

    Conventions of the embedding
    - a JavaScript [Date] is its time value: a [Z], milliseconds since the
      epoch (UTC);
    - the server's local time zone is a fixed offset [tz] (milliseconds,
      local = UTC + tz); daylight-saving changes are not modelled;
    - a Mongo collection is the list of its documents in insertion order;
      [findOne] without a sort returns the first match;
    - an [ObjectId] is the integer it denotes; a route parameter or a body
      field that must be cast to one is a [string];
    - a handler is a function from the database to the database and the
      response; an exception thrown inside [try] keeps the writes already
      made. *)

From Stdlib Require Import ZArith List String Ascii Bool Lia.
From Stdlib Require Import Permutation Sorted.
Import ListNotations.

Open Scope string_scope.
Open Scope list_scope.
Open Scope Z_scope.

(* ================================================================== *)
(** ** The JavaScript Date operations used by the routes               *)
(* ================================================================== *)

Module JsDate.

Definition msPerDay : Z := 86400000.

(** Day number (days since 1970-01-01) of the civil date [y]-[m]-[d] in the
    proleptic Gregorian calendar, [m] in 1..12. *)
Definition daysFromCivil (y m d : Z) : Z :=
  let y' := if m <=? 2 then y - 1 else y in
  let era := y' / 400 in
  let yoe := y' - era * 400 in
  let mp := if m >? 2 then m - 3 else m + 9 in
  let doy := (153 * mp + 2) / 5 + d - 1 in
  let doe := yoe * 365 + yoe / 4 - yoe / 100 + doy in
  era * 146097 + doe - 719468.

(** Civil date (year, month 1..12, day) of a day number. *)
Definition civilFromDays (z : Z) : Z * Z * Z :=
  let z' := z + 719468 in
  let era := z' / 146097 in
  let doe := z' - era * 146097 in
  let yoe := (doe - doe / 1460 + doe / 36524 - doe / 146096) / 365 in
  let doy := doe - (365 * yoe + yoe / 4 - yoe / 100) in
  let mp := (5 * doy + 2) / 153 in
  let d := doy - (153 * mp + 2) / 5 + 1 in
  let m := if mp <? 10 then mp + 3 else mp - 9 in
  let y := yoe + era * 400 in
  ((if m <=? 2 then y + 1 else y), m, d).

(** ECMAScript [MakeDay(year, month, date)]: [month] is a 0-based index that
    may lie outside 0..11, [date] may lie outside the month. *)
Definition MakeDay (year month date : Z) : Z :=
  let ym := year + month / 12 in
  let mn := month mod 12 in
  daysFromCivil ym (mn + 1) 1 + date - 1.

(** The largest year and month index for which Node's engine computes
    [MakeDay]; beyond them it answers NaN. *)
Definition maxYear : Z := 1000000.
Definition maxMonth : Z := 10000000.

(** The largest time value of a Date: 100,000,000 days from the epoch. *)
Definition maxTime : Z := 8640000000000000.

(** ECMAScript [TimeClip]: a time value beyond [maxTime] either way is NaN. *)
Definition TimeClip (time : Z) : option Z :=
  if Z.abs time <=? maxTime then Some time else None.

(** The decimal digits of [n], [k] of them, most significant first. *)
Fixpoint digits (k : nat) (n : Z) : string :=
  match k with
  | O => EmptyString
  | S k' =>
      digits k' (n / 10) ++
      String (ascii_of_N (Z.to_N (48 + n mod 10))) EmptyString
  end%string.

(** [toISOString().split('T')[0]]: the UTC calendar date of a time value. *)
Definition isoDate (t : Z) : string :=
  let '(y, m, d) := civilFromDays (t / msPerDay) in
  let year :=
    if (0 <=? y) && (y <=? 9999) then digits 4 y
    else if y <? 0 then ("-" ++ digits 6 (- y))%string
    else ("+" ++ digits 6 y)%string in
  (year ++ "-" ++ digits 2 m ++ "-" ++ digits 2 d)%string.

Section LocalTime.

(** Offset of the server's local time from UTC, in milliseconds. *)
Variable tz : Z.

(** The local calendar day a time value falls on. *)
Definition localDay (t : Z) : Z := (t + tz) / msPerDay.

(** [d.setHours(0, 0, 0, 0)] *)
Definition setHours0 (t : Z) : Z := localDay t * msPerDay - tz.

(** [d.setHours(23, 59, 59, 999)] *)
Definition setHours23 (t : Z) : Z :=
  localDay t * msPerDay + (msPerDay - 1) - tz.

(** [d.setDate(d.getDate() + 1)] *)
Definition nextDate (t : Z) : Z := t + msPerDay.

(** [new Date(year, monthIndex, day)]: local midnight of that day; a year
    in 0..99 stands for 1900 + year. The result is an Invalid Date ([None])
    when [MakeDay] has no answer, which in Node's engine is for a year beyond
    1,000,000 or a month index beyond 10,000,000 either way, and when
    [TimeClip] refuses the time value. *)
Definition newDate (year monthIndex day : Z) : option Z :=
  let yr := if (0 <=? year) && (year <=? 99) then 1900 + year else year in
  if (Z.abs yr <=? maxYear) && (Z.abs monthIndex <=? maxMonth)
  then TimeClip (MakeDay yr monthIndex day * msPerDay - tz)
  else None.

(** The loop
    [while (currentDate <= end) { push(currentDate); currentDate.setDate(+1) }] *)
Fixpoint dateRangeLoop (fuel : nat) (currentDate end_ : Z) : list Z :=
  match fuel with
  | O => []
  | S fuel' =>
      if currentDate <=? end_
      then currentDate :: dateRangeLoop fuel' (nextDate currentDate) end_
      else []
  end.

(** Number of iterations after which the loop condition has failed. *)
Definition dateRangeFuel (start end_ : Z) : nat :=
  Z.to_nat ((end_ - start) / msPerDay + 1).

Definition dateRange (start end_ : Z) : list Z :=
  dateRangeLoop (dateRangeFuel start end_) start end_.

End LocalTime.

(** A date taken from a query string or a request body: absent (or empty),
    text that [new Date] cannot parse, or a time value. *)
Inductive DateParam :=
| Absent
| Unparseable
| Parsed (t : Z).

End JsDate.

(* ================================================================== *)
(** ** Object identifiers                                              *)
(* ================================================================== *)

Module ObjectId.

Definition code (c : ascii) : Z := Z.of_N (N_of_ascii c).

Definition isHex (c : ascii) : bool :=
  let n := code c in
  ((48 <=? n) && (n <=? 57)) || ((65 <=? n) && (n <=? 70))
  || ((97 <=? n) && (n <=? 102)).

Definition hexDigit (c : ascii) : Z :=
  let n := code c in
  if n <=? 57 then n - 48 else if n <=? 70 then n - 55 else n - 87.

Definition hexValue (s : string) : Z :=
  fold_left (fun acc c => 16 * acc + hexDigit c) (list_ascii_of_string s) 0.

Definition bytesValue (s : string) : Z :=
  fold_left (fun acc c => 256 * acc + code c) (list_ascii_of_string s) 0.

(** Mongoose's cast of a string to an ObjectId: 24 hexadecimal characters,
    or a string of 12 bytes; anything else raises a CastError. *)
Definition cast (s : string) : option Z :=
  if (Z.of_nat (String.length s) =? 24)
     && forallb isHex (list_ascii_of_string s)
  then Some (hexValue s)
  else if Z.of_nat (String.length s) =? 12 then Some (bytesValue s)
  else None.

End ObjectId.

(* ================================================================== *)
(** ** Documents and collections (server/models)                       *)
(* ================================================================== *)

(** models/Employee.js; only the fields the two routers read. *)
Record Employee := mkEmployee {
  emp_id : Z;
  emp_name : string;
  emp_position : string;
  emp_department : string;
  emp_status : string
}.

(** models/Attendance.js *)
Record Attendance := mkAttendance {
  att_id : Z;
  att_employee : Z;
  att_date : Z;
  att_status : string;
  att_createdBy : Z;
  att_createdAt : Z
}.

(** models/Leave.js *)
Record Leave := mkLeave {
  lv_id : Z;
  lv_employee : Z;
  lv_startDate : Z;
  lv_endDate : Z;
  lv_reason : string;
  lv_type : string;
  lv_status : string;
  lv_document : string;
  lv_createdBy : Z;
  lv_updatedBy : option Z;
  lv_createdAt : Z;
  lv_updatedAt : option Z
}.

(** The database: the three collections and the source of fresh ids. *)
Record Db := mkDb {
  employees : list Employee;
  attendances : list Attendance;
  leaves : list Leave;
  nextId : Z
}.

Definition attendanceStatuses : list string :=
  ["present"; "absent"; "half-day"; "leave"].

Definition leaveTypes : list string := ["sick"; "casual"; "annual"; "other"].

Definition leaveStatuses : list string := ["pending"; "approved"; "rejected"].

Definition inEnum (s : string) (enum : list string) : bool :=
  existsb (String.eqb s) enum.

Definition set_att_status (s : string) (a : Attendance) : Attendance :=
  mkAttendance (att_id a) (att_employee a) (att_date a) s
               (att_createdBy a) (att_createdAt a).

(** [updateOne({_id: id}, ...)]: the first document with that id is changed. *)
Fixpoint updateOne {A : Type} (idOf : A -> Z) (id : Z) (f : A -> A)
  (docs : list A) : list A :=
  match docs with
  | [] => []
  | d :: rest =>
      if idOf d =? id then f d :: rest else d :: updateOne idOf id f rest
  end.

(* ================================================================== *)
(** ** Handlers: state, early responses and exceptions                 *)
(* ================================================================== *)

Inductive Thrown :=
| CastError (kind : string)
| ValidationError
| DuplicateKey
| TypeError.

(** What running a piece of a handler body gives: a value to go on with, a
    response sent with [return res.status(..)], or an exception. *)
Inductive Outcome (A : Type) :=
| Return (a : A)
| Respond (code : Z) (message : string)
| Throw (e : Thrown).

Arguments Return {A} a.
Arguments Respond {A} code message.
Arguments Throw {A} e.

Definition Handler (A : Type) : Type := Db -> Db * Outcome A.

Definition ret {A} (a : A) : Handler A := fun db => (db, Return a).

Definition respond {A} (code : Z) (message : string) : Handler A :=
  fun db => (db, Respond code message).

Definition throw {A} (e : Thrown) : Handler A := fun db => (db, Throw e).

Definition bind {A B} (c : Handler A) (k : A -> Handler B) : Handler B :=
  fun db =>
    match c db with
    | (db', Return a) => k a db'
    | (db', Respond code message) => (db', Respond code message)
    | (db', Throw e) => (db', Throw e)
    end.

Declare Scope handler_scope.
Delimit Scope handler_scope with handler.
Notation "x <- c ;; k" := (bind c (fun x => k))
  (at level 61, c at next level, right associativity) : handler_scope.
Notation "c ;;; k" := (bind c (fun _ => k))
  (at level 61, right associativity) : handler_scope.
Open Scope handler_scope.

Fixpoint mapM {A B} (f : A -> Handler B) (l : list A) : Handler (list B) :=
  match l with
  | [] => ret []
  | x :: rest => y <- f x ;; ys <- mapM f rest ;; ret (y :: ys)
  end.

Fixpoint filterM {A} (f : A -> Handler bool) (l : list A) : Handler (list A) :=
  match l with
  | [] => ret []
  | x :: rest =>
      keep <- f x ;; ys <- filterM f rest ;;
      ret (if keep then x :: ys else ys)
  end.

Fixpoint forEach {A} (f : A -> Handler unit) (l : list A) : Handler unit :=
  match l with
  | [] => ret tt
  | x :: rest => f x ;;; forEach f rest
  end.

(** What the client receives. *)
Inductive Response (A : Type) :=
| Json (body : A)
| Status (code : Z) (message : string).

Arguments Json {A} body.
Arguments Status {A} code message.

(** [try { body } catch (err) { onError(err) }] *)
Definition tryCatch {A} (body : Handler A) (onError : Thrown -> Response A)
  : Db -> Db * Response A :=
  fun db =>
    match body db with
    | (db', Return a) => (db', Json a)
    | (db', Respond code message) => (db', Status code message)
    | (db', Throw e) => (db', onError e)
    end.

(** [res.status(500).send('Server error')] *)
Definition serverError {A} (_ : Thrown) : Response A :=
  Status 500 "Server error".

(** The catch block of GET and DELETE /:id:
    [if (err.kind === 'ObjectId') return 404 'Leave not found'] *)
Definition notFoundOnObjectId {A} (message : string) (e : Thrown)
  : Response A :=
  match e with
  | CastError kind =>
      if (kind =? "ObjectId")%string then Status 404 message
      else Status 500 "Server error"
  | _ => Status 500 "Server error"
  end.

(** *** Mongoose operations *)

Definition castObjectId (s : string) : Handler Z :=
  match ObjectId.cast s with
  | Some id => ret id
  | None => throw (CastError "ObjectId")
  end.

Definition castDate (d : JsDate.DateParam) : Handler Z :=
  match d with
  | JsDate.Parsed t => ret t
  | _ => throw (CastError "date")
  end.

(** A Date object in the conditions of a query: an Invalid Date is refused
    with a CastError when the query runs. *)
Definition castQueryDate (d : option Z) : Handler Z :=
  match d with
  | Some t => ret t
  | None => throw (CastError "date")
  end.

Definition Employee_findOne (q : Employee -> bool) : Handler (option Employee) :=
  fun db => (db, Return (find q (employees db))).

Definition Employee_find (q : Employee -> bool) : Handler (list Employee) :=
  fun db => (db, Return (filter q (employees db))).

Definition Attendance_findOne (q : Attendance -> bool)
  : Handler (option Attendance) :=
  fun db => (db, Return (find q (attendances db))).

Definition Attendance_find (q : Attendance -> bool) : Handler (list Attendance) :=
  fun db => (db, Return (filter q (attendances db))).

Definition Leave_findOne (q : Leave -> bool) : Handler (option Leave) :=
  fun db => (db, Return (find q (leaves db))).

Definition Leave_find (q : Leave -> bool) : Handler (list Leave) :=
  fun db => (db, Return (filter q (leaves db))).

(** [.populate('employee', ...)]: the referenced employee, [None] (null) when
    no such employee exists any more. *)
Definition populate (employee : Z) : Handler (option Employee) :=
  Employee_findOne (fun e => emp_id e =? employee).

(** [new Attendance({..}).save()]: schema validation, the unique index on
    (employee, date), then the insertion under a fresh id. *)
Definition Attendance_create (employee : option Z) (date : Z) (status : string)
  (createdBy now : Z) : Handler Attendance :=
  fun db =>
    match employee with
    | None => (db, Throw ValidationError)
    | Some employee =>
        if negb (inEnum status attendanceStatuses)
        then (db, Throw ValidationError)
        else if existsb (fun a => (att_employee a =? employee)
                                  && (att_date a =? date)) (attendances db)
        then (db, Throw DuplicateKey)
        else
          let doc := mkAttendance (nextId db) employee date status
                                  createdBy now in
          (mkDb (employees db) (attendances db ++ [doc]) (leaves db)
                (nextId db + 1),
           Return doc)
    end.

(** [attendance.status = s; attendance.save()] on a document read from the
    collection. *)
Definition Attendance_saveStatus (attendance : Attendance) (s : string)
  : Handler unit :=
  fun db =>
    if negb (inEnum s attendanceStatuses) then (db, Throw ValidationError)
    else
      (mkDb (employees db)
            (updateOne att_id (att_id attendance) (set_att_status s)
                       (attendances db))
            (leaves db) (nextId db),
       Return tt).

(** [new Leave({..}).save()]; the status is the schema default. *)
Definition Leave_create (employee startDate endDate : Z) (reason type : string)
  (document : string) (createdBy now : Z) : Handler Leave :=
  fun db =>
    if (reason =? "")%string || negb (inEnum type leaveTypes)
    then (db, Throw ValidationError)
    else
      let doc := mkLeave (nextId db) employee startDate endDate reason type
                         "pending" document createdBy None now None in
      (mkDb (employees db) (attendances db) (leaves db ++ [doc])
            (nextId db + 1),
       Return doc).

(** [Leave.findByIdAndUpdate(id, {$set: fields}, {new: true})]; update
    validators are off by default, so [fields] is stored as it is. *)
Definition Leave_findByIdAndUpdate (id : Z) (fields : Leave -> Leave)
  : Handler (option Leave) :=
  fun db =>
    (mkDb (employees db) (attendances db)
          (updateOne lv_id id fields (leaves db)) (nextId db),
     Return (option_map fields (find (fun l => lv_id l =? id) (leaves db)))).

Definition isActive (e : Employee) : bool := (emp_status e =? "active")%string.

(** JavaScript truthiness of an optional string field. *)
Definition truthy (s : option string) : bool :=
  match s with
  | Some s => negb (s =? "")%string
  | None => false
  end.

(* ================================================================== *)
(** ** The attendance router (routes/attendance.js, first part)        *)
(* ================================================================== *)

Module AttendanceRouter.

(** The [attendance] object of a report row. *)
Record Tally := mkTally {
  present : nat;
  absent : nat;
  halfDay : nat;
  leave : nat;
  total : nat
}.

Record ReportRow := mkRow {
  row_id : Z;
  row_name : string;
  row_position : string;
  row_department : string;
  row_attendance : Tally
}.

Definition countStatus (s : string) (records : list (Attendance * option Employee))
  : nat :=
  List.length
    (filter (fun record => (att_status (fst record) =? s)%string) records).

Section Routes.

Variable tz : Z.

(** [router.post('/', auth, ...)] with body [{employee, date, status}];
    [user] is [req.user.id], [now] the clock reading of [Date.now]. *)
Definition post_root (employee : string) (date : JsDate.DateParam)
  (status : string) (user now : Z)
  : Db -> Db * Response (Attendance * option Employee) :=
  tryCatch
    (id <- castObjectId employee ;;
     employeeRecord <- Employee_findOne (fun e => emp_id e =? id) ;;
     match employeeRecord with
     | None => respond 404 "Employee not found"
     | Some employeeRecord =>
         if negb (isActive employeeRecord)
         then respond 400 "Only active employees can have attendance records"
         else
           d <- castDate date ;;
           existingAttendance <-
             Attendance_findOne
               (fun a => (att_employee a =? id) && (att_date a =? d)) ;;
           match existingAttendance with
           | Some _ =>
               respond 400
                 "Attendance record already exists for this employee on this date"
           | None =>
               attendance <- Attendance_create (Some id) d status user now ;;
               populated <- populate (att_employee attendance) ;;
               ret (attendance, populated)
           end
     end)
    serverError.

(** [router.get('/report', auth, ...)] with query [{startDate, endDate}]. *)
Definition get_report (startDate endDate : JsDate.DateParam)
  : Db -> Db * Response (list ReportRow) :=
  tryCatch
    (match startDate, endDate with
     | JsDate.Absent, _ | _, JsDate.Absent =>
         respond 400 "Start date and end date are required"
     | _, _ =>
         employees <- Employee_find isActive ;;
         s <- castDate startDate ;;
         e <- castDate endDate ;;
         let start := JsDate.setHours0 tz s in
         let end_ := JsDate.setHours23 tz e in
         found <-
           Attendance_find
             (fun a => (start <=? att_date a) && (att_date a <=? end_)) ;;
         attendanceRecords <-
           mapM (fun a => p <- populate (att_employee a) ;; ret (a, p)) found ;;
         mapM
           (fun employee =>
              employeeAttendance <-
                filterM
                  (fun record =>
                     match snd record with
                     | None => throw TypeError
                     | Some e' => ret (emp_id e' =? emp_id employee)
                     end)
                  attendanceRecords ;;
              let present := countStatus "present" employeeAttendance in
              let absent := countStatus "absent" employeeAttendance in
              let halfDay := countStatus "half-day" employeeAttendance in
              let leave := countStatus "leave" employeeAttendance in
              ret (mkRow (emp_id employee) (emp_name employee)
                         (emp_position employee) (emp_department employee)
                         (mkTally present absent halfDay leave
                                  (present + absent + halfDay + leave)%nat)))
           employees
     end)
    serverError.

End Routes.

End AttendanceRouter.

(* ================================================================== *)
(** ** The leaves router (routes/attendance.js, second part)           *)
(* ================================================================== *)

Module LeavesRouter.

(** The [$or] of the date filters: the stored interval [aStart, aEnd] against
    the requested one [bStart, bEnd]. *)
Definition overlapQuery (aStart aEnd bStart bEnd : Z) : bool :=
  ((bStart <=? aStart) && (aStart <=? bEnd))
  || ((bStart <=? aEnd) && (aEnd <=? bEnd))
  || ((aStart <=? bStart) && (bEnd <=? aEnd)).

Definition inRange (startDate endDate : Z) (l : Leave) : bool :=
  overlapQuery (lv_startDate l) (lv_endDate l) startDate endDate.

(** The [leaveFields] object of PUT /:id, as the change [$set] makes. *)
Definition leaveFields (status : option string) (file : option string)
  (user now : Z) (l : Leave) : Leave :=
  mkLeave (lv_id l) (lv_employee l) (lv_startDate l) (lv_endDate l)
          (lv_reason l) (lv_type l)
          (match status with
           | Some s => if truthy status then s else lv_status l
           | None => lv_status l
           end)
          (match file with
           | Some filename => ("/uploads/documents/" ++ filename)%string
           | None => lv_document l
           end)
          (lv_createdBy l) (Some user) (lv_createdAt l) (Some now).

(** [status === 'approved'] *)
Definition isApproved (status : option string) : bool :=
  match status with
  | Some s => (s =? "approved")%string
  | None => false
  end.

(** An entry of the calendar response. *)
Record CalendarEntry := mkEntry {
  cal_date : string;
  cal_employee : string;
  cal_type : string
}.

Section Routes.

Variable tz : Z.

(** [router.post('/', auth, upload.single('document'), ...)] with body
    [{employee, startDate, endDate, reason, type}] and the uploaded file's
    name, if any. *)
Definition post_root (employee : string) (startDate endDate : JsDate.DateParam)
  (reason type : string) (file : option string) (user now : Z)
  : Db -> Db * Response (Leave * option Employee) :=
  tryCatch
    (id <- castObjectId employee ;;
     employeeRecord <- Employee_findOne (fun e => emp_id e =? id) ;;
     match employeeRecord with
     | None => respond 404 "Employee not found"
     | Some employeeRecord =>
         if negb (isActive employeeRecord)
         then respond 400 "Only active employees can apply for leave"
         else
           hasAttendance <-
             Attendance_findOne
               (fun a => (att_employee a =? id)
                         && (att_status a =? "present")%string) ;;
           match hasAttendance with
           | None =>
               respond 400
                 "Only employees with attendance records can apply for leave"
           | Some _ =>
               s <- castDate startDate ;;
               e <- castDate endDate ;;
               overlappingLeave <-
                 Leave_findOne
                   (fun l => (lv_employee l =? id) && inRange s e l) ;;
               match overlappingLeave with
               | Some _ =>
                   respond 400 "Leave application overlaps with existing leave"
               | None =>
                   leave <-
                     Leave_create id s e reason type
                       (match file with
                        | Some filename =>
                            ("/uploads/documents/" ++ filename)%string
                        | None => ""
                        end)
                       user now ;;
                   populated <- populate (lv_employee leave) ;;
                   ret (leave, populated)
               end
           end
     end)
    serverError.

(** [router.get('/:id', auth, ...)] *)
Definition get_id (id : string)
  : Db -> Db * Response (Leave * option Employee) :=
  tryCatch
    (lid <- castObjectId id ;;
     leave <- Leave_findOne (fun l => lv_id l =? lid) ;;
     match leave with
     | None => respond 404 "Leave not found"
     | Some leave =>
         populated <- populate (lv_employee leave) ;;
         ret (leave, populated)
     end)
    (notFoundOnObjectId "Leave not found").

(** One turn of [for (const date of dateRange)]: [employee] is
    [leave.employee] after [populate]. *)
Definition syncDay (employee : option Employee) (user now : Z) (date : Z)
  : Handler unit :=
  let dayStart := JsDate.setHours0 tz date in
  let date := JsDate.setHours23 tz dayStart in
  attendance <-
    Attendance_findOne
      (fun a =>
         match employee with
         | Some e => att_employee a =? emp_id e
         | None => false
         end
         && (dayStart <=? att_date a) && (att_date a <=? date)) ;;
  match attendance with
  | Some attendance => Attendance_saveStatus attendance "leave"
  | None =>
      Attendance_create (option_map emp_id employee) date "leave" user now ;;;
      ret tt
  end.

(** The body of [if (status === 'approved') { ... }]. *)
Definition syncAttendance (leave : Leave) (employee : option Employee)
  (user now : Z) : Handler unit :=
  let start := JsDate.setHours0 tz (lv_startDate leave) in
  let end_ := JsDate.setHours23 tz (lv_endDate leave) in
  let dateRange := JsDate.dateRange start end_ in
  forEach (syncDay employee user now) dateRange.

(** [router.put('/:id', auth, upload.single('document'), ...)] with body
    [{status}]. A [null] body is [Json None]. *)
Definition put_id (id : string) (status : option string)
  (file : option string) (user now : Z)
  : Db -> Db * Response (option (Leave * option Employee)) :=
  tryCatch
    (lid <- castObjectId id ;;
     leave <- Leave_findOne (fun l => lv_id l =? lid) ;;
     match leave with
     | None => respond 404 "Leave not found"
     | Some _ =>
         leave <- Leave_findByIdAndUpdate lid
                    (leaveFields status file user now) ;;
         match leave with
         | None =>
             if isApproved status
             then throw TypeError
             else ret None
         | Some leave =>
             employee <- populate (lv_employee leave) ;;
             (if isApproved status
              then syncAttendance leave employee user now
              else ret tt) ;;;
             ret (Some (leave, employee))
         end
     end)
    serverError.

(** [router.get('/calendar', auth, ...)] with query [{month, year}], both
    numerals. [Leave.find] casts the two dates of its conditions before it
    reads the collection. *)
Definition get_calendar (month year : option Z)
  : Db -> Db * Response (list CalendarEntry) :=
  tryCatch
    (match month, year with
     | Some month, Some year =>
         let startDate := JsDate.newDate tz year (month - 1) 1 in
         let endDate := JsDate.newDate tz year month 0 in
         startDate <- castQueryDate startDate ;;
         endDate <- castQueryDate endDate ;;
         leaves <-
           Leave_find
             (fun l => (lv_status l =? "approved")%string
                       && inRange startDate endDate l) ;;
         calendarLeaves <-
           mapM
             (fun leave =>
                employee <- populate (lv_employee leave) ;;
                let start := Z.max (lv_startDate leave) startDate in
                let end_ := Z.min (lv_endDate leave) endDate in
                mapM
                  (fun currentDate =>
                     match employee with
                     | None => throw TypeError
                     | Some e =>
                         ret (mkEntry (JsDate.isoDate currentDate)
                                      (emp_name e) (lv_type leave))
                     end)
                  (JsDate.dateRange start end_))
             leaves ;;
         let flattenedLeaves := List.concat calendarLeaves in
         ret flattenedLeaves
     | _, _ => respond 400 "Month and year are required"
     end)
    serverError.

End Routes.

(** *** The route table *)

Inductive Method := GET | POST | PUT | DELETE.

Definition Method_eqb (a b : Method) : bool :=
  match a, b with
  | GET, GET | POST, POST | PUT, PUT | DELETE, DELETE => true
  | _, _ => false
  end.

(** A segment of a route path: fixed text or a named parameter. *)
Inductive Segment :=
| Lit (text : string)
| Param (name : string).

Inductive Route :=
| Index
| Create
| Show
| Update
| Remove
| Document
| Calendar.

(** The [router.METHOD(path, ...)] calls of the leaves router, in the order
    of the file. *)
Definition routes : list (Method * list Segment * Route) :=
  [ (GET, [], Index);
    (POST, [], Create);
    (GET, [Param "id"], Show);
    (PUT, [Param "id"], Update);
    (DELETE, [Param "id"], Remove);
    (GET, [Param "id"; Lit "document"], Document);
    (GET, [Lit "calendar"], Calendar) ].

Definition lowerChar (c : ascii) : ascii :=
  let n := N_of_ascii c in
  if (65 <=? n)%N && (n <=? 90)%N then ascii_of_N (n + 32) else c.

Fixpoint lower (s : string) : string :=
  match s with
  | EmptyString => EmptyString
  | String c rest => String (lowerChar c) (lower rest)
  end.

(** Express matches fixed text without regard to case; a parameter matches
    any non-empty segment. *)
Fixpoint matchPath (pattern : list Segment) (path : list string)
  : option (list (string * string)) :=
  match pattern, path with
  | [], [] => Some []
  | Lit text :: pattern', seg :: path' =>
      if (lower seg =? lower text)%string then matchPath pattern' path'
      else None
  | Param name :: pattern', seg :: path' =>
      if (seg =? "")%string then None
      else option_map (cons (name, seg)) (matchPath pattern' path')
  | _, _ => None
  end.

(** The first route of the table whose method and path match handles the
    request (no handler of this router calls [next]). *)
Fixpoint dispatch (table : list (Method * list Segment * Route))
  (method : Method) (path : list string)
  : option (Route * list (string * string)) :=
  match table with
  | [] => None
  | (m, pattern, route) :: rest =>
      if Method_eqb m method then
        match matchPath pattern path with
        | Some params => Some (route, params)
        | None => dispatch rest method path
        end
      else dispatch rest method path
  end.

Definition param (name : string) (params : list (string * string)) : string :=
  match find (fun p => (fst p =? name)%string) params with
  | Some p => snd p
  | None => ""
  end.

(** The body of a response of the two GET routes modelled here. *)
Inductive Body :=
| LeaveBody (leave : Leave) (employee : option Employee)
| CalendarBody (entries : list CalendarEntry).

Definition mapResponse {A B} (f : A -> B) (r : Db * Response A)
  : Db * Response B :=
  match r with
  | (db, Json a) => (db, Json (f a))
  | (db, Status code message) => (db, Status code message)
  end.

(** An authenticated GET request to the router: [None] when the route that
    takes it is [Index] or [Document] (not modelled) or when no route
    matches. *)
Definition serveGet (tz : Z) (path : list string) (month year : option Z)
  (db : Db) : option (Db * Response Body) :=
  match dispatch routes GET path with
  | Some (Show, params) =>
      Some (mapResponse (fun b => LeaveBody (fst b) (snd b))
                        (get_id (param "id" params) db))
  | Some (Calendar, _) =>
      Some (mapResponse CalendarBody (get_calendar tz month year db))
  | _ => None
  end.

End LeavesRouter.

(* ================================================================== *)
(** ** Vocabulary of the properties                                   *)
(* ================================================================== *)

(** The closed-interval predicate of the specification:
    [overlaps(aStart, aEnd, bStart, bEnd)]. *)
Definition overlaps (aStart aEnd bStart bEnd : Z) : bool :=
  (aStart <=? bEnd) && (bStart <=? aEnd).

(** The attendance documents of employee [e] on local calendar day [d]. *)
Definition recordsOn (tz : Z) (e d : Z) (db : Db) : list Attendance :=
  filter (fun a => (att_employee a =? e) && (JsDate.localDay tz (att_date a) =? d))
         (attendances db).



(** No attendance document carries an id the database has yet to hand out. *)
Definition freshIds (db : Db) : bool :=
  forallb (fun a => att_id a <? nextId db) (attendances db).

(** The stored leave with the given id. *)
Definition leaveById (id : Z) (db : Db) : option Leave :=
  find (fun l => lv_id l =? id) (leaves db).

(** The query of one turn of the sync: the documents of employee [e] dated
    within [lo, hi]. *)
Definition dayQuery (e lo hi : Z) (a : Attendance) : bool :=
  (att_employee a =? e) && (lo <=? att_date a) && (att_date a <=? hi).

(** The turn of the sync for [date] has nothing left to do: the document its
    query finds is stored with status 'leave'. *)
Definition settled (tz e date : Z) (db : Db) : Prop :=
  exists r,
    find (dayQuery e (JsDate.setHours0 tz date)
            (JsDate.setHours23 tz (JsDate.setHours0 tz date)))
         (attendances db) = Some r
    /\ updateOne att_id (att_id r) (set_att_status "leave") (attendances db)
       = attendances db.

(** The day numbers from [a] to [b], both included. *)
Definition daysBetween (a b : Z) : list Z :=
  map (fun k => a + Z.of_nat k) (seq 0 (Z.to_nat (b - a + 1))).

(** The UTC day number of a time value. *)
Definition utcDay (t : Z) : Z := t / JsDate.msPerDay.

(** A leave whose two dates are UTC midnights, in order, as dates given
    without a time of day are stored. *)
Definition wholeDays (l : Leave) : bool :=
  (lv_startDate l mod JsDate.msPerDay =? 0)
  && (lv_endDate l mod JsDate.msPerDay =? 0)
  && (lv_startDate l <=? lv_endDate l).

(** The calendar entries the specification asks for one leave: one per day
    of its span clipped to the days [first .. last] of the month. *)
Definition clippedEntries (first last : Z) (name : string) (l : Leave)
  : list LeavesRouter.CalendarEntry :=
  map (fun k => LeavesRouter.mkEntry (JsDate.isoDate (k * JsDate.msPerDay))
                                     name (lv_type l))
      (daysBetween (Z.max (utcDay (lv_startDate l)) first)
                   (Z.min (utcDay (lv_endDate l)) last)).

(** The keys of the unique index of the attendance collection. *)
Definition indexKeys (db : Db) : list (Z * Z) :=
  map (fun a => (att_employee a, att_date a)) (attendances db).

(** What the unique index of the schema states: no two attendance documents
    with the same employee and the same time value. *)
Definition uniqueIndex (db : Db) : Prop := NoDup (indexKeys db).

(** A handler body keeps a property of the database. *)
Definition keeps (I : Db -> Prop) {A} (h : Handler A) : Prop :=
  forall db, I db -> I (fst (h db)).

(** The database with another leaves collection. *)
Definition withLeaves (ls : list Leave) (db : Db) : Db :=
  mkDb (employees db) (attendances db) ls (nextId db).



(** The report row of an employee without any attendance in the window. *)
Definition zeroRow (e : Employee) : AttendanceRouter.ReportRow :=
  AttendanceRouter.mkRow (emp_id e) (emp_name e) (emp_position e)
    (emp_department e) (AttendanceRouter.mkTally 0 0 0 0 0).

(* ================================================================== *)
(** ** Sample data                                                     *)
(* ================================================================== *)

Module Sample.

(** 2024-01-[d] at 00:00 UTC, as [new Date('2024-01-dd')] gives. *)
Definition jan2024 (d : Z) : Z := 1704067200000 + (d - 1) * JsDate.msPerDay.

Definition hours (h : Z) : Z := h * 3600000.

Definition asha : string := "65a000000000000000000001".
Definition ashaId : Z := 31451414123094192609155874817.
Definition ravi : string := "65a000000000000000000002".
Definition raviId : Z := 31451414123094192609155874818.
Definition admin : Z := 9.

Definition ashaDoc : Employee :=
  mkEmployee ashaId "Asha" "Engineer" "Platform" "active".
Definition raviDoc : Employee :=
  mkEmployee raviId "Ravi" "Analyst" "Finance" "inactive".

(** Asha was present on 2024-01-05; no leave yet. *)
Definition db0 : Db :=
  mkDb [ashaDoc; raviDoc]
       [mkAttendance 1 ashaId (jan2024 5) "present" admin 0] [] 2.

(** The first leave of the scenario, 2024-01-10..2024-01-12, under id 2. *)
Definition leave2 (status : string) : Leave :=
  mkLeave 2 ashaId (jan2024 10) (jan2024 12) "flu" "sick" status "" admin
          None 100 None.

Definition dbWith (status : string) : Db :=
  mkDb [ashaDoc; raviDoc]
       [mkAttendance 1 ashaId (jan2024 5) "present" admin 0]
       [leave2 status] 3.

Definition leave2Id : string := "000000000000000000000002".

(** An approved leave 2024-01-30..2024-02-02 given as dates only. *)
Definition dbCalendar : Db :=
  mkDb [ashaDoc] []
       [mkLeave 7 ashaId (jan2024 30) (jan2024 33) "trip" "annual" "approved"
                "" admin None 0 None] 8.

(** An approved leave from 2024-01-31 09:00 UTC to 2024-02-02 09:00 UTC. *)
Definition dbCalendarHours : Db :=
  mkDb [ashaDoc] []
       [mkLeave 7 ashaId (jan2024 31 + hours 9) (jan2024 33 + hours 9) "trip"
                "annual" "approved" "" admin None 0 None] 8.

(** The attendance of the report scenario: present on 01-05, on leave on
    01-10, 01-11 and 01-12 (as the sync writes them, at the end of the day). *)
Definition dbJanuary : Db :=
  mkDb [ashaDoc; raviDoc]
       [mkAttendance 1 ashaId (jan2024 5) "present" admin 0;
        mkAttendance 3 ashaId (jan2024 11 - 1) "leave" admin 200;
        mkAttendance 4 ashaId (jan2024 12 - 1) "leave" admin 200;
        mkAttendance 5 ashaId (jan2024 13 - 1) "leave" admin 200]
       [leave2 "approved"] 6.

(** UTC+05:30. *)
Definition ist : Z := 19800000.

End Sample.

(* ================================================================== *)
(** ** The other routes of the routers                                 *)
(* ================================================================== *)

(** [deleteOne({_id: id})], what [doc.remove()] sends: the first document
    with that id goes. *)
Fixpoint deleteOne {A : Type} (idOf : A -> Z) (id : Z) (docs : list A)
  : list A :=
  match docs with
  | [] => []
  | d :: rest => if idOf d =? id then rest else d :: deleteOne idOf id rest
  end.

(** [.sort(option)] on one key: [leb a b] says that [a] may come before [b].
    Documents with equal keys stay in the order of the collection (MongoDB
    leaves their order open). *)
Fixpoint insertSorted {A : Type} (leb : A -> A -> bool) (x : A) (l : list A)
  : list A :=
  match l with
  | [] => [x]
  | y :: rest => if leb x y then x :: l else y :: insertSorted leb x rest
  end.

Definition sortBy {A : Type} (leb : A -> A -> bool) (l : list A) : list A :=
  fold_right (insertSorted leb) [] l.

(** A filter on an id sent as text: no filter when the text is absent or
    empty, a cast otherwise. *)
Definition idFilter {A : Type} (field : A -> Z) (value : option string)
  : Handler (A -> bool) :=
  match value with
  | Some s =>
      if truthy value
      then (id <- castObjectId s ;; ret (fun doc => field doc =? id))
      else ret (fun _ => true)
  | None => ret (fun _ => true)
  end.

(** A filter on a text field. *)
Definition textFilter {A : Type} (field : A -> string) (value : option string)
  : A -> bool :=
  match value with
  | Some s => if truthy value then fun doc => (field doc =? s)%string
              else fun _ => true
  | None => fun _ => true
  end.

Definition Attendance_remove (attendance : Attendance) : Handler unit :=
  fun db =>
    (mkDb (employees db)
          (deleteOne att_id (att_id attendance) (attendances db))
          (leaves db) (nextId db),
     Return tt).

Definition Leave_remove (leave : Leave) : Handler unit :=
  fun db =>
    (mkDb (employees db) (attendances db)
          (deleteOne lv_id (lv_id leave) (leaves db)) (nextId db),
     Return tt).

Definition Employee_remove (employee : Employee) : Handler unit :=
  fun db =>
    (mkDb (deleteOne emp_id (emp_id employee) (employees db))
          (attendances db) (leaves db) (nextId db),
     Return tt).

(** [Attendance.findByIdAndUpdate(id, {$set: {status}}, {new: true})]; no
    validator runs on an update. *)
Definition Attendance_findByIdAndUpdate (id : Z) (fields : Attendance -> Attendance)
  : Handler (option Attendance) :=
  fun db =>
    (mkDb (employees db)
          (updateOne att_id id fields (attendances db))
          (leaves db) (nextId db),
     Return (option_map fields (find (fun a => att_id a =? id) (attendances db)))).

Module AttendanceCrud.

Section Routes.

Variable tz : Z.

(** The [sortOption] of GET /: newest first, unless [sort] names the employee
    or the status. *)
Definition sortOption (sort : option string) : Attendance -> Attendance -> bool :=
  let byDateDesc := fun a b => att_date b <=? att_date a in
  match sort with
  | Some sort =>
      if (sort =? "employee")%string
      then fun a b => att_employee a <=? att_employee b
      else if (sort =? "status")%string
      then fun a b => String.leb (att_status a) (att_status b)
      else byDateDesc
  | None => byDateDesc
  end.

(** [router.get('/', auth, ...)] with query [{date, employee, status, sort}]. *)
Definition get_root (date : JsDate.DateParam) (employee status sort : option string)
  : Db -> Db * Response (list (Attendance * option Employee)) :=
  tryCatch
    (byDate <-
       match date with
       | JsDate.Absent => ret (fun _ : Attendance => true)
       | _ =>
           d <- castDate date ;;
           let startDate := JsDate.setHours0 tz d in
           let endDate := JsDate.setHours23 tz d in
           ret (fun a => (startDate <=? att_date a) && (att_date a <=? endDate))
       end ;;
     byEmployee <- idFilter att_employee employee ;;
     let byStatus := textFilter att_status status in
     found <- Attendance_find (fun a => byDate a && byEmployee a && byStatus a) ;;
     mapM (fun a => p <- populate (att_employee a) ;; ret (a, p))
          (sortBy (sortOption sort) found))
    serverError.

End Routes.

(** [router.put('/:id', auth, ...)] with a body that carries [status]. *)
Definition put_id (id : string) (status : string)
  : Db -> Db * Response (option (Attendance * option Employee)) :=
  tryCatch
    (aid <- castObjectId id ;;
     attendance <- Attendance_findOne (fun a => att_id a =? aid) ;;
     match attendance with
     | None => respond 404 "Attendance record not found"
     | Some _ =>
         attendance <- Attendance_findByIdAndUpdate aid (set_att_status status) ;;
         match attendance with
         | None => ret None
         | Some attendance =>
             populated <- populate (att_employee attendance) ;;
             ret (Some (attendance, populated))
         end
     end)
    serverError.

(** [router.delete('/:id', auth, ...)]; the body of the answer is its
    message. *)
Definition delete_id (id : string) : Db -> Db * Response string :=
  tryCatch
    (aid <- castObjectId id ;;
     attendance <- Attendance_findOne (fun a => att_id a =? aid) ;;
     match attendance with
     | None => respond 404 "Attendance record not found"
     | Some attendance =>
         Attendance_remove attendance ;;;
         ret "Attendance record removed"
     end)
    (notFoundOnObjectId "Attendance record not found").

End AttendanceCrud.

Module LeavesCrud.

(** The [sortOption] of GET /: newest first, unless [sort] names the employee
    or the start date. *)
Definition sortOption (sort : option string) : Leave -> Leave -> bool :=
  let byCreatedDesc := fun a b => lv_createdAt b <=? lv_createdAt a in
  match sort with
  | Some sort =>
      if (sort =? "employee")%string
      then fun a b => lv_employee a <=? lv_employee b
      else if (sort =? "startDate")%string
      then fun a b => lv_startDate a <=? lv_startDate b
      else byCreatedDesc
  | None => byCreatedDesc
  end.

(** [router.get('/', auth, ...)] with query
    [{employee, status, type, startDate, endDate, sort}]. *)
Definition get_root (employee status type : option string)
  (startDate endDate : JsDate.DateParam) (sort : option string)
  : Db -> Db * Response (list (Leave * option Employee)) :=
  tryCatch
    (byEmployee <- idFilter lv_employee employee ;;
     let byStatus := textFilter lv_status status in
     let byType := textFilter lv_type type in
     byDates <-
       match startDate, endDate with
       | JsDate.Absent, _ | _, JsDate.Absent => ret (fun _ : Leave => true)
       | _, _ =>
           s <- castDate startDate ;;
           e <- castDate endDate ;;
           ret (LeavesRouter.inRange s e)
       end ;;
     found <-
       Leave_find (fun l => byEmployee l && byStatus l && byType l && byDates l) ;;
     mapM (fun l => p <- populate (lv_employee l) ;; ret (l, p))
          (sortBy (sortOption sort) found))
    serverError.

(** [router.delete('/:id', auth, ...)] *)
Definition delete_id (id : string) : Db -> Db * Response string :=
  tryCatch
    (lid <- castObjectId id ;;
     leave <- Leave_findOne (fun l => lv_id l =? lid) ;;
     match leave with
     | None => respond 404 "Leave not found"
     | Some leave => Leave_remove leave ;;; ret "Leave removed"
     end)
    (notFoundOnObjectId "Leave not found").

(** [router.get('/:id/document', auth, ...)]; the body of the answer is
    [leave.document], the path [res.download] is given below the server's
    directory. *)
Definition get_id_document (id : string) : Db -> Db * Response string :=
  tryCatch
    (lid <- castObjectId id ;;
     leave <- Leave_findOne (fun l => lv_id l =? lid) ;;
     match leave with
     | None => respond 404 "Leave not found"
     | Some leave =>
         if (lv_document leave =? "")%string
         then respond 404 "Document not found"
         else ret (lv_document leave)
     end)
    serverError.

End LeavesCrud.

(** The employees router (routes/employees.js), on the fields of the model. *)
Module EmployeesRouter.

(** The [employeeFields] object of PUT /:id, as the change [$set] makes to
    the fields of the model. *)
Definition employeeFields (name position department status : option string)
  (e : Employee) : Employee :=
  let pick (value : option string) (old : string) :=
    match value with
    | Some s => if truthy value then s else old
    | None => old
    end in
  mkEmployee (emp_id e) (pick name (emp_name e)) (pick position (emp_position e))
             (pick department (emp_department e)) (pick status (emp_status e)).

Definition Employee_findByIdAndUpdate (id : Z) (fields : Employee -> Employee)
  : Handler (option Employee) :=
  fun db =>
    (mkDb (updateOne emp_id id fields (employees db)) (attendances db)
          (leaves db) (nextId db),
     Return (option_map fields (find (fun e => emp_id e =? id) (employees db)))).

(** [router.put('/:id', auth, ...)] with body
    [{name, position, department, status}] and, in [othersRejected], whether
    the store refuses the rest of the body (an email another employee has, a
    joining date or a salary that does not cast). *)
Definition put_id (id : string) (name position department status : option string)
  (othersRejected : bool) : Db -> Db * Response (option Employee) :=
  tryCatch
    (eid <- castObjectId id ;;
     employee <- Employee_findOne (fun e => emp_id e =? eid) ;;
     match employee with
     | None => respond 404 "Employee not found"
     | Some _ =>
         if othersRejected then throw ValidationError
         else
           Employee_findByIdAndUpdate eid
             (employeeFields name position department status)
     end)
    serverError.

(** [router.delete('/:id', auth, ...)] *)
Definition delete_id (id : string) : Db -> Db * Response string :=
  tryCatch
    (eid <- castObjectId id ;;
     employee <- Employee_findOne (fun e => emp_id e =? eid) ;;
     match employee with
     | None => respond 404 "Employee not found"
     | Some employee => Employee_remove employee ;;; ret "Employee removed"
     end)
    (notFoundOnObjectId "Employee not found").

End EmployeesRouter.

(** *** Vocabulary of the further properties *)

(** No two attendance documents share an id. *)
Definition uniqueIds (db : Db) : Prop := NoDup (map att_id (attendances db)).

(** What a run of the sync needs of the ids, and keeps: fresh and unique. *)
Definition wellKept (db : Db) : Prop := freshIds db = true /\ uniqueIds db.

(** The attendance documents of employee [e] whose local day lies within the
    days of [startDate] and [endDate]. *)
Definition inSpan (tz : Z) (e startDate endDate : Z) (a : Attendance) : bool :=
  (att_employee a =? e)
  && (JsDate.localDay tz startDate <=? JsDate.localDay tz (att_date a))
  && (JsDate.localDay tz (att_date a) <=? JsDate.localDay tz endDate).

(** Employee and interval of the stored leaves. *)
Definition leaveSpans (db : Db) : list (Z * Z * Z) :=
  map (fun l => (lv_employee l, lv_startDate l, lv_endDate l)) (leaves db).

(** No stored leave ends before it starts, and no two stored leaves of one
    employee share a time value. *)
Definition disjointLeaves (db : Db) : Prop :=
  Forall (fun x => snd (fst x) <= snd x) (leaveSpans db)
  /\ ForallOrdPairs
       (fun x y => fst (fst x) = fst (fst y) ->
                   overlaps (snd (fst x)) (snd x) (snd (fst y)) (snd y) = false)
       (leaveSpans db).

(** A body that only reads the employees: it gives the same outcome on a
    database with other leaves, and writes nothing. *)
Definition readsEmployees {A} (h : Handler A) : Prop :=
  forall ls db, h (withLeaves ls db) = (withLeaves ls db, snd (h db))
                /\ fst (h db) = db.

(** No stored leave carries an id the database has yet to hand out. *)
Definition freshLeaveIds (db : Db) : bool :=
  forallb (fun l => lv_id l <? nextId db) (leaves db).

(** *** More sample data *)

Module Sample2.

Definition meera : string := "65a000000000000000000003".
Definition meeraId : Z := 31451414123094192609155874819.

Definition meeraDoc : Employee :=
  mkEmployee meeraId "Meera" "Designer" "Platform" "active".

(** Two active employees; Asha was present on 2024-01-05 and has a pending
    leave 2024-01-10..2024-01-12 under id 2. *)
Definition dbTwo : Db :=
  mkDb [Sample.ashaDoc; meeraDoc]
       [mkAttendance 1 Sample.ashaId (Sample.jan2024 5) "present" Sample.admin 0]
       [Sample.leave2 "pending"] 3.

Definition attendance1 : Attendance :=
  mkAttendance 1 Sample.ashaId (Sample.jan2024 5) "present" Sample.admin 0.

Definition attendance1Id : string := "000000000000000000000001".

End Sample2.


(* ================================================================== *)
(** ** Interval overlap                                                *)
(* ================================================================== *)

Section Overlap.

Import LeavesRouter.

Lemma overlapQuery_true_iff aStart aEnd bStart bEnd :
  overlapQuery aStart aEnd bStart bEnd = true <->
  (bStart <= aStart <= bEnd) \/ (bStart <= aEnd <= bEnd)
  \/ (aStart <= bStart /\ bEnd <= aEnd).
Proof.
  unfold overlapQuery.
  rewrite !orb_true_iff, !andb_true_iff, !Z.leb_le. tauto.
Qed.

Lemma overlaps_true_iff aStart aEnd bStart bEnd :
  overlaps aStart aEnd bStart bEnd = true <->
  aStart <= bEnd /\ bStart <= aEnd.
Proof. unfold overlaps. now rewrite andb_true_iff, !Z.leb_le. Qed.

Lemma bool_eq_of_iff (a b : bool) : (a = true <-> b = true) -> a = b.
Proof. destruct a, b; intuition congruence. Qed.

End Overlap.

(** C10. For well-formed intervals (aStart <= aEnd, bStart <= bEnd) the
    three-case disjunction of the routes' date filter is the closed-interval
    test [aStart <= bEnd /\ bStart <= aEnd] of the specification, and so it
    gives the same answer when its two intervals are exchanged. *)
Theorem overlapQuery_is_overlaps (aStart aEnd bStart bEnd : Z) :
  aStart <= aEnd -> bStart <= bEnd ->
  LeavesRouter.overlapQuery aStart aEnd bStart bEnd
  = overlaps aStart aEnd bStart bEnd
  /\ LeavesRouter.overlapQuery aStart aEnd bStart bEnd
     = LeavesRouter.overlapQuery bStart bEnd aStart aEnd.
Proof.
  intros Ha Hb. split; apply bool_eq_of_iff.
  - rewrite overlapQuery_true_iff, overlaps_true_iff. lia.
  - rewrite !overlapQuery_true_iff. lia.
Qed.

Lemma overlapQuery_is_overlaps_witness :
  LeavesRouter.overlapQuery 10 12 11 15 = overlaps 10 12 11 15
  /\ LeavesRouter.overlapQuery 10 12 11 15
     = LeavesRouter.overlapQuery 11 15 10 12.
Proof. apply (overlapQuery_is_overlaps 10 12 11 15); lia. Defined.

(* ================================================================== *)
(** ** Routing                                                         *)
(* ================================================================== *)

Section Routing.

Import LeavesRouter.

(** A one-segment GET path never gets past the [/:id] route. *)
Lemma dispatch_get_segment (seg : string) :
  dispatch routes GET [seg]
  = if (seg =? "")%string then None else Some (Show, [("id", seg)]).
Proof.
  unfold routes. cbn.
  destruct (seg =? "")%string eqn:E; [|reflexivity].
  apply String.eqb_eq in E. subst seg. reflexivity.
Qed.

Lemma dispatch_not_calendar method path params :
  dispatch routes method path <> Some (Calendar, params).
Proof.
  unfold routes.
  destruct method; cbn;
    destruct path as [|seg [|seg' rest]]; cbn; try discriminate;
    repeat
      (match goal with
       | |- context [if ?b then _ else _] => destruct b eqn:?
       | |- context [matchPath [] ?l] => destruct l
       end; cbn);
    try discriminate.
  all: match goal with
       | H : (?seg =? "")%string = true |- _ =>
           apply String.eqb_eq in H; subst seg; discriminate
       end.
Qed.

Lemma get_id_calendar db :
  get_id "calendar" db = (db, Status 404 "Leave not found").
Proof. reflexivity. Qed.

End Routing.

(** C8. [GET /:id] is registered before [GET /calendar], so a GET request
    for the path [/calendar] is taken by the [:id] route with id
    ["calendar"]; that text is no ObjectId, the lookup raises a cast error
    of kind ObjectId and the client receives 404 'Leave not found',
    whatever the query and the database. No request of any method or path
    is dispatched to the calendar route. *)
Theorem calendar_route_shadowed :
  LeavesRouter.dispatch LeavesRouter.routes LeavesRouter.GET ["calendar"]
  = Some (LeavesRouter.Show, [("id", "calendar")])
  /\ (forall tz month year db,
        LeavesRouter.serveGet tz ["calendar"] month year db
        = Some (db, Status 404 "Leave not found"))
  /\ (forall method path params,
        LeavesRouter.dispatch LeavesRouter.routes method path
        <> Some (LeavesRouter.Calendar, params)).
Proof.
  split; [reflexivity|]. split.
  - intros tz month year db. reflexivity.
  - exact dispatch_not_calendar.
Qed.

(* ================================================================== *)
(** ** Calendar days                                                   *)
(* ================================================================== *)

Ltac day_arith :=
  unfold JsDate.setHours0, JsDate.setHours23, JsDate.localDay,
    JsDate.nextDate, JsDate.dateRangeFuel, JsDate.msPerDay in *;
  Z.div_mod_to_equations; lia.

Section CalendarDays.

Import JsDate.
Variable tz : Z.

Lemma setHours0_le t : setHours0 tz t <= t.
Proof. day_arith. Qed.

Lemma setHours23_ge t : t <= setHours23 tz t.
Proof. day_arith. Qed.

Lemma localDay_setHours0 t : localDay tz (setHours0 tz t) = localDay tz t.
Proof. day_arith. Qed.

Lemma localDay_setHours23 t : localDay tz (setHours23 tz t) = localDay tz t.
Proof. day_arith. Qed.

Lemma setHours0_idem t : setHours0 tz (setHours0 tz t) = setHours0 tz t.
Proof. day_arith. Qed.

(** The window [setHours0 s .. setHours23 e] holds exactly the time values
    whose local day lies between the days of [s] and [e]. *)
Lemma window_days s e x :
  (setHours0 tz s <= x /\ x <= setHours23 tz e)
  <-> (localDay tz s <= localDay tz x /\ localDay tz x <= localDay tz e).
Proof. day_arith. Qed.

Lemma window_daysb s e x :
  (setHours0 tz s <=? x) && (x <=? setHours23 tz e)
  = (localDay tz s <=? localDay tz x) && (localDay tz x <=? localDay tz e).
Proof.
  apply bool_eq_of_iff.
  rewrite !andb_true_iff, !Z.leb_le. apply window_days.
Qed.

Lemma window_empty s e :
  localDay tz e < localDay tz s -> setHours23 tz e < setHours0 tz s.
Proof. day_arith. Qed.

Lemma dateRange_empty start end_ : end_ < start -> dateRange start end_ = [].
Proof.
  intros H. unfold dateRange.
  destruct (dateRangeFuel start end_); cbn; [reflexivity|].
  destruct (start <=? end_) eqn:E; [|reflexivity].
  apply Z.leb_le in E. lia.
Qed.

(** The loop stops on its condition, not for want of fuel: more fuel gives
    the same list. *)
Lemma dateRangeLoop_fuel fuel extra start end_ :
  (end_ - start) / msPerDay + 1 <= Z.of_nat fuel ->
  dateRangeLoop (fuel + extra) start end_ = dateRangeLoop fuel start end_.
Proof.
  revert start. induction fuel as [|fuel IH]; intros start H.
  - cbn. destruct extra; cbn; [reflexivity|].
    destruct (start <=? end_) eqn:E; [|reflexivity].
    apply Z.leb_le in E. day_arith.
  - cbn. destruct (start <=? end_) eqn:E; [|reflexivity].
    f_equal. apply IH. apply Z.leb_le in E. day_arith.
Qed.

Lemma dateRange_total extra start end_ :
  dateRangeLoop (dateRangeFuel start end_ + extra) start end_
  = dateRange start end_.
Proof.
  apply dateRangeLoop_fuel. day_arith.
Qed.

End CalendarDays.

(* ================================================================== *)
(** ** Running handlers                                                *)
(* ================================================================== *)

Section Running.

(** A turn that only reads the database can be run ahead of the loop. *)
Lemma mapM_pure {A B} (f : A -> Handler B) (g : A -> B) l db :
  (forall x, In x l -> f x db = (db, Return (g x))) ->
  mapM f l db = (db, Return (map g l)).
Proof.
  intros H. induction l as [|x l IH]; cbn; [reflexivity|].
  unfold bind. rewrite (H x (or_introl eq_refl)).
  rewrite IH by (intros; apply H; now right). reflexivity.
Qed.

Lemma mapM_ext {A B} (f g : A -> Handler B) l db :
  (forall x db', In x l -> f x db' = g x db') ->
  mapM f l db = mapM g l db.
Proof.
  revert db. induction l as [|x l IH]; intros db H; cbn; [reflexivity|].
  unfold bind. rewrite (H x db (or_introl eq_refl)).
  destruct (g x db) as [db' [y| |]]; try reflexivity.
  rewrite IH; [reflexivity|]. intros; apply H; now right.
Qed.


Lemma filter_none {A} (p : A -> bool) l :
  (forall x, In x l -> p x = false) -> filter p l = [].
Proof.
  induction l as [|x l IH]; intros H; cbn; [reflexivity|].
  rewrite (H x (or_introl eq_refl)). apply IH. intros; apply H; now right.
Qed.

Lemma db_eta db :
  mkDb (employees db) (attendances db) (leaves db) (nextId db) = db.
Proof. now destruct db. Qed.

End Running.

(* ================================================================== *)
(** ** Inverted ranges                                                 *)
(* ================================================================== *)

(** C5, as the routes behave. When the end day lies before the start day the
    expansion of the range is the empty list, the attendance sync of such a
    leave writes nothing and ends normally, and the report answers with one
    row per active employee in which every count is zero. Nothing fails. *)
Theorem inverted_range_is_empty (tz s e : Z) :
  JsDate.localDay tz e < JsDate.localDay tz s ->
  JsDate.dateRange (JsDate.setHours0 tz s) (JsDate.setHours23 tz e) = []
  /\ (forall leave employee user now db,
        lv_startDate leave = s -> lv_endDate leave = e ->
        LeavesRouter.syncAttendance tz leave employee user now db
        = (db, Return tt))
  /\ (forall db,
        AttendanceRouter.get_report tz (JsDate.Parsed s) (JsDate.Parsed e) db
        = (db, Json (map zeroRow (filter isActive (employees db))))).
Proof.
  intros H. pose proof (window_empty tz s e H) as Hw.
  assert (Hr : JsDate.dateRange (JsDate.setHours0 tz s) (JsDate.setHours23 tz e)
               = []) by now apply dateRange_empty.
  split; [exact Hr|]. split.
  - intros leave employee user now db Hs He.
    unfold LeavesRouter.syncAttendance. rewrite Hs, He, Hr. reflexivity.
  - intros db.
    unfold AttendanceRouter.get_report, tryCatch, bind, Employee_find,
      castDate, ret, Attendance_find.
    rewrite (filter_none _ (attendances db)).
    + cbn.
      rewrite (mapM_pure _ zeroRow); [reflexivity|].
      intros x _. reflexivity.
    + intros a _. apply andb_false_iff.
      destruct (JsDate.setHours0 tz s <=? att_date a) eqn:E1; [right|now left].
      apply Z.leb_le in E1. apply Z.leb_gt. lia.
Qed.

Lemma inverted_range_is_empty_witness :
  JsDate.dateRange (JsDate.setHours0 0 (Sample.jan2024 12))
                   (JsDate.setHours23 0 (Sample.jan2024 10)) = []
  /\ (forall leave employee user now db,
        lv_startDate leave = Sample.jan2024 12 ->
        lv_endDate leave = Sample.jan2024 10 ->
        LeavesRouter.syncAttendance 0 leave employee user now db
        = (db, Return tt))
  /\ (forall db,
        AttendanceRouter.get_report 0 (JsDate.Parsed (Sample.jan2024 12))
          (JsDate.Parsed (Sample.jan2024 10)) db
        = (db, Json (map zeroRow (filter isActive (employees db))))).
Proof.
  apply (inverted_range_is_empty 0 (Sample.jan2024 12) (Sample.jan2024 10)).
  vm_compute. reflexivity.
Defined.

(** C5 as stated fails: for the range 2024-01-31 .. 2024-01-01 (start after
    end) the expansion is the empty list and the report is a normal answer
    whose only row has all counts zero; no InvalidRange is raised. *)
Lemma inverted_range_not_rejected :
  JsDate.localDay 0 (Sample.jan2024 1) < JsDate.localDay 0 (Sample.jan2024 31)
  /\ JsDate.dateRange (JsDate.setHours0 0 (Sample.jan2024 31))
                      (JsDate.setHours23 0 (Sample.jan2024 1)) = []
  /\ AttendanceRouter.get_report 0 (JsDate.Parsed (Sample.jan2024 31))
       (JsDate.Parsed (Sample.jan2024 1)) Sample.db0
     = (Sample.db0, Json [zeroRow Sample.ashaDoc]).
Proof. vm_compute. repeat split; reflexivity. Qed.

(* ================================================================== *)
(** ** Creating a leave: POST /leaves                                  *)
(* ================================================================== *)

Section LeaveCreation.

Lemma find_is_some {A} (p : A -> bool) l x :
  In x l -> p x = true -> exists y, find p l = Some y.
Proof.
  intros Hin Hp. destruct (find p l) as [y|] eqn:E; [now exists y|].
  pose proof (find_none _ _ E x Hin). congruence.
Qed.

End LeaveCreation.

(** C3, as the route behaves. The overlap query of POST /leaves has no
    condition on the status: for an existing, active employee with a
    'present' attendance document and parseable dates, the creation fails
    with 'Leave application overlaps with existing leave' exactly when some
    stored leave of that employee, of any status (a rejected one too),
    matches the date filter. *)
Theorem overlap_check_ignores_status
  (employee : string) (id : Z) (emp : Employee) (s e : Z)
  (reason type : string) (file : option string) (user now : Z) (db : Db) :
  ObjectId.cast employee = Some id ->
  find (fun x => emp_id x =? id) (employees db) = Some emp ->
  isActive emp = true ->
  (exists a, In a (attendances db) /\ att_employee a = id
             /\ att_status a = "present") ->
  snd (LeavesRouter.post_root employee (JsDate.Parsed s) (JsDate.Parsed e)
         reason type file user now db)
  = Status 400 "Leave application overlaps with existing leave"
  <-> exists l, In l (leaves db) /\ lv_employee l = id
                /\ LeavesRouter.inRange s e l = true.
Proof.
  intros Hcast Hemp Hact (a & Ha & Hae & Has).
  destruct (find_is_some (fun a => (att_employee a =? id)
                                   && (att_status a =? "present")%string)
              (attendances db) a Ha) as [a' Ha'].
  { now rewrite Hae, Has, Z.eqb_refl. }
  unfold LeavesRouter.post_root, tryCatch, bind, castObjectId, Employee_findOne,
    Attendance_findOne, castDate, Leave_findOne, ret, respond.
  rewrite Hcast. cbn. rewrite Hemp. cbn. rewrite Hact. cbn. rewrite Ha'. cbn.
  destruct (find _ (leaves db)) as [l|] eqn:El; cbn.
  - split; [intros _|reflexivity].
    apply find_some in El. destruct El as [Hin Hl].
    apply andb_true_iff in Hl. destruct Hl as [H1 H2].
    exists l. repeat split; [assumption|now apply Z.eqb_eq|assumption].
  - split.
    + unfold Leave_create, populate, Employee_findOne.
      destruct (_ || _); cbn; discriminate.
    + intros (l & Hin & Hl & Hr).
      pose proof (find_none _ _ El l Hin) as Hn. cbn in Hn.
      rewrite Hl, Z.eqb_refl, Hr in Hn. discriminate.
Qed.

Lemma overlap_check_ignores_status_witness :
  snd (LeavesRouter.post_root Sample.asha (JsDate.Parsed (Sample.jan2024 11))
         (JsDate.Parsed (Sample.jan2024 15)) "trip" "annual" None
         Sample.admin 300 (Sample.dbWith "rejected"))
  = Status 400 "Leave application overlaps with existing leave"
  <-> exists l, In l (leaves (Sample.dbWith "rejected"))
                /\ lv_employee l = Sample.ashaId
                /\ LeavesRouter.inRange (Sample.jan2024 11) (Sample.jan2024 15) l
                   = true.
Proof.
  apply (overlap_check_ignores_status Sample.asha Sample.ashaId Sample.ashaDoc).
  - vm_compute. reflexivity.
  - vm_compute. reflexivity.
  - vm_compute. reflexivity.
  - exists (mkAttendance 1 Sample.ashaId (Sample.jan2024 5) "present"
                         Sample.admin 0).
    split; [left; reflexivity|split; reflexivity].
Defined.

(** C3 as stated fails: the only stored leave (2024-01-10..2024-01-12) is
    rejected, yet a request for 2024-01-11..2024-01-15 is refused as
    overlapping; without that rejected leave the same request succeeds. *)
Lemma rejected_leave_blocks_creation :
  map lv_status (leaves (Sample.dbWith "rejected")) = ["rejected"]
  /\ snd (LeavesRouter.post_root Sample.asha
            (JsDate.Parsed (Sample.jan2024 11))
            (JsDate.Parsed (Sample.jan2024 15)) "trip" "annual" None
            Sample.admin 300 (Sample.dbWith "rejected"))
     = Status 400 "Leave application overlaps with existing leave"
  /\ exists leave populated,
       snd (LeavesRouter.post_root Sample.asha
              (JsDate.Parsed (Sample.jan2024 11))
              (JsDate.Parsed (Sample.jan2024 15)) "trip" "annual" None
              Sample.admin 300 Sample.db0)
       = Json (leave, populated).
Proof.
  split; [reflexivity|]. split; [vm_compute; reflexivity|].
  eexists; eexists. vm_compute. reflexivity.
Qed.

(** C9, as the route behaves. The checks of POST /leaves run in order:
    the creation fails with 'Only active employees can apply for leave'
    exactly when the employee exists and its status is not 'active'; it
    fails with 'Only employees with attendance records can apply for leave'
    exactly when the employee exists, is active and has no attendance
    document with status 'present'; a leave that is created has status
    'pending' and is stored. *)
Theorem leave_create_failures
  (employee : string) (startDate endDate : JsDate.DateParam)
  (reason type : string) (file : option string) (user now : Z) (db : Db) :
  let r := LeavesRouter.post_root employee startDate endDate reason type file
             user now db in
  (snd r = Status 400 "Only active employees can apply for leave"
   <-> exists id emp,
         ObjectId.cast employee = Some id
         /\ find (fun x => emp_id x =? id) (employees db) = Some emp
         /\ emp_status emp <> "active")
  /\ (snd r
      = Status 400 "Only employees with attendance records can apply for leave"
      <-> exists id emp,
            ObjectId.cast employee = Some id
            /\ find (fun x => emp_id x =? id) (employees db) = Some emp
            /\ emp_status emp = "active"
            /\ forall a, In a (attendances db) ->
                         ~ (att_employee a = id /\ att_status a = "present"))
  /\ (forall leave populated,
        snd r = Json (leave, populated) ->
        lv_status leave = "pending" /\ In leave (leaves (fst r))).
Proof.
  cbv zeta.
  unfold LeavesRouter.post_root, tryCatch, bind, castObjectId, Employee_findOne,
    Attendance_findOne, castDate, Leave_findOne, ret, respond, throw.
  destruct (ObjectId.cast employee) as [id|] eqn:Hcast; cbn.
  2:{ repeat split; try discriminate; intros (i & em & H & _); discriminate. }
  destruct (find _ (employees db)) as [emp|] eqn:Hemp; cbn.
  2:{ repeat split; try discriminate;
      intros (i & em & H & H' & _); injection H as <-; congruence. }
  unfold isActive.
  destruct (emp_status emp =? "active")%string eqn:Hact; cbn.
  2:{ apply String.eqb_neq in Hact. repeat split; try discriminate.
      - intros _. now exists id, emp.
      - intros (i & em & H & H' & H'' & _). injection H as <-.
        rewrite Hemp in H'. injection H' as <-. contradiction. }
  apply String.eqb_eq in Hact.
  destruct (find _ (attendances db)) as [a|] eqn:Hatt; cbn.
  2:{ repeat split; try discriminate.
      - intros (i & em & H & H' & H''). injection H as <-.
        rewrite Hemp in H'. injection H' as <-. contradiction.
      - intros _. exists id, emp. repeat split; try assumption.
        intros a Hin [H1 H2].
        pose proof (find_none _ _ Hatt a Hin) as Hn. cbn in Hn.
        rewrite H1, H2, Z.eqb_refl in Hn. discriminate. }
  apply find_some in Hatt. destruct Hatt as [Hin Hp].
  apply andb_true_iff in Hp. destruct Hp as [Hp1 Hp2].
  apply Z.eqb_eq in Hp1. apply String.eqb_eq in Hp2.
  assert (Hno1 : ~ exists i em,
             Some id = Some i
             /\ find (fun x => emp_id x =? i) (employees db) = Some em
             /\ emp_status em <> "active").
  { intros (i & em & H & H' & H''). injection H as <-.
    rewrite Hemp in H'. injection H' as <-. contradiction. }
  assert (Hno2 : ~ exists i em,
             Some id = Some i
             /\ find (fun x => emp_id x =? i) (employees db) = Some em
             /\ emp_status em = "active"
             /\ forall a, In a (attendances db) ->
                          ~ (att_employee a = i /\ att_status a = "present")).
  { intros (i & em & H & _ & _ & H'). injection H as <-. now apply (H' a). }
  destruct startDate as [| |s]; cbn;
    try solve [repeat split; try discriminate; intros; exfalso; auto].
  destruct endDate as [| |e]; cbn;
    try solve [repeat split; try discriminate; intros; exfalso; auto].
  destruct (find _ (leaves db)) as [l|] eqn:El; cbn;
    try solve [repeat split; try discriminate; intros; exfalso; auto].
  unfold Leave_create, populate, Employee_findOne.
  destruct (_ || _); cbn;
    try solve [repeat split; try discriminate; intros; exfalso; auto].
  split; [|split].
  - split; [discriminate|intros; exfalso; auto].
  - split; [discriminate|intros; exfalso; auto].
  - intros leave populated H. injection H as <- _. split; [reflexivity|].
    apply in_or_app. right. now left.
Qed.

(** C9 as stated fails: Ravi has no 'present' attendance document, but he is
    inactive, and the creation fails on that earlier check, not with the
    missing-attendance message. *)
Lemma inactive_employee_without_attendance :
  filter (fun a => (att_employee a =? Sample.raviId)
                   && (att_status a =? "present")%string)
         (attendances Sample.db0) = []
  /\ snd (LeavesRouter.post_root Sample.ravi
            (JsDate.Parsed (Sample.jan2024 10))
            (JsDate.Parsed (Sample.jan2024 12)) "flu" "sick" None
            Sample.admin 100 Sample.db0)
     = Status 400 "Only active employees can apply for leave"
  /\ snd (LeavesRouter.post_root Sample.ravi
            (JsDate.Parsed (Sample.jan2024 10))
            (JsDate.Parsed (Sample.jan2024 12)) "flu" "sick" None
            Sample.admin 100 Sample.db0)
     <> Status 400
          "Only employees with attendance records can apply for leave".
Proof.
  split; [vm_compute; reflexivity|].
  split; [vm_compute; reflexivity|vm_compute; discriminate].
Qed.

(* ================================================================== *)
(** ** Updating a leave: PUT /leaves/:id                               *)
(* ================================================================== *)

Section LeaveUpdate.

Import LeavesRouter.

Lemma find_updateOne {A} (idOf : A -> Z) id f docs :
  (forall x, idOf (f x) = idOf x) ->
  find (fun x => idOf x =? id) (updateOne idOf id f docs)
  = option_map f (find (fun x => idOf x =? id) docs).
Proof.
  intros Hf. induction docs as [|d docs IH]; cbn; [reflexivity|].
  destruct (idOf d =? id) eqn:E; cbn.
  - now rewrite Hf, E.
  - now rewrite E.
Qed.

(** Running a loop keeps whatever each of its turns keeps. *)
Lemma forEach_keeps {A} (I : Db -> Prop) (f : A -> Handler unit) l db :
  (forall x db', I db' -> I (fst (f x db'))) ->
  I db -> I (fst (forEach f l db)).
Proof.
  intros Hf. revert db. induction l as [|x l IH]; intros db HI; cbn.
  - exact HI.
  - unfold bind. pose proof (Hf x db HI) as H1.
    destruct (f x db) as [db' [[]| |]]; cbn in *; auto.
Qed.

Variable tz : Z.

Lemma syncDay_keeps_leaves employee user now date db :
  leaves (fst (syncDay tz employee user now date db)) = leaves db
  /\ employees (fst (syncDay tz employee user now date db)) = employees db.
Proof.
  unfold syncDay, bind, Attendance_findOne, Attendance_saveStatus,
    Attendance_create, ret.
  destruct (find _ (attendances db)); cbn; [now split|].
  destruct employee; cbn; [|now split].
  destruct (existsb _ _); cbn; now split.
Qed.

Lemma syncAttendance_keeps_leaves leave employee user now db :
  leaves (fst (syncAttendance tz leave employee user now db)) = leaves db.
Proof.
  unfold syncAttendance.
  apply (forEach_keeps (fun db' => leaves db' = leaves db)); [|reflexivity].
  intros x db' H. rewrite <- H. apply syncDay_keeps_leaves.
Qed.

Lemma leaveFields_id status file user now l :
  lv_id (leaveFields status file user now l) = lv_id l.
Proof. reflexivity. Qed.

(** The database PUT /:id leaves behind, for a leave that exists. *)
Lemma put_id_state id lid status file user now db l :
  ObjectId.cast id = Some lid ->
  leaveById lid db = Some l ->
  let l' := leaveFields status file user now l in
  let db1 := mkDb (employees db) (attendances db)
               (updateOne lv_id lid (leaveFields status file user now)
                  (leaves db)) (nextId db) in
  fst (put_id tz id status file user now db)
  = if isApproved status
    then fst (syncAttendance tz l'
                (find (fun e => emp_id e =? lv_employee l') (employees db))
                user now db1)
    else db1.
Proof.
  intros Hcast Hl. cbv zeta. unfold leaveById in Hl.
  unfold put_id, tryCatch, bind, castObjectId, Leave_findOne,
    Leave_findByIdAndUpdate, populate, Employee_findOne, ret.
  rewrite Hcast. cbn. rewrite Hl. cbn. rewrite Hl. cbn.
  destruct (isApproved status); [|reflexivity].
  destruct (syncAttendance tz _ _ user now _) as [db2 [[]| |]]; reflexivity.
Qed.

Lemma isApproved_status status file user now l :
  isApproved status = true ->
  lv_status (leaveFields status file user now l) = "approved".
Proof.
  destruct status as [s|]; cbn; [|discriminate].
  intros E. apply String.eqb_eq in E. now subst s.
Qed.

End LeaveUpdate.

(** C4, as the route behaves. PUT /:id stores whatever non-empty status the
    request carries, whatever the current status of the leave (so
    rejected to approved, or approved to pending, are performed like
    pending to approved); without a status in the request the stored status
    stays. The attendance sync runs exactly for a request whose status is
    'approved'. For any other request (another status, or none, as in a
    PUT that only uploads a document, also on a leave that is approved
    already) the database afterwards is the database before with the leave
    updated: attendance, employees and the id counter are what they were.
    For a request with status 'approved' the stored status is 'approved'
    and the database afterwards is what the sync of the updated leave makes
    of it. So whenever the resulting status is something else ('pending' or
    'rejected', say) the attendance collection is left as it was. *)
Theorem put_stores_requested_status
  (tz : Z) (id : string) (lid : Z) (status : option string)
  (file : option string) (user now : Z) (db : Db) (l : Leave) :
  ObjectId.cast id = Some lid ->
  leaveById lid db = Some l ->
  let db' := fst (LeavesRouter.put_id tz id status file user now db) in
  let l' := LeavesRouter.leaveFields status file user now l in
  let updated :=
    withLeaves (updateOne lv_id lid
                  (LeavesRouter.leaveFields status file user now) (leaves db))
               db in
  leaveById lid db' = Some l'
  /\ (forall s, status = Some s -> s <> "" -> lv_status l' = s)
  /\ (truthy status = false -> lv_status l' = lv_status l)
  /\ (lv_status l' <> "approved" ->
      attendances db' = attendances db /\ nextId db' = nextId db)
  /\ (status <> Some "approved" ->
      db' = updated
      /\ attendances db' = attendances db /\ nextId db' = nextId db
      /\ employees db' = employees db)
  /\ (status = Some "approved" ->
      lv_status l' = "approved"
      /\ db' = fst (LeavesRouter.syncAttendance tz l'
                      (find (fun e => emp_id e =? lv_employee l')
                            (employees db))
                      user now updated)).
Proof.
  intros Hcast Hl. cbv zeta.
  rewrite (put_id_state tz id lid status file user now db l Hcast Hl).
  set (l' := LeavesRouter.leaveFields status file user now l).
  unfold withLeaves.
  set (db1 := mkDb _ _ _ _).
  assert (H1 : leaveById lid db1 = Some l').
  { unfold leaveById, db1 in *. cbn.
    rewrite find_updateOne by reflexivity. now rewrite Hl. }
  assert (Hs : forall s, status = Some s -> s <> "" -> lv_status l' = s).
  { intros s -> Hne. cbn. apply String.eqb_neq in Hne. now rewrite Hne. }
  assert (Hf : truthy status = false -> lv_status l' = lv_status l).
  { destruct status as [s|]; cbn; [|reflexivity].
    destruct (s =? "")%string; [reflexivity|discriminate]. }
  assert (Ha : LeavesRouter.isApproved status = true
               <-> status = Some "approved").
  { destruct status as [s|]; cbn; [|split; discriminate].
    rewrite String.eqb_eq. split; [now intros ->|now intros [= ->]]. }
  destruct (LeavesRouter.isApproved status) eqn:E.
  - assert (Hap : lv_status l' = "approved") by now apply isApproved_status.
    split; [|split; [exact Hs|split; [exact Hf|split; [|split]]]].
    + unfold leaveById in *. now rewrite syncAttendance_keeps_leaves.
    + intros Hne. now exfalso.
    + intros Hne. exfalso. apply Hne. now apply Ha.
    + intros _. split; [exact Hap|reflexivity].
  - split; [exact H1|split; [exact Hs|split; [exact Hf|split; [|split]]]].
    + intros _. now split.
    + intros _. repeat split.
    + intros Heq. apply Ha in Heq. discriminate.
Qed.

Lemma put_stores_requested_status_witness :
  let db' := fst (LeavesRouter.put_id 0 Sample.leave2Id (Some "approved") None
                    Sample.admin 200 (Sample.dbWith "rejected")) in
  let l' := LeavesRouter.leaveFields (Some "approved") None Sample.admin 200
              (Sample.leave2 "rejected") in
  let updated :=
    withLeaves (updateOne lv_id 2
                  (LeavesRouter.leaveFields (Some "approved") None Sample.admin
                     200)
                  (leaves (Sample.dbWith "rejected")))
               (Sample.dbWith "rejected") in
  leaveById 2 db' = Some l'
  /\ (forall s, Some "approved" = Some s -> s <> "" -> lv_status l' = s)
  /\ (truthy (Some "approved") = false ->
      lv_status l' = lv_status (Sample.leave2 "rejected"))
  /\ (lv_status l' <> "approved" ->
      attendances db' = attendances (Sample.dbWith "rejected")
      /\ nextId db' = nextId (Sample.dbWith "rejected"))
  /\ (Some "approved" <> Some "approved" ->
      db' = updated
      /\ attendances db' = attendances (Sample.dbWith "rejected")
      /\ nextId db' = nextId (Sample.dbWith "rejected")
      /\ employees db' = employees (Sample.dbWith "rejected"))
  /\ (Some "approved" = Some "approved" ->
      lv_status l' = "approved"
      /\ db' = fst (LeavesRouter.syncAttendance 0 l'
                      (find (fun e => emp_id e =? lv_employee l')
                            (employees (Sample.dbWith "rejected")))
                      Sample.admin 200 updated)).
Proof.
  apply (put_stores_requested_status 0 Sample.leave2Id 2 (Some "approved") None
           Sample.admin 200 (Sample.dbWith "rejected")
           (Sample.leave2 "rejected")).
  - vm_compute. reflexivity.
  - vm_compute. reflexivity.
Defined.

(** C4 as stated fails: a rejected leave is moved to approved by a PUT with
    status 'approved', and the sync writes its three days of attendance. *)
Lemma rejected_leave_gets_approved :
  option_map lv_status (leaveById 2 (Sample.dbWith "rejected"))
  = Some "rejected"
  /\ option_map lv_status
       (leaveById 2
          (fst (LeavesRouter.put_id 0 Sample.leave2Id (Some "approved") None
                  Sample.admin 200 (Sample.dbWith "rejected"))))
     = Some "approved"
  /\ map (fun a => (JsDate.isoDate (att_date a), att_status a))
         (attendances
            (fst (LeavesRouter.put_id 0 Sample.leave2Id (Some "approved") None
                    Sample.admin 200 (Sample.dbWith "rejected"))))
     = [("2024-01-05", "present"); ("2024-01-10", "leave");
        ("2024-01-11", "leave"); ("2024-01-12", "leave")].
Proof. vm_compute. repeat split; reflexivity. Qed.

(** A PUT without a status, one that only uploads a document, on a leave
    that is approved already: the document is stored, the status stays and
    no sync runs (the three days of the leave get no attendance). *)
Example document_upload_does_not_sync :
  let db' := fst (LeavesRouter.put_id 0 Sample.leave2Id None (Some "note.pdf")
                    Sample.admin 200 (Sample.dbWith "approved")) in
  option_map lv_status (leaveById 2 db') = Some "approved"
  /\ option_map lv_document (leaveById 2 db')
     = Some "/uploads/documents/note.pdf"
  /\ attendances db' = attendances (Sample.dbWith "approved")
  /\ map (fun a => (JsDate.isoDate (att_date a), att_status a))
         (attendances db')
     = [("2024-01-05", "present")].
Proof. vm_compute. repeat split; reflexivity. Qed.

(* ================================================================== *)
(** ** The attendance report: GET /attendance/report                   *)
(* ================================================================== *)

Section Report.

Import AttendanceRouter.

Lemma filter_twice {A} (p q : A -> bool) l :
  filter p (filter q l) = filter (fun x => q x && p x) l.
Proof.
  induction l as [|x l IH]; cbn; [reflexivity|].
  destruct (q x); cbn; [destruct (p x)|]; now rewrite IH.
Qed.



Variable tz : Z.


End Report.



(** Where a reference does not resolve (the employee was removed), the first
    comparison of the report's filter throws and the answer is a 500. *)
Example report_with_removed_employee :
  snd (AttendanceRouter.get_report 0 (JsDate.Parsed (Sample.jan2024 1))
         (JsDate.Parsed (Sample.jan2024 31))
         (mkDb [Sample.ashaDoc]
               [mkAttendance 1 77 (Sample.jan2024 5) "present" Sample.admin 0]
               [] 2))
  = Status 500 "Server error".
Proof. vm_compute. reflexivity. Qed.

(** C6 fails on the code. With Asha and Meera active and Asha present on
    2024-01-05, the report of January has its two rows. DELETE
    /employees/:id then removes Asha and keeps her attendance document.
    Meera is still active and, by the claim, has a row of zeros in every
    report; but the report reads [record.employee._id] of every record in
    the range, the populated employee of Asha's document is null, and the
    answer is 500 'Server error' with no row at all. The list of that day,
    GET /attendance, populates the same document and does answer, with a
    null employee. *)
Theorem report_fails_after_employee_removal :
  let january :=
    AttendanceRouter.get_report 0 (JsDate.Parsed (Sample.jan2024 1))
      (JsDate.Parsed (Sample.jan2024 31)) in
  let db := fst (EmployeesRouter.delete_id Sample.asha Sample2.dbTwo) in
  snd (january Sample2.dbTwo)
  = Json [AttendanceRouter.mkRow Sample.ashaId "Asha" "Engineer" "Platform"
            (AttendanceRouter.mkTally 1 0 0 0 1);
          AttendanceRouter.mkRow Sample2.meeraId "Meera" "Designer" "Platform"
            (AttendanceRouter.mkTally 0 0 0 0 0)]
  /\ filter isActive (employees db) = [Sample2.meeraDoc]
  /\ attendances db = [Sample2.attendance1]
  /\ snd (january db) = Status 500 "Server error"
  /\ snd (AttendanceCrud.get_root 0 (JsDate.Parsed (Sample.jan2024 5)) None
            None None db)
     = Json [(Sample2.attendance1, None)].
Proof. vm_compute. repeat split; reflexivity. Qed.

(* ================================================================== *)
(** ** One attendance document per employee and day?                   *)
(* ================================================================== *)

(** What the two writers of the attendance collection do keep: the unique
    index of the schema, on the employee and the exact time value. *)

Section UniqueIndex.

Lemma keeps_ret I {A} (a : A) : keeps I (ret a).
Proof. intros db H. exact H. Qed.

Lemma keeps_respond I {A} code message : keeps I (@respond A code message).
Proof. intros db H. exact H. Qed.

Lemma keeps_throw I {A} e : keeps I (@throw A e).
Proof. intros db H. exact H. Qed.

Lemma keeps_bind I {A B} (c : Handler A) (k : A -> Handler B) :
  keeps I c -> (forall a, keeps I (k a)) -> keeps I (bind c k).
Proof.
  intros Hc Hk db H. unfold bind. specialize (Hc db H).
  destruct (c db) as [db' [a| |]]; cbn in *; auto. now apply Hk.
Qed.

Lemma keeps_forEach I {A} (f : A -> Handler unit) l :
  (forall x, keeps I (f x)) -> keeps I (forEach f l).
Proof.
  intros Hf. induction l as [|x l IH]; cbn.
  - apply keeps_ret.
  - apply keeps_bind; [apply Hf|intros _; exact IH].
Qed.

Lemma keeps_tryCatch I {A} (h : Handler A) onError db :
  keeps I h -> I db -> I (fst (tryCatch h onError db)).
Proof.
  intros Hh H. unfold tryCatch. specialize (Hh db H).
  now destruct (h db) as [db' [a| |]].
Qed.

Lemma keeps_read I {A} (q : Db -> A) : keeps I (fun db => (db, Return (q db))).
Proof. intros db H. exact H. Qed.

Lemma NoDup_snoc {A} (l : list A) x : NoDup l -> ~ In x l -> NoDup (l ++ [x]).
Proof.
  induction l as [|d l IH]; intros Hnd Hx; cbn.
  - constructor; [intros []|constructor].
  - inversion Hnd as [|? ? Hd Hl]; subst. constructor.
    + intros Hin. apply in_app_or in Hin. destruct Hin as [Hin|[->|[]]].
      * contradiction.
      * apply Hx. now left.
    + apply IH; [exact Hl|]. intros Hin. apply Hx. now right.
Qed.

Lemma indexKeys_updateOne id s l :
  map (fun a => (att_employee a, att_date a))
      (updateOne att_id id (set_att_status s) l)
  = map (fun a => (att_employee a, att_date a)) l.
Proof.
  induction l as [|d l IH]; cbn; [reflexivity|].
  destruct (att_id d =? id); cbn; [reflexivity|now rewrite IH].
Qed.

Lemma keeps_saveStatus a s : keeps uniqueIndex (Attendance_saveStatus a s).
Proof.
  intros db H. unfold Attendance_saveStatus.
  destruct (negb _); cbn; [exact H|].
  unfold uniqueIndex, indexKeys. cbn. now rewrite indexKeys_updateOne.
Qed.

Lemma keeps_create employee date status user now :
  keeps uniqueIndex (Attendance_create employee date status user now).
Proof.
  intros db H. unfold Attendance_create.
  destruct employee as [e|]; [|exact H].
  destruct (negb _); [exact H|].
  destruct (existsb _ (attendances db)) eqn:E; [exact H|].
  unfold uniqueIndex, indexKeys in *. cbn. rewrite map_app. cbn.
  apply NoDup_snoc; [exact H|].
  intros Hin. apply in_map_iff in Hin. destruct Hin as (a & Ha & Hin).
  injection Ha as H1 H2.
  assert (existsb (fun a => (att_employee a =? e) && (att_date a =? date))
                  (attendances db) = true).
  { apply existsb_exists. exists a. split; [exact Hin|].
    now rewrite H1, H2, !Z.eqb_refl. }
  congruence.
Qed.

Lemma post_attendance_keeps_index employee date status user now db :
  uniqueIndex db ->
  uniqueIndex (fst (AttendanceRouter.post_root employee date status user now db)).
Proof.
  apply keeps_tryCatch.
  apply keeps_bind; [unfold castObjectId; destruct (ObjectId.cast employee);
                     [apply keeps_ret|apply keeps_throw]|].
  intros id. apply keeps_bind; [apply keeps_read|].
  intros [e|]; [|apply keeps_respond].
  destruct (negb (isActive e)); [apply keeps_respond|].
  apply keeps_bind; [destruct date; try apply keeps_throw; apply keeps_ret|].
  intros d. apply keeps_bind; [apply keeps_read|].
  intros [a|]; [apply keeps_respond|].
  apply keeps_bind; [apply keeps_create|].
  intros a. apply keeps_bind; [apply keeps_read|].
  intros p. apply keeps_ret.
Qed.

Lemma syncAttendance_keeps_index tz leave employee user now :
  keeps uniqueIndex (LeavesRouter.syncAttendance tz leave employee user now).
Proof.
  apply keeps_forEach. intros date.
  apply keeps_bind; [apply keeps_read|].
  intros [a|]; [apply keeps_saveStatus|].
  apply keeps_bind; [apply keeps_create|]. intros _. apply keeps_ret.
Qed.

Lemma put_leave_keeps_index tz id status file user now db :
  uniqueIndex db ->
  uniqueIndex (fst (LeavesRouter.put_id tz id status file user now db)).
Proof.
  apply keeps_tryCatch.
  apply keeps_bind; [unfold castObjectId; destruct (ObjectId.cast id);
                     [apply keeps_ret|apply keeps_throw]|].
  intros lid. apply keeps_bind; [apply keeps_read|].
  intros [l|]; [|apply keeps_respond].
  apply keeps_bind; [intros db' H; exact H|].
  intros [l'|].
  - apply keeps_bind; [apply keeps_read|]. intros e.
    apply keeps_bind; [|intros _; apply keeps_ret].
    destruct (LeavesRouter.isApproved status);
      [apply syncAttendance_keeps_index|apply keeps_ret].
  - destruct (LeavesRouter.isApproved status);
      [apply keeps_throw|apply keeps_ret].
Qed.

End UniqueIndex.

(** C1 fails on the code. POST /attendance looks for a document with the
    same employee and exactly the same time value, while the sync stores its
    documents at 23:59:59.999 of the day. So (first part) after the leave
    2024-01-10..2024-01-12 is approved, a manual entry for 2024-01-10 is
    accepted and the employee has two documents on that day; and (second
    part) two manual entries at 09:00 and at 17:00 of one day are both
    accepted. *)
Theorem manual_entry_duplicates_a_day :
  (let synced :=
     fst (LeavesRouter.put_id 0 Sample.leave2Id (Some "approved") None
            Sample.admin 200 (Sample.dbWith "pending")) in
   let r :=
     AttendanceRouter.post_root Sample.asha (JsDate.Parsed (Sample.jan2024 10))
       "present" Sample.admin 300 synced in
   (exists a p, snd r = Json (a, p))
   /\ map (fun a => (att_date a, att_status a))
          (recordsOn 0 Sample.ashaId (JsDate.localDay 0 (Sample.jan2024 10))
                     (fst r))
      = [(Sample.jan2024 11 - 1, "leave"); (Sample.jan2024 10, "present")])
  /\ (let r1 :=
        AttendanceRouter.post_root Sample.asha
          (JsDate.Parsed (Sample.jan2024 8 + Sample.hours 9)) "present"
          Sample.admin 300 Sample.db0 in
      let r2 :=
        AttendanceRouter.post_root Sample.asha
          (JsDate.Parsed (Sample.jan2024 8 + Sample.hours 17)) "absent"
          Sample.admin 400 (fst r1) in
      (exists a p, snd r1 = Json (a, p))
      /\ (exists a p, snd r2 = Json (a, p))
      /\ map (fun a => (att_date a, att_status a))
             (recordsOn 0 Sample.ashaId (JsDate.localDay 0 (Sample.jan2024 8))
                        (fst r2))
         = [(Sample.jan2024 8 + Sample.hours 9, "present");
            (Sample.jan2024 8 + Sample.hours 17, "absent")]).
Proof.
  split; cbv zeta.
  - split; [eexists; eexists; vm_compute; reflexivity|].
    vm_compute. reflexivity.
  - split; [eexists; eexists; vm_compute; reflexivity|].
    split; [eexists; eexists; vm_compute; reflexivity|].
    vm_compute. reflexivity.
Qed.

(* ================================================================== *)
(** ** The leave calendar: GET /leaves/calendar                        *)
(* ================================================================== *)

Ltac eval_tests :=
  repeat match goal with
         | |- context [?x <=? ?y] =>
             let v := eval vm_compute in (x <=? y) in
             match v with
             | true => change (x <=? y) with true
             | false => change (x <=? y) with false
             end
         | |- context [?x >? ?y] =>
             let v := eval vm_compute in (x >? y) in
             match v with
             | true => change (x >? y) with true
             | false => change (x >? y) with false
             end
         end; cbv iota.

(** The first of a month comes at least 28 days before the first of the next. *)
Lemma MakeDay_next_month year month :
  JsDate.MakeDay year (month - 1) 1 + 28 <= JsDate.MakeDay year month 1.
Proof.
  unfold JsDate.MakeDay.
  pose proof (Z.div_mod (month - 1) 12 ltac:(lia)) as Hdm.
  pose proof (Z.mod_pos_bound (month - 1) 12 ltac:(lia)) as Hb.
  set (q := (month - 1) / 12) in *. set (m := (month - 1) mod 12) in *.
  assert (Hcase : (m < 11 /\ month / 12 = q /\ month mod 12 = m + 1)
                  \/ (m = 11 /\ month / 12 = q + 1 /\ month mod 12 = 0)).
  { destruct (Z.eq_dec m 11) as [E|E]; [right|left]; repeat split; try lia.
    - symmetry. apply (Z.div_unique month 12 (q + 1) 0); lia.
    - symmetry. apply (Z.mod_unique month 12 (q + 1) 0); lia.
    - symmetry. apply (Z.div_unique month 12 q (m + 1)); lia.
    - symmetry. apply (Z.mod_unique month 12 q (m + 1)); lia. }
  destruct Hcase as [(Hm & -> & ->)|(Hm & -> & ->)].
  - assert (Hm' : m = 0 \/ m = 1 \/ m = 2 \/ m = 3 \/ m = 4 \/ m = 5 \/ m = 6
                  \/ m = 7 \/ m = 8 \/ m = 9 \/ m = 10) by lia.
    clearbody m q. clear Hdm Hb Hm.
    repeat (destruct Hm' as [->|Hm']); try subst m;
      unfold JsDate.daysFromCivil; cbv zeta; eval_tests;
      Z.div_mod_to_equations; lia.
  - rewrite Hm. clearbody q. clear.
    unfold JsDate.daysFromCivil; cbv zeta; eval_tests;
      Z.div_mod_to_equations; lia.
Qed.

(** A valid [new Date(year, monthIndex, day)] on a UTC server is the
    midnight of the day [MakeDay] gives. *)
Lemma newDate_utc year monthIndex day t :
  JsDate.newDate 0 year monthIndex day = Some t ->
  let yr := if (0 <=? year) && (year <=? 99) then 1900 + year else year in
  utcDay t = JsDate.MakeDay yr monthIndex day
  /\ t = utcDay t * JsDate.msPerDay
  /\ Z.abs t <= JsDate.maxTime.
Proof.
  unfold JsDate.newDate, JsDate.TimeClip. cbv zeta.
  set (yr := if (0 <=? year) && (year <=? 99) then 1900 + year else year).
  destruct ((Z.abs yr <=? JsDate.maxYear) && _); [|discriminate].
  rewrite Z.sub_0_r.
  destruct (Z.abs _ <=? JsDate.maxTime) eqn:E; [|discriminate].
  intros H. injection H as <-. apply Z.leb_le in E.
  unfold utcDay. rewrite Z.div_mul by (unfold JsDate.msPerDay; lia).
  repeat split. exact E.
Qed.

(** The window of a month is in order, whatever the month and year. *)
Lemma month_window_ordered year month startDate endDate :
  JsDate.newDate 0 year (month - 1) 1 = Some startDate ->
  JsDate.newDate 0 year month 0 = Some endDate ->
  utcDay startDate <= utcDay endDate.
Proof.
  intros Hs He.
  destruct (newDate_utc _ _ _ _ Hs) as (-> & _).
  destruct (newDate_utc _ _ _ _ He) as (-> & _).
  set (yr := if (0 <=? year) && (year <=? 99) then 1900 + year else year).
  pose proof (MakeDay_next_month yr month) as H.
  unfold JsDate.MakeDay in *. lia.
Qed.

Section CalendarUtc.

Import LeavesRouter.

Lemma dateRangeLoop_days b n a :
  Z.of_nat n = Z.max 0 (b - a + 1) ->
  JsDate.dateRangeLoop n (a * JsDate.msPerDay) (b * JsDate.msPerDay)
  = map (fun k => (a + Z.of_nat k) * JsDate.msPerDay) (seq 0 n).
Proof.
  revert a. induction n as [|n IH]; intros a Hn; [reflexivity|].
  cbn [JsDate.dateRangeLoop].
  destruct (a * JsDate.msPerDay <=? b * JsDate.msPerDay) eqn:E.
  - cbn [seq map]. f_equal; [f_equal; lia|].
    unfold JsDate.nextDate.
    replace (a * JsDate.msPerDay + JsDate.msPerDay)
      with ((a + 1) * JsDate.msPerDay) by lia.
    rewrite IH by lia. rewrite <- seq_shift, map_map.
    apply map_ext. intros k. f_equal. lia.
  - apply Z.leb_gt in E. unfold JsDate.msPerDay in E. lia.
Qed.

Lemma dateRange_days a b :
  JsDate.dateRange (a * JsDate.msPerDay) (b * JsDate.msPerDay)
  = map (fun k => k * JsDate.msPerDay) (daysBetween a b).
Proof.
  assert (Hf : JsDate.dateRangeFuel (a * JsDate.msPerDay) (b * JsDate.msPerDay)
               = Z.to_nat (b - a + 1)).
  { unfold JsDate.dateRangeFuel.
    replace (b * JsDate.msPerDay - a * JsDate.msPerDay)
      with ((b - a) * JsDate.msPerDay) by lia.
    now rewrite Z.div_mul by (unfold JsDate.msPerDay; lia). }
  unfold JsDate.dateRange, daysBetween. rewrite Hf, map_map.
  apply dateRangeLoop_days. lia.
Qed.

Lemma wholeDays_spec l :
  wholeDays l = true ->
  lv_startDate l = utcDay (lv_startDate l) * JsDate.msPerDay
  /\ lv_endDate l = utcDay (lv_endDate l) * JsDate.msPerDay
  /\ utcDay (lv_startDate l) <= utcDay (lv_endDate l).
Proof.
  unfold wholeDays, utcDay. rewrite !andb_true_iff, !Z.eqb_eq, Z.leb_le.
  unfold JsDate.msPerDay. intros [[H1 H2] H3].
  repeat split; Z.div_mod_to_equations; lia.
Qed.

(** On whole days, the date filter of the route against the month window is
    the overlap of the day intervals. *)
Lemma inRange_days first last l :
  wholeDays l = true -> first <= last ->
  inRange (first * JsDate.msPerDay) (last * JsDate.msPerDay) l
  = overlaps (utcDay (lv_startDate l)) (utcDay (lv_endDate l)) first last.
Proof.
  intros Hw Hfl. destruct (wholeDays_spec l Hw) as (Hs & He & Hle).
  unfold inRange. rewrite Hs at 1. rewrite He at 1.
  set (a := utcDay (lv_startDate l)) in *.
  set (b := utcDay (lv_endDate l)) in *.
  apply bool_eq_of_iff.
  rewrite overlapQuery_true_iff, overlaps_true_iff.
  unfold JsDate.msPerDay. lia.
Qed.

End CalendarUtc.

(** The handler of the calendar (the function registered for GET
    /calendar), on a server whose local time is UTC, for a database whose
    approved leaves are stored as whole days and refer to existing
    employees. When the first and the last day of the month are dates that
    JavaScript can represent, the answer is what the specification states:
    for every approved leave that overlaps the month, in the order of the
    collection, one entry per day of its span clipped to the month. When
    one of them is an Invalid Date (a year or month out of range) the
    answer is 500 'Server error'. Nothing is written either way. *)
Lemma calendar_on_whole_days (month year : Z) (db : Db) :
  (forall l, In l (leaves db) -> lv_status l = "approved" ->
             wholeDays l = true
             /\ exists e, find (fun x => emp_id x =? lv_employee l)
                               (employees db) = Some e) ->
  LeavesRouter.get_calendar 0 (Some month) (Some year) db
  = (db,
     match JsDate.newDate 0 year (month - 1) 1,
           JsDate.newDate 0 year month 0 with
     | Some startDate, Some endDate =>
         let first := utcDay startDate in
         let last := utcDay endDate in
         Json (flat_map
                 (fun l =>
                    match find (fun x => emp_id x =? lv_employee l)
                               (employees db)
                    with
                    | Some e => clippedEntries first last (emp_name e) l
                    | None => []
                    end)
                 (filter (fun l => (lv_status l =? "approved")%string
                                   && overlaps (utcDay (lv_startDate l))
                                               (utcDay (lv_endDate l))
                                               first last)
                         (leaves db)))
     | _, _ => Status 500 "Server error"
     end).
Proof.
  intros Hdb.
  unfold LeavesRouter.get_calendar, tryCatch, bind at 1 2, castQueryDate.
  destruct (JsDate.newDate 0 year (month - 1) 1) as [startDate|] eqn:Es;
    [|reflexivity].
  destruct (JsDate.newDate 0 year month 0) as [endDate|] eqn:Ee;
    [|reflexivity].
  cbv zeta. cbn [ret fst snd].
  pose proof (month_window_ordered year month _ _ Es Ee) as Hfl.
  destruct (newDate_utc _ _ _ _ Es) as (_ & Hs & _).
  destruct (newDate_utc _ _ _ _ Ee) as (_ & He & _).
  set (first := utcDay startDate) in *.
  set (last := utcDay endDate) in *.
  unfold bind at 1, Leave_find.
  rewrite Hs, He.
  rewrite (filter_ext_in _
             (fun l => (lv_status l =? "approved")%string
                       && overlaps (utcDay (lv_startDate l))
                                   (utcDay (lv_endDate l)) first last)).
  2:{ intros l Hin. destruct (lv_status l =? "approved")%string eqn:E;
        [|reflexivity].
      apply String.eqb_eq in E. destruct (Hdb l Hin E) as [Hw _].
      cbn. now apply inRange_days. }
  set (found := filter _ (leaves db)).
  unfold bind.
  rewrite (mapM_pure _
             (fun l => match find (fun x => emp_id x =? lv_employee l)
                                  (employees db) with
                       | Some e => clippedEntries first last (emp_name e) l
                       | None => []
                       end)).
  - cbn. now rewrite flat_map_concat_map.
  - intros l Hin. apply filter_In in Hin. destruct Hin as [Hin Hq].
    apply andb_true_iff in Hq. destruct Hq as [Hq _].
    apply String.eqb_eq in Hq.
    destruct (Hdb l Hin Hq) as [Hw [e Hfind]].
    destruct (wholeDays_spec l Hw) as (Hls & Hle & _).
    unfold populate, Employee_findOne. rewrite Hfind.
    rewrite Hls at 1. rewrite Hle at 1.
    rewrite Z.mul_max_distr_nonneg_r by (unfold JsDate.msPerDay; lia).
    rewrite Z.mul_min_distr_nonneg_r by (unfold JsDate.msPerDay; lia).
    rewrite dateRange_days.
    rewrite (mapM_pure _
               (fun t => LeavesRouter.mkEntry (JsDate.isoDate t) (emp_name e)
                                             (lv_type l))).
    + unfold clippedEntries. now rewrite map_map.
    + intros t _. reflexivity.
Qed.

(** The range of Date. January 2024 is a window of valid dates; the year
    300000 lies beyond the last time value (September 275760), both dates of
    its window are invalid and the handler answers 500. *)
Example calendar_year_out_of_range :
  JsDate.newDate 0 2024 0 1 = Some (Sample.jan2024 1)
  /\ JsDate.newDate 0 2024 1 0 = Some (Sample.jan2024 31)
  /\ JsDate.newDate 0 275760 8 13 = Some JsDate.maxTime
  /\ JsDate.newDate 0 275760 8 14 = None
  /\ JsDate.newDate 0 300000 0 1 = None
  /\ LeavesRouter.get_calendar 0 (Some 1) (Some 300000) Sample.dbCalendar
     = (Sample.dbCalendar, Status 500 "Server error").
Proof. vm_compute. repeat split; reflexivity. Qed.

(** C7 fails on the code. The month window ends at [new Date(year, month, 0)],
    the first instant of the month's last day, not its last instant.
    (1) On a UTC server a leave approved for 2024-01-31 09:00 ..
    2024-02-02 09:00 matches none of the three date filters and has no entry
    in the calendar of January, although the sync writes attendance for
    2024-01-31 for the same leave. (2) On a server at UTC+05:30 the
    specification's own scenario, an approved leave 2024-01-30..2024-02-02
    given as dates, gives the entry of 01-30 only. (3) On a UTC server that
    scenario gives the two entries the specification expects. *)
Theorem calendar_misses_last_day :
  (snd (LeavesRouter.get_calendar 0 (Some 1) (Some 2024) Sample.dbCalendarHours)
   = Json []
   /\ map (fun a => (JsDate.isoDate (att_date a), att_status a))
          (attendances
             (fst (LeavesRouter.put_id 0 "000000000000000000000007"
                     (Some "approved") None Sample.admin 200
                     Sample.dbCalendarHours)))
      = [("2024-01-31", "leave"); ("2024-02-01", "leave");
         ("2024-02-02", "leave")])
  /\ snd (LeavesRouter.get_calendar Sample.ist (Some 1) (Some 2024)
            Sample.dbCalendar)
     = Json [LeavesRouter.mkEntry "2024-01-30" "Asha" "annual"]
  /\ snd (LeavesRouter.get_calendar 0 (Some 1) (Some 2024) Sample.dbCalendar)
     = Json [LeavesRouter.mkEntry "2024-01-30" "Asha" "annual";
             LeavesRouter.mkEntry "2024-01-31" "Asha" "annual"].
Proof. vm_compute. repeat split; reflexivity. Qed.

(* ================================================================== *)
(** ** The attendance sync is idempotent                               *)
(* ================================================================== *)

Section UpdateOne.

Context {A : Type} (idOf : A -> Z) (f : A -> A).
Hypothesis f_id : forall x, idOf (f x) = idOf x.

Lemma updateOne_idem a l :
  (forall x, f (f x) = f x) ->
  updateOne idOf a f (updateOne idOf a f l) = updateOne idOf a f l.
Proof.
  intros Hff. induction l as [|d l IH]; cbn; [reflexivity|].
  destruct (idOf d =? a) eqn:E; cbn.
  - now rewrite f_id, E, Hff.
  - now rewrite E, IH.
Qed.

Lemma updateOne_fixed a b l :
  updateOne idOf a f l = l ->
  updateOne idOf a f (updateOne idOf b f l) = updateOne idOf b f l.
Proof.
  induction l as [|d l IH]; cbn; [reflexivity|].
  destruct (idOf d =? a) eqn:Ea; intros H; injection H as H;
    destruct (idOf d =? b) eqn:Eb; cbn.
  - now rewrite f_id, Ea, H, H.
  - now rewrite Ea, H.
  - now rewrite f_id, Ea, H.
  - now rewrite Ea, IH.
Qed.

Lemma updateOne_app_found a l l2 :
  (exists x, In x l /\ idOf x = a) ->
  updateOne idOf a f (l ++ l2) = updateOne idOf a f l ++ l2.
Proof.
  induction l as [|d l IH]; intros (x & Hin & Hx); [contradiction|]. cbn.
  destruct (idOf d =? a) eqn:E; [reflexivity|].
  destruct Hin as [->|Hin].
  - apply Z.eqb_neq in E. contradiction.
  - cbn. f_equal. apply IH. now exists x.
Qed.

Lemma updateOne_app_fresh a l l2 :
  (forall x, In x l -> idOf x <> a) ->
  updateOne idOf a f (l ++ l2) = l ++ updateOne idOf a f l2.
Proof.
  induction l as [|d l IH]; intros H; [reflexivity|]. cbn.
  destruct (idOf d =? a) eqn:E.
  - apply Z.eqb_eq in E. now destruct (H d (or_introl eq_refl)).
  - f_equal. apply IH. intros; apply H; now right.
Qed.

Lemma find_updateOne_query (p : A -> bool) a l r :
  (forall x, p (f x) = p x) ->
  find p l = Some r ->
  exists r', find p (updateOne idOf a f l) = Some r' /\ idOf r' = idOf r.
Proof.
  intros Hp. induction l as [|d l IH]; cbn; [discriminate|].
  destruct (idOf d =? a) eqn:E; cbn.
  - rewrite Hp. destruct (p d).
    + intros H. injection H as <-. exists (f d). now rewrite f_id.
    + intros H. now exists r.
  - destruct (p d).
    + intros H. injection H as <-. now exists d.
    + exact IH.
Qed.

Lemma forallb_updateOne (q : A -> bool) a l :
  (forall x, q (f x) = q x) ->
  forallb q (updateOne idOf a f l) = forallb q l.
Proof.
  intros Hq. induction l as [|d l IH]; cbn; [reflexivity|].
  destruct (idOf d =? a); cbn; [now rewrite Hq|now rewrite IH].
Qed.

End UpdateOne.

Lemma find_app_some {A} (p : A -> bool) l l2 r :
  find p l = Some r -> find p (l ++ l2) = Some r.
Proof.
  induction l as [|d l IH]; cbn; [discriminate|].
  destruct (p d); [trivial|exact IH].
Qed.

Lemma find_app_none {A} (p : A -> bool) l l2 :
  find p l = None -> find p (l ++ l2) = find p l2.
Proof.
  induction l as [|d l IH]; cbn; [reflexivity|].
  destruct (p d); [discriminate|exact IH].
Qed.

Section Sync.

Import LeavesRouter.
Variable tz : Z.
Variable emp : Employee.

Lemma syncDay_unfold user now date db :
  syncDay tz (Some emp) user now date db
  = let lo := JsDate.setHours0 tz date in
    let hi := JsDate.setHours23 tz lo in
    match find (dayQuery (emp_id emp) lo hi) (attendances db) with
    | Some r => Attendance_saveStatus r "leave" db
    | None =>
        bind (Attendance_create (Some (emp_id emp)) hi "leave" user now)
             (fun _ => ret tt) db
    end.
Proof.
  unfold syncDay, bind at 1, Attendance_findOne. cbv zeta.
  change (fun a => (att_employee a =? emp_id emp)
                   && (JsDate.setHours0 tz date <=? att_date a)
                   && (att_date a
                       <=? JsDate.setHours23 tz (JsDate.setHours0 tz date)))
    with (dayQuery (emp_id emp) (JsDate.setHours0 tz date)
            (JsDate.setHours23 tz (JsDate.setHours0 tz date))).
  destruct (find _ (attendances db)); reflexivity.
Qed.

Lemma day_bounds date :
  JsDate.setHours0 tz date
  <= JsDate.setHours23 tz (JsDate.setHours0 tz date).
Proof. day_arith. Qed.

Lemma syncDay_noop user now date db :
  settled tz (emp_id emp) date db ->
  syncDay tz (Some emp) user now date db = (db, Return tt).
Proof.
  intros (r & Hfind & Hfix). rewrite syncDay_unfold. cbv zeta.
  rewrite Hfind. unfold Attendance_saveStatus. cbn.
  rewrite Hfix. now rewrite db_eta.
Qed.

Lemma syncDay_settles user now date db :
  freshIds db = true ->
  let r := syncDay tz (Some emp) user now date db in
  snd r = Return tt
  /\ settled tz (emp_id emp) date (fst r)
  /\ freshIds (fst r) = true.
Proof.
  intros Hfresh. cbv zeta. rewrite syncDay_unfold. cbv zeta.
  set (lo := JsDate.setHours0 tz date).
  set (hi := JsDate.setHours23 tz lo).
  assert (Hb : lo <= hi) by apply day_bounds.
  destruct (find _ (attendances db)) as [r|] eqn:Hfind.
  - unfold Attendance_saveStatus. cbn.
    split; [reflexivity|]. split.
    + destruct (find_updateOne_query att_id (set_att_status "leave") (fun _ => eq_refl)
                  (dayQuery (emp_id emp) lo hi) (att_id r) _ r
                  (fun _ => eq_refl) Hfind) as (r' & Hr' & Hid).
      exists r'. split; [exact Hr'|]. cbn. rewrite Hid.
      apply updateOne_idem; reflexivity.
    + unfold freshIds in *. cbn.
      rewrite forallb_updateOne by reflexivity. exact Hfresh.
  - unfold bind, Attendance_create. cbn.
    destruct (existsb _ (attendances db)) eqn:Hex.
    + exfalso. apply existsb_exists in Hex.
      destruct Hex as (a & Hin & Ha).
      apply andb_true_iff in Ha. destruct Ha as [H1 H2].
      apply Z.eqb_eq in H2.
      pose proof (find_none _ _ Hfind a Hin) as Hn.
      unfold dayQuery in Hn. rewrite H1, H2 in Hn. cbn in Hn.
      apply andb_false_iff in Hn. destruct Hn as [Hn|Hn];
        apply Z.leb_gt in Hn; lia.
    + cbn. split; [reflexivity|].
      set (doc := mkAttendance (nextId db) (emp_id emp) hi "leave" user now).
      assert (Hq : dayQuery (emp_id emp) lo hi doc = true).
      { unfold dayQuery. cbn. rewrite Z.eqb_refl. cbn.
        apply andb_true_iff. split; apply Z.leb_le; lia. }
      split.
      * exists doc. split.
        -- cbn [attendances]. fold lo. fold hi.
           rewrite find_app_none by exact Hfind. cbn [find]. now rewrite Hq.
        -- cbn [attendances att_id doc]. rewrite updateOne_app_fresh.
           ++ cbn. now rewrite Z.eqb_refl.
           ++ intros x Hin. unfold freshIds in Hfresh.
              rewrite forallb_forall in Hfresh.
              specialize (Hfresh x Hin). apply Z.ltb_lt in Hfresh. lia.
      * unfold freshIds in *. cbn. rewrite forallb_app. cbn.
        apply andb_true_iff. split.
        -- rewrite forallb_forall in *. intros x Hin.
           specialize (Hfresh x Hin). apply Z.ltb_lt in Hfresh.
           apply Z.ltb_lt. lia.
        -- apply andb_true_iff. split; [apply Z.ltb_lt; lia|reflexivity].
Qed.

Lemma syncDay_keeps_settled user now date date' db :
  settled tz (emp_id emp) date db ->
  settled tz (emp_id emp) date (fst (syncDay tz (Some emp) user now date' db)).
Proof.
  intros (r & Hfind & Hfix). rewrite syncDay_unfold. cbv zeta.
  destruct (find (dayQuery (emp_id emp) (JsDate.setHours0 tz date') _)
                 (attendances db)) as [r2|] eqn:Hfind2.
  - unfold Attendance_saveStatus. cbn.
    destruct (find_updateOne_query att_id (set_att_status "leave") (fun _ => eq_refl)
                (dayQuery (emp_id emp) (JsDate.setHours0 tz date)
                   (JsDate.setHours23 tz (JsDate.setHours0 tz date)))
                (att_id r2) _ r (fun _ => eq_refl) Hfind)
      as (r' & Hr' & Hid).
    exists r'. split; [exact Hr'|]. cbn. rewrite Hid.
    apply updateOne_fixed; [reflexivity|exact Hfix].
  - unfold bind, Attendance_create. cbn.
    destruct (existsb _ (attendances db)); cbn.
    + now exists r.
    + exists r. cbn [attendances]. split; [now apply find_app_some|].
      rewrite updateOne_app_found; [now rewrite Hfix|].
      exists r. split; [|reflexivity]. now apply find_some in Hfind.
Qed.

Lemma first_pass user now dates db :
  freshIds db = true ->
  let r := forEach (syncDay tz (Some emp) user now) dates db in
  snd r = Return tt
  /\ (forall d, In d dates -> settled tz (emp_id emp) d (fst r))
  /\ (forall d, settled tz (emp_id emp) d db ->
                settled tz (emp_id emp) d (fst r))
  /\ freshIds (fst r) = true.
Proof.
  cbv zeta. revert db. induction dates as [|d dates IH]; intros db Hfresh.
  - cbn. repeat split; auto. contradiction.
  - cbn. unfold bind.
    destruct (syncDay_settles user now d db Hfresh) as (Hret & Hset & Hfr).
    pose proof (fun d' => syncDay_keeps_settled user now d' d db) as Hkeep.
    destruct (syncDay tz (Some emp) user now d db) as [db' o].
    cbn in Hret, Hset, Hfr, Hkeep. subst o.
    destruct (IH db' Hfr) as (IH1 & IH2 & IH3 & IH4).
    split; [exact IH1|]. split; [|split; [|exact IH4]].
    + intros d' [<-|Hin]; [now apply IH3|now apply IH2].
    + intros d' Hd'. apply IH3, Hkeep, Hd'.
Qed.

Lemma second_pass user now dates db :
  (forall d, In d dates -> settled tz (emp_id emp) d db) ->
  forEach (syncDay tz (Some emp) user now) dates db = (db, Return tt).
Proof.
  induction dates as [|d dates IH]; intros H; cbn; [reflexivity|].
  unfold bind. rewrite syncDay_noop by (apply H; now left).
  apply IH. intros; apply H; now right.
Qed.

(** Without an employee to refer to, the first turn throws. *)
Lemma forEach_no_employee user now dates db :
  forEach (syncDay tz None user now) dates db
  = (db, match dates with [] => Return tt | _ => Throw ValidationError end).
Proof.
  destruct dates as [|date dates]; [reflexivity|].
  cbn [forEach]. unfold bind at 1, syncDay, bind at 1, Attendance_findOne.
  cbv zeta.
  destruct (find _ (attendances db)) as [r|] eqn:E; [|reflexivity].
  apply find_some in E. destruct E as [_ E]. discriminate.
Qed.

End Sync.

(** C2. On a database whose attendance ids are all below the next id to be
    handed out, running the sync of a leave a second time (whoever runs it,
    whenever) on the state the first run left gives that very state and the
    same outcome: no document is added and no status changes. *)
Theorem sync_idempotent
  (tz : Z) (leave : Leave) (employee : option Employee)
  (user now user' now' : Z) (db : Db) :
  freshIds db = true ->
  LeavesRouter.syncAttendance tz leave employee user' now'
    (fst (LeavesRouter.syncAttendance tz leave employee user now db))
  = LeavesRouter.syncAttendance tz leave employee user now db.
Proof.
  intros Hfresh. unfold LeavesRouter.syncAttendance.
  set (dates := JsDate.dateRange _ _).
  destruct employee as [emp|].
  - destruct (first_pass tz emp user now dates db Hfresh) as (H1 & H2 & _ & _).
    rewrite (second_pass tz emp user' now' dates _ H2).
    destruct (forEach _ dates db) as [db1 o]. cbn in *. now subst o.
  - rewrite !forEach_no_employee. reflexivity.
Qed.

Lemma sync_idempotent_witness :
  LeavesRouter.syncAttendance 0 (Sample.leave2 "approved")
    (Some Sample.ashaDoc) Sample.admin 300
    (fst (LeavesRouter.syncAttendance 0 (Sample.leave2 "approved")
            (Some Sample.ashaDoc) Sample.admin 200
            (Sample.dbWith "approved")))
  = LeavesRouter.syncAttendance 0 (Sample.leave2 "approved")
      (Some Sample.ashaDoc) Sample.admin 200 (Sample.dbWith "approved").
Proof.
  apply (sync_idempotent 0 (Sample.leave2 "approved") (Some Sample.ashaDoc)
           Sample.admin 200 Sample.admin 300 (Sample.dbWith "approved")).
  vm_compute. reflexivity.
Defined.

(** The scenario of the specification: approving the leave 2024-01-10 ..
    2024-01-12 writes 'leave' for these three days and for no other. *)
Example sync_scenario :
  map (fun a => (JsDate.isoDate (att_date a), att_status a))
      (attendances
         (fst (LeavesRouter.put_id 0 Sample.leave2Id (Some "approved") None
                 Sample.admin 200 (Sample.dbWith "pending"))))
  = [("2024-01-05", "present"); ("2024-01-10", "leave");
     ("2024-01-11", "leave"); ("2024-01-12", "leave")].
Proof. vm_compute. reflexivity. Qed.

Section ApproveTwice.

Import LeavesRouter.
Variable tz : Z.

(** The sync neither reads nor writes the leaves collection. *)
Lemma syncDay_withLeaves ls employee user now date db :
  syncDay tz employee user now date (withLeaves ls db)
  = (withLeaves ls (fst (syncDay tz employee user now date db)),
     snd (syncDay tz employee user now date db)).
Proof.
  unfold syncDay, bind, Attendance_findOne, Attendance_saveStatus,
    Attendance_create, ret, withLeaves. cbn.
  destruct (find _ (attendances db)); cbn; [reflexivity|].
  destruct employee; cbn; [|reflexivity].
  destruct (existsb _ (attendances db)); reflexivity.
Qed.

Lemma forEach_withLeaves ls employee user now dates db :
  forEach (syncDay tz employee user now) dates (withLeaves ls db)
  = (withLeaves ls (fst (forEach (syncDay tz employee user now) dates db)),
     snd (forEach (syncDay tz employee user now) dates db)).
Proof.
  revert db. induction dates as [|d dates IH]; intros db; cbn.
  - reflexivity.
  - unfold bind. rewrite syncDay_withLeaves.
    destruct (syncDay tz employee user now d db) as [db' [[]| |]]; cbn;
      try reflexivity.
    apply IH.
Qed.

Lemma syncAttendance_keeps_employees leave employee user now db :
  employees (fst (syncAttendance tz leave employee user now db)) = employees db.
Proof.
  unfold syncAttendance.
  apply (forEach_keeps (fun db' => employees db' = employees db));
    [|reflexivity].
  intros x db' H. rewrite <- H. apply syncDay_keeps_leaves.
Qed.

End ApproveTwice.

(** Approving a leave that is approved already: the second PUT leaves the
    attendance collection, and the id counter, as the first PUT left them. *)
Lemma approve_twice
  (tz : Z) (id : string) (lid : Z) (file file' : option string)
  (user now user' now' : Z) (db : Db) (l : Leave) :
  ObjectId.cast id = Some lid ->
  leaveById lid db = Some l ->
  freshIds db = true ->
  let db1 := fst (LeavesRouter.put_id tz id (Some "approved") file user now db) in
  let db2 := fst (LeavesRouter.put_id tz id (Some "approved") file' user' now'
                    db1) in
  attendances db2 = attendances db1 /\ nextId db2 = nextId db1.
Proof.
  intros Hcast Hl Hfresh. cbv zeta.
  assert (Hl1 : leaveById lid
                  (fst (LeavesRouter.put_id tz id (Some "approved") file user
                          now db))
                = Some (LeavesRouter.leaveFields (Some "approved") file user
                          now l)).
  { rewrite (put_id_state tz id lid (Some "approved") file user now db l
               Hcast Hl).
    cbv zeta. cbn [LeavesRouter.isApproved String.eqb Ascii.eqb Bool.eqb].
    unfold leaveById in *. rewrite syncAttendance_keeps_leaves. cbn [leaves].
    rewrite find_updateOne by reflexivity. now rewrite Hl. }
  rewrite (put_id_state tz id lid (Some "approved") file' user' now' _ _
             Hcast Hl1).
  rewrite (put_id_state tz id lid (Some "approved") file user now db l
             Hcast Hl) in *.
  cbv zeta. cbn [LeavesRouter.isApproved String.eqb Ascii.eqb Bool.eqb] in *.
  set (l1 := LeavesRouter.leaveFields (Some "approved") file user now l) in *.
  set (l2 := LeavesRouter.leaveFields (Some "approved") file' user' now' l1).
  set (dbA := mkDb (employees db) (attendances db) _ (nextId db)) in *.
  set (emp := find (fun e => emp_id e =? lv_employee l1) (employees db)) in *.
  set (db1 := fst (LeavesRouter.syncAttendance tz l1 emp user now dbA)) in *.
  assert (Hemp : find (fun e => emp_id e =? lv_employee l2) (employees db1)
                 = emp).
  { unfold db1. now rewrite syncAttendance_keeps_employees. }
  rewrite Hemp.
  change (mkDb (employees db1) (attendances db1)
            (updateOne lv_id lid
               (LeavesRouter.leaveFields (Some "approved") file' user' now')
               (leaves db1)) (nextId db1))
    with (withLeaves (updateOne lv_id lid
               (LeavesRouter.leaveFields (Some "approved") file' user' now')
               (leaves db1)) db1).
  change (LeavesRouter.syncAttendance tz l2 emp user' now')
    with (LeavesRouter.syncAttendance tz l1 emp user' now').
  unfold LeavesRouter.syncAttendance at 1 2.
  rewrite forEach_withLeaves. cbn [fst].
  change (forEach (LeavesRouter.syncDay tz emp user' now')
            (JsDate.dateRange (JsDate.setHours0 tz (lv_startDate l1))
               (JsDate.setHours23 tz (lv_endDate l1))) db1)
    with (LeavesRouter.syncAttendance tz l1 emp user' now' db1).
  assert (Hid : fst (LeavesRouter.syncAttendance tz l1 emp user' now' db1)
                = db1).
  { unfold db1, LeavesRouter.syncAttendance.
    set (dates := JsDate.dateRange _ _).
    destruct emp as [e|].
    - destruct (first_pass tz e user now dates dbA Hfresh) as (_ & H2 & _).
      now rewrite (second_pass tz e user' now' dates _ H2).
    - now rewrite !forEach_no_employee. }
  rewrite Hid. split; reflexivity.
Qed.

(* ================================================================== *)
(** ** What the sync writes                                            *)
(* ================================================================== *)

Section Expansion.

Variable tz : Z.

Lemma dateRangeLoop_steps end_ n start :
  Z.of_nat n = Z.max 0 ((end_ - start) / JsDate.msPerDay + 1) ->
  JsDate.dateRangeLoop n start end_
  = map (fun k => start + Z.of_nat k * JsDate.msPerDay) (seq 0 n).
Proof.
  revert start. induction n as [|n IH]; intros start Hn; [reflexivity|].
  cbn [JsDate.dateRangeLoop].
  destruct (start <=? end_) eqn:E.
  - cbn [seq map]. f_equal; [lia|].
    rewrite IH.
    + rewrite <- seq_shift, map_map. apply map_ext. intros k.
      unfold JsDate.nextDate. lia.
    + apply Z.leb_le in E. day_arith.
  - apply Z.leb_gt in E. day_arith.
Qed.

Lemma dateRange_steps start end_ :
  JsDate.dateRange start end_
  = map (fun k => start + Z.of_nat k * JsDate.msPerDay)
        (seq 0 (JsDate.dateRangeFuel start end_)).
Proof.
  unfold JsDate.dateRange. apply dateRangeLoop_steps.
  unfold JsDate.dateRangeFuel. lia.
Qed.

Lemma span_fuel s e :
  JsDate.dateRangeFuel (JsDate.setHours0 tz s) (JsDate.setHours23 tz e)
  = Z.to_nat (JsDate.localDay tz e - JsDate.localDay tz s + 1).
Proof. f_equal. day_arith. Qed.

Lemma dateRange_localDays s e :
  map (JsDate.localDay tz)
      (JsDate.dateRange (JsDate.setHours0 tz s) (JsDate.setHours23 tz e))
  = daysBetween (JsDate.localDay tz s) (JsDate.localDay tz e).
Proof.
  rewrite dateRange_steps, span_fuel.
  unfold daysBetween. rewrite map_map. apply map_ext. intros k. day_arith.
Qed.

End Expansion.


Section SyncWrites.

Import LeavesRouter.
Variable tz : Z.
Variable emp : Employee.

Lemma updateOne_ids {A} (idOf : A -> Z) f id l :
  (forall x, idOf (f x) = idOf x) ->
  map idOf (updateOne idOf id f l) = map idOf l.
Proof.
  intros Hf. induction l as [|d l IH]; cbn; [reflexivity|].
  destruct (idOf d =? id); cbn; [now rewrite Hf|now rewrite IH].
Qed.


Lemma filter_updateOne {A} (idOf : A -> Z) f (q : A -> bool) l r :
  NoDup (map idOf l) -> In r l -> q r = false -> q (f r) = false ->
  filter q (updateOne idOf (idOf r) f l) = filter q l.
Proof.
  induction l as [|d l IH]; intros Hnd Hin Hq Hqf; [contradiction|].
  cbn in Hnd. inversion Hnd as [|? ? Hd Hl]; subst. cbn.
  destruct (idOf d =? idOf r) eqn:E.
  - apply Z.eqb_eq in E.
    assert (d = r) as ->.
    { destruct Hin as [H|Hin]; [exact H|].
      exfalso. apply Hd. rewrite E. now apply in_map. }
    cbn. now rewrite Hq, Hqf.
  - cbn. destruct Hin as [->|Hin]; [now rewrite Z.eqb_refl in E|].
    now rewrite IH.
Qed.

Lemma syncDay_wellKept user now date :
  keeps wellKept (syncDay tz (Some emp) user now date).
Proof.
  intros db [Hfresh Huniq]. rewrite syncDay_unfold. cbv zeta.
  destruct (find _ (attendances db)) as [r|] eqn:Hfind.
  - unfold Attendance_saveStatus. cbn. split.
    + unfold freshIds in *. cbn.
      now rewrite forallb_updateOne by reflexivity.
    + unfold uniqueIds in *. cbn. now rewrite updateOne_ids by reflexivity.
  - unfold bind, Attendance_create. cbn.
    destruct (existsb _ (attendances db)); cbn; [now split|].
    unfold freshIds in Hfresh. rewrite forallb_forall in Hfresh. split.
    + unfold freshIds. cbn. rewrite forallb_app. cbn.
      apply andb_true_iff. split.
      * apply forallb_forall. intros x Hin. specialize (Hfresh x Hin).
        apply Z.ltb_lt in Hfresh. apply Z.ltb_lt. lia.
      * apply andb_true_iff. split; [apply Z.ltb_lt; lia|reflexivity].
    + unfold uniqueIds in *. cbn. rewrite map_app. cbn.
      apply NoDup_snoc; [exact Huniq|].
      intros Hin. apply in_map_iff in Hin. destruct Hin as (x & Hx & Hin).
      specialize (Hfresh x Hin). apply Z.ltb_lt in Hfresh. lia.
Qed.

(** A turn of the sync leaves every document outside its query as it was. *)
Lemma syncDay_frame user now date (q : Attendance -> bool) db :
  uniqueIds db ->
  (forall a, dayQuery (emp_id emp) (JsDate.setHours0 tz date)
               (JsDate.setHours23 tz (JsDate.setHours0 tz date)) a = true ->
             q a = false) ->
  (forall a, q (set_att_status "leave" a) = q a) ->
  filter q (attendances (fst (syncDay tz (Some emp) user now date db)))
  = filter q (attendances db).
Proof.
  intros Huniq Hq Hqs. rewrite syncDay_unfold. cbv zeta.
  destruct (find _ (attendances db)) as [r|] eqn:Hfind.
  - unfold Attendance_saveStatus. cbn.
    apply find_some in Hfind. destruct Hfind as [Hin Hr].
    apply filter_updateOne; auto; rewrite ?Hqs; auto.
  - unfold bind, Attendance_create. cbn.
    destruct (existsb _ (attendances db)); cbn; [reflexivity|].
    rewrite filter_app. cbn. rewrite Hq.
    + apply app_nil_r.
    + unfold dayQuery. cbn. rewrite Z.eqb_refl. cbn.
      pose proof (day_bounds tz date).
      apply andb_true_iff. split; apply Z.leb_le; lia.
Qed.

End SyncWrites.


(** The sync touches nothing else: the attendance documents of other
    employees, and those of the employee on days outside the leave's span,
    are after the sync what they were before, in the same order. *)
Theorem sync_leaves_other_days_alone
  (tz : Z) (leave : Leave) (emp : Employee) (user now : Z) (db : Db) :
  freshIds db = true -> uniqueIds db ->
  let outside a :=
    negb (inSpan tz (emp_id emp) (lv_startDate leave) (lv_endDate leave) a) in
  filter outside
    (attendances (fst (LeavesRouter.syncAttendance tz leave (Some emp) user now db)))
  = filter outside (attendances db).
Proof.
  intros Hfresh Huniq. cbv zeta. unfold LeavesRouter.syncAttendance.
  pose proof (dateRange_localDays tz (lv_startDate leave) (lv_endDate leave))
    as Hdays.
  set (dates := JsDate.dateRange _ _) in *.
  assert (Hall : forall d, In d dates ->
            JsDate.localDay tz (lv_startDate leave) <= JsDate.localDay tz d
            <= JsDate.localDay tz (lv_endDate leave)).
  { intros d Hin. apply (in_map (JsDate.localDay tz)) in Hin.
    rewrite Hdays in Hin. unfold daysBetween in Hin.
    apply in_map_iff in Hin. destruct Hin as (k & <- & Hk).
    apply in_seq in Hk. lia. }
  clearbody dates. clear Hdays.
  assert (Hk : wellKept db) by now split.
  clear Hfresh Huniq. revert db Hk.
  induction dates as [|d dates IH]; intros db Hk; [reflexivity|].
  cbn [forEach]. unfold bind.
  pose proof (syncDay_wellKept tz emp user now d db Hk) as Hk'.
  assert (Hf : filter (fun a => negb (inSpan tz (emp_id emp) (lv_startDate leave)
                                             (lv_endDate leave) a))
                 (attendances (fst (LeavesRouter.syncDay tz (Some emp) user now
                                      d db)))
               = filter (fun a => negb (inSpan tz (emp_id emp)
                                          (lv_startDate leave)
                                          (lv_endDate leave) a))
                        (attendances db)).
  { apply syncDay_frame; [exact (proj2 Hk)| |reflexivity].
    intros a Hq. apply negb_false_iff. unfold inSpan.
    unfold dayQuery in Hq. apply andb_true_iff in Hq. destruct Hq as [Hq H3].
    apply andb_true_iff in Hq. destruct Hq as [H1 H2].
    rewrite H1. cbn. apply Z.leb_le in H2, H3.
    pose proof (Hall d (or_introl eq_refl)) as Hd.
    apply andb_true_iff. split; apply Z.leb_le; clear - H2 H3 Hd; day_arith. }
  destruct (LeavesRouter.syncDay tz (Some emp) user now d db) as [db' [[]| |]];
    cbn [fst] in *; try exact Hf.
  rewrite IH; [exact Hf|intros; apply Hall; now right|exact Hk'].
Qed.

(* ================================================================== *)
(** ** Sorting and deleting                                            *)
(* ================================================================== *)

Section Collections.

Context {A : Type}.

Lemma insertSorted_perm (leb : A -> A -> bool) x l :
  Permutation (insertSorted leb x l) (x :: l).
Proof.
  induction l as [|y l IH]; cbn; [reflexivity|].
  destruct (leb x y); [reflexivity|].
  rewrite IH. apply perm_swap.
Qed.

Lemma sortBy_perm (leb : A -> A -> bool) l : Permutation (sortBy leb l) l.
Proof.
  induction l as [|x l IH]; cbn; [reflexivity|].
  rewrite insertSorted_perm. now constructor.
Qed.

Lemma insertSorted_sorted (leb : A -> A -> bool) x l :
  (forall a b, leb a b = true \/ leb b a = true) ->
  Sorted (fun a b => leb a b = true) l ->
  Sorted (fun a b => leb a b = true) (insertSorted leb x l).
Proof.
  intros Htot. induction l as [|y l IH]; intros Hs; cbn.
  - repeat constructor.
  - destruct (leb x y) eqn:E.
    + constructor; [exact Hs|now constructor].
    + inversion Hs as [|? ? Hl Hhd]; subst.
      constructor; [now apply IH|].
      destruct l as [|z l]; cbn.
      * constructor. destruct (Htot x y); congruence.
      * destruct (leb x z).
        -- constructor. destruct (Htot x y); congruence.
        -- constructor. now inversion Hhd.
Qed.

Lemma sortBy_sorted (leb : A -> A -> bool) l :
  (forall a b, leb a b = true \/ leb b a = true) ->
  Sorted (fun a b => leb a b = true) (sortBy leb l).
Proof.
  intros Htot. induction l as [|x l IH]; cbn; [constructor|].
  now apply insertSorted_sorted.
Qed.

Variable idOf : A -> Z.

Lemma deleteOne_unique id l :
  NoDup (map idOf l) ->
  deleteOne idOf id l = filter (fun x => negb (idOf x =? id)) l.
Proof.
  induction l as [|d l IH]; intros Hnd; [reflexivity|].
  cbn in *. inversion Hnd as [|? ? Hd Hl]; subst.
  destruct (idOf d =? id) eqn:E; cbn.
  - apply Z.eqb_eq in E. symmetry. apply forallb_filter_id.
    apply forallb_forall. intros x Hin. apply negb_true_iff, Z.eqb_neq.
    intros Hx. apply Hd. rewrite E, <- Hx. now apply in_map.
  - now rewrite IH.
Qed.

Lemma deleteOne_incl id l x : In x (deleteOne idOf id l) -> In x l.
Proof.
  induction l as [|d l IH]; cbn; [trivial|].
  destruct (idOf d =? id); [now right|].
  intros [->|H]; [now left|right; now apply IH].
Qed.

Lemma deleteOne_NoDup {B} (key : A -> B) id l :
  NoDup (map key l) -> NoDup (map key (deleteOne idOf id l)).
Proof.
  induction l as [|d l IH]; intros Hnd; [constructor|].
  cbn in *. inversion Hnd as [|? ? Hd Hl]; subst.
  destruct (idOf d =? id); [exact Hl|].
  cbn. constructor; [|now apply IH].
  intros Hin. apply Hd. apply in_map_iff in Hin.
  destruct Hin as (x & Hx & Hin). rewrite <- Hx.
  apply in_map. now apply deleteOne_incl in Hin.
Qed.

Lemma find_deleteOne_unique id l :
  NoDup (map idOf l) ->
  find (fun x => idOf x =? id) (deleteOne idOf id l) = None.
Proof.
  intros Hnd. rewrite deleteOne_unique by exact Hnd.
  destruct (find _ _) as [x|] eqn:E; [|reflexivity].
  apply find_some in E. destruct E as [Hin Hx].
  apply filter_In in Hin. destruct Hin as [_ Hn].
  rewrite Hx in Hn. discriminate.
Qed.

End Collections.


Lemma sortOption_leave_total sort a b :
  LeavesCrud.sortOption sort a b = true \/ LeavesCrud.sortOption sort b a = true.
Proof.
  unfold LeavesCrud.sortOption. cbv zeta.
  destruct sort as [s|]; [|rewrite !Z.leb_le; lia].
  destruct (s =? "employee")%string; [rewrite !Z.leb_le; lia|].
  destruct (s =? "startDate")%string; rewrite !Z.leb_le; lia.
Qed.

(* ================================================================== *)
(** ** The attendance routes                                           *)
(* ================================================================== *)

Section AttendanceRoutes.

(** What an accepted POST /attendance was given and has done. *)
Lemma post_attendance_accepted employee date status user now db a p :
  snd (AttendanceRouter.post_root employee date status user now db)
  = Json (a, p) ->
  exists id d e,
    ObjectId.cast employee = Some id /\ date = JsDate.Parsed d
    /\ find (fun x => emp_id x =? id) (employees db) = Some e
    /\ emp_status e = "active"
    /\ find (fun x => (att_employee x =? id) && (att_date x =? d))
            (attendances db) = None
    /\ inEnum status attendanceStatuses = true
    /\ a = mkAttendance (nextId db) id d status user now
    /\ p = Some e
    /\ fst (AttendanceRouter.post_root employee date status user now db)
       = mkDb (employees db) (attendances db ++ [a]) (leaves db)
              (nextId db + 1).
Proof.
  unfold AttendanceRouter.post_root, tryCatch, bind, castObjectId,
    Employee_findOne, Attendance_findOne, castDate, populate, ret, respond,
    throw, Attendance_create.
  destruct (inEnum status attendanceStatuses) eqn:Hs.
  2:{ destruct (ObjectId.cast employee) as [id|]; cbn; [|discriminate].
      destruct (find _ (employees db)) as [e|]; cbn; [|discriminate].
      destruct (negb (isActive e)); cbn; [discriminate|].
      destruct date as [| |d]; cbn; try discriminate.
      destruct (find _ (attendances db)); cbn; discriminate. }
  destruct (ObjectId.cast employee) as [id|]; cbn; [|discriminate].
  destruct (find _ (employees db)) as [e|] eqn:He; cbn; [|discriminate].
  unfold isActive.
  destruct (emp_status e =? "active")%string eqn:Hact; cbn; [|discriminate].
  destruct date as [| |d]; cbn; try discriminate.
  destruct (find _ (attendances db)) as [x|] eqn:Hx; cbn; [discriminate|].
  destruct (existsb _ (attendances db)); cbn; [discriminate|].
  rewrite He. cbn. intros H. injection H as <- <-.
  exists id, d, e. apply String.eqb_eq in Hact. repeat split; auto.
Qed.

End AttendanceRoutes.

(** POST /attendance either refuses the request and leaves the database as
    it was, or appends exactly one attendance document: the one requested,
    for an existing active employee, with a status of the schema, under the
    next id. Employees and leaves are never touched. *)
Theorem attendance_post_effect
  (employee : string) (date : JsDate.DateParam) (status : string)
  (user now : Z) (db : Db) :
  let r := AttendanceRouter.post_root employee date status user now db in
  (forall code message, snd r = Status code message -> fst r = db)
  /\ (forall a p, snd r = Json (a, p) ->
        exists id d e,
          ObjectId.cast employee = Some id /\ date = JsDate.Parsed d
          /\ find (fun x => emp_id x =? id) (employees db) = Some e
          /\ emp_status e = "active"
          /\ inEnum status attendanceStatuses = true
          /\ a = mkAttendance (nextId db) id d status user now
          /\ p = Some e
          /\ fst r = mkDb (employees db) (attendances db ++ [a]) (leaves db)
                          (nextId db + 1)).
Proof.
  cbv zeta. split.
  - unfold AttendanceRouter.post_root, tryCatch, bind, castObjectId,
      Employee_findOne, Attendance_findOne, castDate, populate, ret, respond,
      throw.
    destruct (ObjectId.cast employee) as [id|]; cbn; [|reflexivity].
    destruct (find _ (employees db)) as [e|] eqn:He; cbn; [|reflexivity].
    destruct (negb (isActive e)); cbn; [reflexivity|].
    destruct date as [| |d]; cbn; try reflexivity.
    destruct (find _ (attendances db)); cbn; [reflexivity|].
    unfold Attendance_create.
    destruct (negb _); cbn; [reflexivity|].
    destruct (existsb _ (attendances db)); cbn; [reflexivity|].
    rewrite He. cbn. discriminate.
  - intros a p H.
    destruct (post_attendance_accepted _ _ _ _ _ _ _ _ H)
      as (id & d & e & H1 & H2 & H3 & H4 & _ & H6 & H7 & H8 & H9).
    exists id, d, e. repeat split; assumption.
Qed.

(** Once POST /attendance has accepted an entry, a second entry for the same
    employee and the same time value is refused with 'already exists',
    whatever its status and author, and writes nothing. *)
Theorem attendance_post_twice
  (employee : string) (date : JsDate.DateParam) (status : string)
  (user now : Z) (db : Db) (a : Attendance) (p : option Employee)
  (status' : string) (user' now' : Z) :
  snd (AttendanceRouter.post_root employee date status user now db)
  = Json (a, p) ->
  let db' := fst (AttendanceRouter.post_root employee date status user now db) in
  AttendanceRouter.post_root employee date status' user' now' db'
  = (db', Status 400
            "Attendance record already exists for this employee on this date").
Proof.
  intros H. cbv zeta.
  destruct (post_attendance_accepted _ _ _ _ _ _ _ _ H)
    as (id & d & e & H1 & -> & H3 & H4 & H5 & _ & -> & _ & ->).
  unfold AttendanceRouter.post_root, tryCatch, bind, castObjectId,
    Employee_findOne, Attendance_findOne, castDate, ret, respond.
  rewrite H1. cbn. rewrite H3. cbn. unfold isActive. rewrite H4. cbn.
  rewrite find_app_none by exact H5. cbn. rewrite !Z.eqb_refl. reflexivity.
Qed.

(** PUT /attendance/:id stores the status it is given as it is, for every
    text (no validator runs on an update, so a status outside the schema's
    list is stored too); the document keeps its id, employee and date, the
    index keys and the ids of the collection stay what they were, and
    employees and leaves are not touched. *)
Theorem attendance_put_effect
  (id : string) (aid : Z) (status : string) (db : Db) (a : Attendance) :
  ObjectId.cast id = Some aid ->
  find (fun x => att_id x =? aid) (attendances db) = Some a ->
  let r := AttendanceCrud.put_id id status db in
  snd r = Json (Some (set_att_status status a,
                      find (fun e => emp_id e =? att_employee a) (employees db)))
  /\ find (fun x => att_id x =? aid) (attendances (fst r))
     = Some (set_att_status status a)
  /\ indexKeys (fst r) = indexKeys db
  /\ map att_id (attendances (fst r)) = map att_id (attendances db)
  /\ employees (fst r) = employees db
  /\ leaves (fst r) = leaves db
  /\ nextId (fst r) = nextId db.
Proof.
  intros Hcast Hfind. cbv zeta.
  unfold AttendanceCrud.put_id, tryCatch, bind, castObjectId,
    Attendance_findOne, Attendance_findByIdAndUpdate, populate,
    Employee_findOne, ret.
  rewrite Hcast. cbn. rewrite Hfind. cbn. rewrite Hfind. cbn.
  split; [reflexivity|]. split.
  - rewrite find_updateOne by reflexivity. now rewrite Hfind.
  - split; [apply indexKeys_updateOne|].
    split; [now apply updateOne_ids|]. repeat split.
Qed.

Lemma find_none_iff {A} (p : A -> bool) l :
  find p l = None <-> forall x, In x l -> p x = false.
Proof.
  split; [apply find_none|].
  intros H. destruct (find p l) as [y|] eqn:E; [|reflexivity].
  apply find_some in E. destruct E as [Hin Hp]. rewrite (H y Hin) in Hp.
  discriminate.
Qed.

(** The database DELETE /attendance/:id leaves behind. *)
Lemma attendance_delete_effect_parts id aid db a :
  ObjectId.cast id = Some aid ->
  find (fun x => att_id x =? aid) (attendances db) = Some a ->
  uniqueIds db ->
  attendances (fst (AttendanceCrud.delete_id id db))
  = filter (fun x => negb (att_id x =? aid)) (attendances db)
  /\ employees (fst (AttendanceCrud.delete_id id db)) = employees db
  /\ leaves (fst (AttendanceCrud.delete_id id db)) = leaves db.
Proof.
  intros Hcast Hfind Huniq.
  assert (Ha : att_id a = aid).
  { apply find_some in Hfind. now apply Z.eqb_eq. }
  unfold AttendanceCrud.delete_id, tryCatch, bind, castObjectId,
    Attendance_findOne, Attendance_remove, ret, respond.
  rewrite Hcast. cbn. rewrite Hfind. cbn. rewrite Ha.
  split; [now apply deleteOne_unique|]. now split.
Qed.

(** DELETE /attendance/:id, on a collection with unique ids, removes the
    document with that id and no other, keeps the order of the rest, and a
    second DELETE of the same id is answered 404. *)
Theorem attendance_delete_effect
  (id : string) (aid : Z) (db : Db) (a : Attendance) :
  ObjectId.cast id = Some aid ->
  find (fun x => att_id x =? aid) (attendances db) = Some a ->
  uniqueIds db ->
  let r := AttendanceCrud.delete_id id db in
  snd r = Json "Attendance record removed"
  /\ attendances (fst r)
     = filter (fun x => negb (att_id x =? aid)) (attendances db)
  /\ employees (fst r) = employees db
  /\ leaves (fst r) = leaves db
  /\ AttendanceCrud.delete_id id (fst r)
     = (fst r, Status 404 "Attendance record not found").
Proof.
  intros Hcast Hfind Huniq. cbv zeta.
  assert (Ha : att_id a = aid).
  { apply find_some in Hfind. now apply Z.eqb_eq. }
  unfold AttendanceCrud.delete_id, tryCatch, bind, castObjectId,
    Attendance_findOne, Attendance_remove, ret, respond.
  rewrite Hcast. cbn. rewrite Hfind. cbn. rewrite Ha.
  split; [reflexivity|]. split; [now apply deleteOne_unique|].
  split; [reflexivity|]. split; [reflexivity|].
  now rewrite find_deleteOne_unique.
Qed.

Section Slot.

Lemma unique_key {A B} (key : A -> B) l x y :
  NoDup (map key l) -> In x l -> In y l -> key x = key y -> x = y.
Proof.
  induction l as [|d l IH]; intros Hnd Hx Hy Hk; [contradiction|].
  cbn in Hnd. inversion Hnd as [|? ? Hd Hl]; subst.
  destruct Hx as [->|Hx], Hy as [->|Hy]; auto.
  - exfalso. apply Hd. rewrite Hk. now apply in_map.
  - exfalso. apply Hd. rewrite <- Hk. now apply in_map.
Qed.

End Slot.

(** Deleting an attendance document frees its place: on a collection with
    unique ids and a unique index, after DELETE /attendance/:id a POST for
    the employee and the time value of the deleted document is accepted,
    if the employee is active and the status is one of the schema. *)
Theorem attendance_delete_then_post
  (id employee : string) (db : Db) (a : Attendance) (e : Employee)
  (status : string) (user now : Z) :
  ObjectId.cast id = Some (att_id a) ->
  In a (attendances db) ->
  uniqueIds db -> uniqueIndex db ->
  ObjectId.cast employee = Some (att_employee a) ->
  find (fun x => emp_id x =? att_employee a) (employees db) = Some e ->
  emp_status e = "active" ->
  inEnum status attendanceStatuses = true ->
  let db' := fst (AttendanceCrud.delete_id id db) in
  AttendanceRouter.post_root employee (JsDate.Parsed (att_date a)) status
    user now db'
  = (mkDb (employees db')
          (attendances db'
           ++ [mkAttendance (nextId db') (att_employee a) (att_date a) status
                            user now])
          (leaves db') (nextId db' + 1),
     Json (mkAttendance (nextId db') (att_employee a) (att_date a) status
                        user now, Some e)).
Proof.
  intros Hcast Hin Huniq Hindex Hemp He Hact Hs. cbv zeta.
  assert (Hfind : find (fun x => att_id x =? att_id a) (attendances db) = Some a).
  { destruct (find_is_some (fun x => att_id x =? att_id a) _ a Hin
                (Z.eqb_refl _)) as [y Hy].
    rewrite Hy. f_equal. pose proof (find_some _ _ Hy) as [Hiny Hidy].
    apply Z.eqb_eq in Hidy.
    now apply (unique_key att_id (attendances db)). }
  destruct (attendance_delete_effect_parts id (att_id a) db a Hcast Hfind Huniq)
    as (Hatt & Hemps & Hleaves).
  set (db' := fst (AttendanceCrud.delete_id id db)) in *.
  assert (Hfree : forall x, In x (attendances db') ->
            (att_employee x =? att_employee a) && (att_date x =? att_date a)
            = false).
  { intros x Hx. rewrite Hatt in Hx. apply filter_In in Hx.
    destruct Hx as [Hx Hne].
    destruct ((att_employee x =? att_employee a) && (att_date x =? att_date a))
      eqn:E; [|reflexivity].
    apply andb_true_iff in E. destruct E as [E1 E2].
    apply Z.eqb_eq in E1, E2.
    assert (x = a).
    { apply (unique_key (fun a => (att_employee a, att_date a))
               (attendances db)); auto. now rewrite E1, E2. }
    subst x. now rewrite Z.eqb_refl in Hne. }
  unfold AttendanceRouter.post_root, tryCatch, bind, castObjectId,
    Employee_findOne, Attendance_findOne, castDate, populate, ret, respond,
    Attendance_create.
  rewrite Hs, Hemp. cbn. rewrite Hemps, He. cbn. unfold isActive.
  rewrite Hact. cbn.
  rewrite (proj2 (find_none_iff _ _) Hfree). cbn.
  assert (Hex : existsb (fun x => (att_employee x =? att_employee a)
                                  && (att_date x =? att_date a))
                        (attendances db') = false).
  { destruct (existsb _ _) eqn:E; [|reflexivity].
    apply existsb_exists in E. destruct E as (x & Hx & Hq).
    rewrite (Hfree x Hx) in Hq. discriminate. }
  rewrite Hex. cbn. rewrite Hemps, He. reflexivity.
Qed.


(** GET /leaves filters on dates only when both startDate and endDate are
    given: with one of them absent the other is not even parsed, and
    (without further filters) every stored leave is listed, once, in the
    order of the sort option. *)
Theorem leaves_list_one_date_ignored
  (startDate endDate : JsDate.DateParam) (sort : option string) (db : Db) :
  startDate = JsDate.Absent \/ endDate = JsDate.Absent ->
  exists l,
    LeavesCrud.get_root None None None startDate endDate sort db = (db, Json l)
    /\ Permutation (map fst l) (leaves db)
    /\ Sorted (fun a b => LeavesCrud.sortOption sort a b = true) (map fst l).
Proof.
  intros Habs.
  set (g := fun x : Leave =>
              (x, find (fun e => emp_id e =? lv_employee x) (employees db))).
  exists (map g (sortBy (LeavesCrud.sortOption sort) (leaves db))).
  assert (Hrun : LeavesCrud.get_root None None None startDate endDate sort db
                 = (db, Json (map g (sortBy (LeavesCrud.sortOption sort)
                                            (leaves db))))).
  { assert (Hall : forall db0 : Db,
              filter (fun l : Leave => true && true && true && true)
                     (leaves db0) = leaves db0).
    { intros db0. apply forallb_filter_id, forallb_forall. reflexivity. }
    destruct Habs as [-> | ->]; [|destruct startDate];
      unfold LeavesCrud.get_root, tryCatch, bind at 1 2 3, idFilter, ret,
        Leave_find; cbn [fst snd textFilter bind];
      rewrite Hall;
      now rewrite (mapM_pure _ g) by (intros a _; reflexivity). }
  split; [exact Hrun|].
  rewrite map_map. cbn [g fst]. rewrite map_id. split.
  - apply sortBy_perm.
  - apply sortBy_sorted, sortOption_leave_total.
Qed.

(** GET /leaves with both dates compares the time values as they are: for a
    range in order and stored leaves in order, the answer lists the leaves
    whose closed interval meets the closed interval asked for, each once, in
    the order of the sort option. *)
Theorem leaves_list_overlapping
  (s e : Z) (sort : option string) (db : Db) :
  s <= e ->
  Forall (fun x => lv_startDate x <= lv_endDate x) (leaves db) ->
  exists l,
    LeavesCrud.get_root None None None (JsDate.Parsed s) (JsDate.Parsed e)
      sort db = (db, Json l)
    /\ Permutation (map fst l)
         (filter (fun x => overlaps (lv_startDate x) (lv_endDate x) s e)
                 (leaves db))
    /\ Sorted (fun a b => LeavesCrud.sortOption sort a b = true) (map fst l).
Proof.
  intros Hse Hwf.
  set (g := fun x : Leave =>
              (x, find (fun e => emp_id e =? lv_employee x) (employees db))).
  set (found := filter (fun x => overlaps (lv_startDate x) (lv_endDate x) s e)
                       (leaves db)).
  exists (map g (sortBy (LeavesCrud.sortOption sort) found)).
  split.
  - unfold LeavesCrud.get_root, tryCatch, idFilter, Leave_find, castDate,
      ret, bind. cbn [fst snd textFilter andb].
    rewrite (filter_ext_in _
               (fun x => overlaps (lv_startDate x) (lv_endDate x) s e)).
    + fold found. now rewrite (mapM_pure _ g) by (intros a _; reflexivity).
    + intros x Hin. rewrite Forall_forall in Hwf. specialize (Hwf x Hin).
      unfold LeavesRouter.inRange. apply bool_eq_of_iff.
      rewrite overlapQuery_true_iff, overlaps_true_iff. lia.
  - rewrite map_map. cbn [g fst]. rewrite map_id. split.
    + apply sortBy_perm.
    + apply sortBy_sorted, sortOption_leave_total.
Qed.

(** The attendance collection's unique index, on the employee and the exact
    time value, is kept by every route that writes attendance: the manual
    POST, PUT and DELETE, and the PUT of a leave with its sync. *)
Theorem unique_index_kept (db : Db) :
  uniqueIndex db ->
  (forall employee date status user now,
     uniqueIndex (fst (AttendanceRouter.post_root employee date status user
                         now db)))
  /\ (forall id status, uniqueIndex (fst (AttendanceCrud.put_id id status db)))
  /\ (forall id, uniqueIndex (fst (AttendanceCrud.delete_id id db)))
  /\ (forall tz id status file user now,
        uniqueIndex (fst (LeavesRouter.put_id tz id status file user now db))).
Proof.
  intros H. split; [|split; [|split]].
  - intros. now apply post_attendance_keeps_index.
  - intros id status. unfold AttendanceCrud.put_id.
    apply keeps_tryCatch; [|exact H].
    apply keeps_bind; [unfold castObjectId; destruct (ObjectId.cast id);
                       [apply keeps_ret|apply keeps_throw]|].
    intros aid. apply keeps_bind; [apply keeps_read|].
    intros [a|]; [|apply keeps_respond].
    apply keeps_bind.
    + intros db' H'. unfold Attendance_findByIdAndUpdate. cbn.
      unfold uniqueIndex, indexKeys in *. cbn.
      now rewrite indexKeys_updateOne.
    + intros [a'|]; [|apply keeps_ret].
      apply keeps_bind; [apply keeps_read|]. intros p. apply keeps_ret.
  - intros id. unfold AttendanceCrud.delete_id.
    apply keeps_tryCatch; [|exact H].
    apply keeps_bind; [unfold castObjectId; destruct (ObjectId.cast id);
                       [apply keeps_ret|apply keeps_throw]|].
    intros aid. apply keeps_bind; [apply keeps_read|].
    intros [a|]; [|apply keeps_respond].
    apply keeps_bind; [|intros _; apply keeps_ret].
    intros db' H'. unfold Attendance_remove. cbn.
    unfold uniqueIndex, indexKeys in *. cbn. now apply deleteOne_NoDup.
  - intros. now apply put_leave_keeps_index.
Qed.

(** What a malformed id gets. An id that is no ObjectId is answered 404 by
    GET /leaves/:id and by the three DELETE routes, whose catch blocks look
    at the kind of the error, and 500 by the three PUT routes and by
    GET /leaves/:id/document, whose catch blocks do not. Nothing is
    written. *)
Theorem malformed_id_answers (id : string) (db : Db) :
  ObjectId.cast id = None ->
  LeavesRouter.get_id id db = (db, Status 404 "Leave not found")
  /\ AttendanceCrud.delete_id id db
     = (db, Status 404 "Attendance record not found")
  /\ LeavesCrud.delete_id id db = (db, Status 404 "Leave not found")
  /\ EmployeesRouter.delete_id id db = (db, Status 404 "Employee not found")
  /\ (forall status,
        AttendanceCrud.put_id id status db = (db, Status 500 "Server error"))
  /\ (forall tz status file user now,
        LeavesRouter.put_id tz id status file user now db
        = (db, Status 500 "Server error"))
  /\ (forall name position department status others,
        EmployeesRouter.put_id id name position department status others db
        = (db, Status 500 "Server error"))
  /\ LeavesCrud.get_id_document id db = (db, Status 500 "Server error").
Proof.
  intros H.
  unfold LeavesRouter.get_id, AttendanceCrud.delete_id, LeavesCrud.delete_id,
    EmployeesRouter.delete_id, AttendanceCrud.put_id, LeavesRouter.put_id,
    EmployeesRouter.put_id, LeavesCrud.get_id_document, tryCatch, bind,
    castObjectId.
  rewrite H. repeat split.
Qed.

(* ================================================================== *)
(** ** The leave routes                                                *)
(* ================================================================== *)

Section LeaveRoutes.

(** What an accepted POST /leaves was given and has done. *)
Lemma post_leave_accepted employee startDate endDate reason type file user now
  db leave p :
  snd (LeavesRouter.post_root employee startDate endDate reason type file user
         now db) = Json (leave, p) ->
  exists id e s t,
    ObjectId.cast employee = Some id
    /\ find (fun x => emp_id x =? id) (employees db) = Some e
    /\ emp_status e = "active"
    /\ (exists a, In a (attendances db) /\ att_employee a = id
                  /\ att_status a = "present")
    /\ startDate = JsDate.Parsed s /\ endDate = JsDate.Parsed t
    /\ (forall l, In l (leaves db) -> lv_employee l = id ->
                  LeavesRouter.inRange s t l = false)
    /\ reason <> "" /\ inEnum type leaveTypes = true
    /\ leave = mkLeave (nextId db) id s t reason type "pending"
                 (match file with
                  | Some filename => "/uploads/documents/" ++ filename
                  | None => ""
                  end)%string user None now None
    /\ p = Some e
    /\ fst (LeavesRouter.post_root employee startDate endDate reason type file
              user now db)
       = mkDb (employees db) (attendances db) (leaves db ++ [leave])
              (nextId db + 1).
Proof.
  unfold LeavesRouter.post_root, tryCatch, bind, castObjectId,
    Employee_findOne, Attendance_findOne, castDate, Leave_findOne, populate,
    ret, respond, throw, Leave_create.
  destruct (inEnum type leaveTypes) eqn:Htype;
    destruct (reason =? "")%string eqn:Hreason;
    destruct (ObjectId.cast employee) as [id|]; cbn; try discriminate;
    destruct (find _ (employees db)) as [e|] eqn:He; cbn; try discriminate;
    unfold isActive;
    destruct (emp_status e =? "active")%string eqn:Hact; cbn;
    try discriminate;
    destruct (find _ (attendances db)) as [a|] eqn:Ha; cbn; try discriminate;
    destruct startDate as [| |s]; cbn; try discriminate;
    destruct endDate as [| |t]; cbn; try discriminate;
    destruct (find _ (leaves db)) as [l|] eqn:Hl; cbn; try discriminate.
  rewrite He. cbn. intros H. injection H as <- <-.
  apply String.eqb_eq in Hact. apply String.eqb_neq in Hreason.
  apply find_some in Ha. destruct Ha as [Hin Hq].
  apply andb_true_iff in Hq. destruct Hq as [Hq1 Hq2].
  apply Z.eqb_eq in Hq1. apply String.eqb_eq in Hq2.
  exists id, e, s, t. repeat split; auto.
  - now exists a.
  - intros l Hinl Hidl. pose proof (find_none _ _ Hl l Hinl) as Hn.
    cbn in Hn. now rewrite Hidl, Z.eqb_refl in Hn.
Qed.

Lemma post_leave_refused employee startDate endDate reason type file user now
  db code message :
  snd (LeavesRouter.post_root employee startDate endDate reason type file user
         now db) = Status code message ->
  fst (LeavesRouter.post_root employee startDate endDate reason type file user
         now db) = db.
Proof.
  unfold LeavesRouter.post_root, tryCatch, bind, castObjectId,
    Employee_findOne, Attendance_findOne, castDate, Leave_findOne, populate,
    ret, respond, throw, Leave_create.
  destruct (ObjectId.cast employee) as [id|]; cbn; [|reflexivity].
  destruct (find _ (employees db)) as [e|] eqn:He; cbn; [|reflexivity].
  destruct (negb (isActive e)); cbn; [reflexivity|].
  destruct (find _ (attendances db)); cbn; [|reflexivity].
  destruct startDate as [| |s]; cbn; try reflexivity.
  destruct endDate as [| |t]; cbn; try reflexivity.
  destruct (find _ (leaves db)); cbn; [reflexivity|].
  destruct (_ || _); cbn; [reflexivity|].
  rewrite He. cbn. discriminate.
Qed.

End LeaveRoutes.

(** POST /leaves accepts a request exactly when the employee exists, is
    active and has a 'present' attendance document, both dates parse, no
    stored leave of the employee (of any status) matches the date filter,
    the reason is not empty and the type is one of the schema. Nothing asks
    that the start come before the end. *)
Theorem leave_post_succeeds_iff
  (employee : string) (startDate endDate : JsDate.DateParam)
  (reason type : string) (file : option string) (user now : Z) (db : Db) :
  (exists leave p,
     snd (LeavesRouter.post_root employee startDate endDate reason type file
            user now db) = Json (leave, p))
  <-> exists id e s t,
        ObjectId.cast employee = Some id
        /\ find (fun x => emp_id x =? id) (employees db) = Some e
        /\ emp_status e = "active"
        /\ (exists a, In a (attendances db) /\ att_employee a = id
                      /\ att_status a = "present")
        /\ startDate = JsDate.Parsed s /\ endDate = JsDate.Parsed t
        /\ (forall l, In l (leaves db) -> lv_employee l = id ->
                      LeavesRouter.inRange s t l = false)
        /\ reason <> "" /\ inEnum type leaveTypes = true.
Proof.
  split.
  - intros (leave & p & H).
    destruct (post_leave_accepted _ _ _ _ _ _ _ _ _ _ _ H)
      as (id & e & s & t & H1 & H2 & H3 & H4 & H5 & H6 & H7 & H8 & H9 & _).
    exists id, e, s, t. repeat split; assumption.
  - intros (id & e & s & t & H1 & H2 & H3 & (a & Ha & Hae & Has) & -> & ->
            & H7 & H8 & H9).
    destruct (find_is_some (fun a => (att_employee a =? id)
                                     && (att_status a =? "present")%string)
                (attendances db) a Ha) as [a' Ha'].
    { now rewrite Hae, Has, Z.eqb_refl. }
    unfold LeavesRouter.post_root, tryCatch, bind, castObjectId,
      Employee_findOne, Attendance_findOne, castDate, Leave_findOne, populate,
      ret, respond, throw, Leave_create.
    rewrite H9, H1. apply String.eqb_neq in H8. rewrite H8. cbn.
    rewrite H2. cbn. unfold isActive. rewrite H3. cbn. rewrite Ha'. cbn.
    rewrite (proj2 (find_none_iff _ _)).
    + cbn. rewrite H2. cbn. eexists. eexists. reflexivity.
    + intros l Hin. cbn. destruct (lv_employee l =? id) eqn:E; [|reflexivity].
      apply Z.eqb_eq in E. cbn. now apply H7.
Qed.

(** POST /leaves either refuses the request and leaves the database as it
    was, or appends exactly one leave: the one requested, pending, with the
    uploaded document's path or none, under the next id. Attendance and
    employees are never touched. *)
Theorem leave_post_effect
  (employee : string) (startDate endDate : JsDate.DateParam)
  (reason type : string) (file : option string) (user now : Z) (db : Db) :
  let r := LeavesRouter.post_root employee startDate endDate reason type file
             user now db in
  (forall code message, snd r = Status code message -> fst r = db)
  /\ (forall leave p, snd r = Json (leave, p) ->
        exists id s t,
          ObjectId.cast employee = Some id
          /\ startDate = JsDate.Parsed s /\ endDate = JsDate.Parsed t
          /\ leave = mkLeave (nextId db) id s t reason type "pending"
                       (match file with
                        | Some filename => "/uploads/documents/" ++ filename
                        | None => ""
                        end)%string user None now None
          /\ fst r = mkDb (employees db) (attendances db)
                          (leaves db ++ [leave]) (nextId db + 1)).
Proof.
  cbv zeta. split.
  - intros code message. apply post_leave_refused.
  - intros leave p H.
    destruct (post_leave_accepted _ _ _ _ _ _ _ _ _ _ _ H)
      as (id & e & s & t & H1 & _ & _ & _ & H5 & H6 & _ & _ & _ & H10 & _ & H12).
    exists id, s, t. repeat split; assumption.
Qed.

(** What POST /leaves has created can be read back: on a database whose
    leave ids are fresh, GET /leaves/:id with the id of the created leave
    answers with that leave and its employee, and GET /leaves/:id/document
    answers with the path of the uploaded document, or with 404 'Document
    not found' when none was uploaded. *)
Theorem leave_post_then_get
  (employee : string) (startDate endDate : JsDate.DateParam)
  (reason type : string) (file : option string) (user now : Z) (db : Db)
  (leave : Leave) (p : option Employee) (id : string) :
  freshLeaveIds db = true ->
  snd (LeavesRouter.post_root employee startDate endDate reason type file user
         now db) = Json (leave, p) ->
  ObjectId.cast id = Some (lv_id leave) ->
  let db' := fst (LeavesRouter.post_root employee startDate endDate reason type
                    file user now db) in
  LeavesRouter.get_id id db' = (db', Json (leave, p))
  /\ LeavesCrud.get_id_document id db'
     = (db', match file with
             | Some filename => Json ("/uploads/documents/" ++ filename)%string
             | None => Status 404 "Document not found"
             end).
Proof.
  intros Hfresh H Hcast. cbv zeta.
  destruct (post_leave_accepted _ _ _ _ _ _ _ _ _ _ _ H)
    as (eid & e & s & t & _ & He & _ & _ & _ & _ & _ & _ & _ & Hleave & Hp & ->).
  assert (Hid : lv_id leave = nextId db) by now subst leave.
  assert (Hfind : find (fun l => lv_id l =? lv_id leave) (leaves db ++ [leave])
                  = Some leave).
  { rewrite find_app_none; [cbn; now rewrite Z.eqb_refl|].
    apply find_none_iff. intros l Hin.
    unfold freshLeaveIds in Hfresh. rewrite forallb_forall in Hfresh.
    specialize (Hfresh l Hin). apply Z.ltb_lt in Hfresh.
    apply Z.eqb_neq. lia. }
  unfold LeavesRouter.get_id, LeavesCrud.get_id_document, tryCatch, bind,
    castObjectId, Leave_findOne, populate, Employee_findOne, ret, respond.
  rewrite Hcast. cbn. rewrite Hfind. cbn. split.
  - assert (lv_employee leave = eid) as -> by now subst leave.
    now rewrite He, Hp.
  - subst leave. cbn. destruct file; reflexivity.
Qed.

Section DisjointLeaves.

Lemma ForallOrdPairs_snoc {A} (R : A -> A -> Prop) l y :
  ForallOrdPairs R l -> Forall (fun x => R x y) l ->
  ForallOrdPairs R (l ++ [y]).
Proof.
  induction 1 as [|x l Hx Hl IH]; intros Hy; cbn.
  - repeat constructor.
  - inversion Hy as [|? ? Hxy Hly]; subst. constructor.
    + apply Forall_app. split; [exact Hx|now constructor].
    + now apply IH.
Qed.

Lemma Forall_deleteOne {A B} (idOf : A -> Z) (key : A -> B) (P : B -> Prop)
  id l :
  Forall P (map key l) -> Forall P (map key (deleteOne idOf id l)).
Proof.
  intros H. apply Forall_forall. intros y Hin.
  rewrite Forall_forall in H. apply H.
  apply in_map_iff in Hin. destruct Hin as (x & <- & Hin).
  apply in_map. now apply deleteOne_incl in Hin.
Qed.

Lemma ForallOrdPairs_deleteOne {A B} (idOf : A -> Z) (key : A -> B)
  (R : B -> B -> Prop) id l :
  ForallOrdPairs R (map key l) ->
  ForallOrdPairs R (map key (deleteOne idOf id l)).
Proof.
  induction l as [|d l IH]; intros H; cbn in *; [constructor|].
  inversion H as [|? ? Hd Hl]; subst.
  destruct (idOf d =? id); [exact Hl|].
  cbn. constructor; [now apply Forall_deleteOne|now apply IH].
Qed.

Lemma leaveSpans_updateOne id status file user now l :
  map (fun l => (lv_employee l, lv_startDate l, lv_endDate l))
      (updateOne lv_id id (LeavesRouter.leaveFields status file user now) l)
  = map (fun l => (lv_employee l, lv_startDate l, lv_endDate l)) l.
Proof.
  induction l as [|d l IH]; cbn; [reflexivity|].
  destruct (lv_id d =? id); cbn; [reflexivity|now rewrite IH].
Qed.

(** PUT /leaves/:id never changes the employee or the dates of a leave. *)
Lemma put_leave_spans tz id status file user now db :
  leaveSpans (fst (LeavesRouter.put_id tz id status file user now db))
  = leaveSpans db.
Proof.
  unfold LeavesRouter.put_id.
  apply (keeps_tryCatch (fun db' => leaveSpans db' = leaveSpans db));
    [|reflexivity].
  apply keeps_bind; [unfold castObjectId; destruct (ObjectId.cast id);
                     [apply keeps_ret|apply keeps_throw]|].
  intros lid. apply keeps_bind; [apply keeps_read|].
  intros [l|]; [|apply keeps_respond].
  apply keeps_bind.
  - intros db' H. unfold Leave_findByIdAndUpdate, leaveSpans in *. cbn.
    now rewrite leaveSpans_updateOne.
  - intros [l'|].
    + apply keeps_bind; [apply keeps_read|]. intros e.
      apply keeps_bind; [|intros _; apply keeps_ret].
      destruct (LeavesRouter.isApproved status); [|apply keeps_ret].
      intros db' H. unfold leaveSpans in *.
      now rewrite syncAttendance_keeps_leaves.
    + destruct (LeavesRouter.isApproved status);
        [apply keeps_throw|apply keeps_ret].
Qed.

End DisjointLeaves.

(** The stored leaves of an employee stay apart. If no stored leave ends
    before it starts and no two stored leaves of one employee share a time
    value, this is still so after POST /leaves with a start that is not
    after the end, after PUT /leaves/:id and after DELETE /leaves/:id. It
    holds of all leaves, the rejected ones too. *)
Theorem disjoint_leaves_kept (db : Db) :
  disjointLeaves db ->
  (forall employee s e reason type file user now,
     s <= e ->
     disjointLeaves
       (fst (LeavesRouter.post_root employee (JsDate.Parsed s) (JsDate.Parsed e)
               reason type file user now db)))
  /\ (forall tz id status file user now,
        disjointLeaves (fst (LeavesRouter.put_id tz id status file user now db)))
  /\ (forall id, disjointLeaves (fst (LeavesCrud.delete_id id db))).
Proof.
  intros [Hwf Hdis]. split; [|split].
  - intros employee s e reason type file user now Hse.
    destruct (snd (LeavesRouter.post_root employee (JsDate.Parsed s)
                     (JsDate.Parsed e) reason type file user now db))
      as [[leave p]|code message] eqn:Hr.
    + destruct (post_leave_accepted _ _ _ _ _ _ _ _ _ _ _ Hr)
        as (id & emp & s' & t' & _ & _ & _ & _ & Hs & Ht & Hfree & _ & _
            & Hleave & _ & ->).
      injection Hs as <-. injection Ht as <-.
      unfold disjointLeaves, leaveSpans in *. cbn [leaves].
      rewrite map_app. cbn [map]. subst leave. cbn [lv_employee lv_startDate lv_endDate].
      split.
      * apply Forall_app. split; [exact Hwf|]. constructor; [exact Hse|constructor].
      * apply ForallOrdPairs_snoc; [exact Hdis|].
        apply Forall_forall. intros x Hin Hemp.
        apply in_map_iff in Hin. destruct Hin as (l & <- & Hin).
        cbn in *. rewrite Forall_forall in Hwf.
        pose proof (Hwf _ (in_map (fun l => (lv_employee l, lv_startDate l,
                                             lv_endDate l)) _ _ Hin)) as Hl.
        cbn in Hl. specialize (Hfree l Hin Hemp).
        unfold LeavesRouter.inRange in Hfree.
        destruct (overlaps (lv_startDate l) (lv_endDate l) s e) eqn:E;
          [|reflexivity].
        apply overlaps_true_iff in E.
        assert (LeavesRouter.overlapQuery (lv_startDate l) (lv_endDate l) s e
                = true) by (apply overlapQuery_true_iff; lia).
        congruence.
    + rewrite (post_leave_refused _ _ _ _ _ _ _ _ _ _ _ Hr). now split.
  - intros. unfold disjointLeaves. rewrite put_leave_spans. now split.
  - intros id. unfold LeavesCrud.delete_id, tryCatch, bind, castObjectId,
      Leave_findOne, Leave_remove, ret, respond.
    destruct (ObjectId.cast id) as [lid|]; cbn; [|now split].
    destruct (find _ (leaves db)) as [l|]; cbn; [|now split].
    unfold disjointLeaves, leaveSpans in *. cbn. split.
    + now apply Forall_deleteOne.
    + now apply ForallOrdPairs_deleteOne.
Qed.



(* ================================================================== *)
(** ** The calendar and the employees                                  *)
(* ================================================================== *)

Section ReadersOfEmployees.

Lemma bind_Leave_find {B} q (k : list Leave -> Handler B) db :
  bind (Leave_find q) k db = k (filter q (leaves db)) db.
Proof. reflexivity. Qed.

Lemma bind_castQueryDate {B} d (k : Z -> Handler B) db :
  bind (castQueryDate d) k db
  = match d with
    | Some t => k t db
    | None => (db, Throw (CastError "date"))
    end.
Proof. destruct d; reflexivity. Qed.

Lemma readsEmployees_ret {A} (a : A) : readsEmployees (ret a).
Proof. intros ls db. now split. Qed.

Lemma readsEmployees_throw {A} e : readsEmployees (@throw A e).
Proof. intros ls db. now split. Qed.

Lemma readsEmployees_populate id : readsEmployees (populate id).
Proof. intros ls db. now split. Qed.

Lemma readsEmployees_bind {A B} (c : Handler A) (k : A -> Handler B) :
  readsEmployees c -> (forall a, readsEmployees (k a)) ->
  readsEmployees (bind c k).
Proof.
  intros Hc Hk ls db. unfold bind.
  destruct (Hc ls db) as [H1 H2]. rewrite H1.
  destruct (c db) as [db' [a| |]]; cbn in *; subst; auto.
  apply Hk.
Qed.

Lemma readsEmployees_mapM {A B} (f : A -> Handler B) l :
  (forall x, readsEmployees (f x)) -> readsEmployees (mapM f l).
Proof.
  intros Hf. induction l as [|x l IH]; cbn.
  - apply readsEmployees_ret.
  - apply readsEmployees_bind; [apply Hf|]. intros y.
    apply readsEmployees_bind; [exact IH|]. intros ys.
    apply readsEmployees_ret.
Qed.

End ReadersOfEmployees.

(** The calendar shows approved leaves only: for every time zone, month and
    year its answer is the answer it would give if the pending and rejected
    leaves (and those of any other status) were not stored at all. *)
Theorem calendar_ignores_unapproved (tz : Z) (month year : option Z) (db : Db) :
  snd (LeavesRouter.get_calendar tz month year db)
  = snd (LeavesRouter.get_calendar tz month year
           (withLeaves (filter (fun l => (lv_status l =? "approved")%string)
                               (leaves db)) db)).
Proof.
  unfold LeavesRouter.get_calendar, tryCatch.
  destruct month as [month|], year as [year|]; try reflexivity.
  rewrite !bind_castQueryDate.
  destruct (JsDate.newDate tz year (month - 1) 1) as [startDate|];
    [|reflexivity].
  rewrite !bind_castQueryDate.
  destruct (JsDate.newDate tz year month 0) as [endDate|]; [|reflexivity].
  rewrite !bind_Leave_find. cbn [leaves withLeaves].
  rewrite filter_twice.
  rewrite (filter_ext
             (fun x => (lv_status x =? "approved")%string
                       && ((lv_status x =? "approved")%string
                           && LeavesRouter.inRange startDate endDate x))
             (fun x => (lv_status x =? "approved")%string
                       && LeavesRouter.inRange startDate endDate x))
    by (intros x; destruct (lv_status x =? "approved")%string; reflexivity).
  set (found := filter _ (leaves db)).
  set (ls := filter (fun l => (lv_status l =? "approved")%string) (leaves db)).
  match goal with
  | |- context [bind (mapM ?f found) ?k] =>
      assert (Hr : readsEmployees (bind (mapM f found) k))
  end.
  { apply readsEmployees_bind; [|intros; apply readsEmployees_ret].
    apply readsEmployees_mapM. intros leave.
    apply readsEmployees_bind; [apply readsEmployees_populate|]. intros e.
    apply readsEmployees_mapM. intros t.
    destruct e; [apply readsEmployees_ret|apply readsEmployees_throw]. }
  destruct (Hr ls db) as [H1 _]. rewrite H1. cbn [fst snd].
  match goal with
  | |- context [bind ?c ?k db] => destruct (bind c k db) as [db' [a| |]]
  end; reflexivity.
Qed.

Section RemovedEmployee.

Lemma filterM_throws {A} (f : A -> Handler bool) l db e x :
  In x l -> f x db = (db, Throw e) ->
  (forall y, In y l ->
     (exists b, f y db = (db, Return b)) \/ f y db = (db, Throw e)) ->
  filterM f l db = (db, Throw e).
Proof.
  induction l as [|d l IH]; intros Hin Hx Hall; [contradiction|].
  cbn. unfold bind.
  destruct (Hall d (or_introl eq_refl)) as [[b Hb]|Ht].
  - rewrite Hb. destruct Hin as [->|Hin]; [congruence|].
    rewrite IH; auto. intros; apply Hall; now right.
  - now rewrite Ht.
Qed.

Lemma employee_delete_state id eid db emp :
  ObjectId.cast id = Some eid ->
  find (fun x => emp_id x =? eid) (employees db) = Some emp ->
  EmployeesRouter.delete_id id db
  = (mkDb (deleteOne emp_id eid (employees db)) (attendances db) (leaves db)
          (nextId db),
     Json "Employee removed").
Proof.
  intros Hcast Hfind.
  assert (Hemp : emp_id emp = eid).
  { apply find_some in Hfind. now apply Z.eqb_eq. }
  unfold EmployeesRouter.delete_id, tryCatch, bind, castObjectId,
    Employee_findOne, Employee_remove, ret.
  rewrite Hcast. cbn. rewrite Hfind. cbn. now rewrite Hemp.
Qed.

Lemma employee_put_state id eid name position department status db emp :
  ObjectId.cast id = Some eid ->
  find (fun x => emp_id x =? eid) (employees db) = Some emp ->
  fst (EmployeesRouter.put_id id name position department status false db)
  = mkDb (updateOne emp_id eid
            (EmployeesRouter.employeeFields name position department status)
            (employees db))
         (attendances db) (leaves db) (nextId db).
Proof.
  intros Hcast Hfind.
  unfold EmployeesRouter.put_id, tryCatch, bind, castObjectId,
    Employee_findOne, EmployeesRouter.Employee_findByIdAndUpdate, ret.
  rewrite Hcast. cbn. rewrite Hfind. reflexivity.
Qed.

End RemovedEmployee.

(** Removing an employee breaks the report. DELETE /employees/:id removes
    the employee and leaves its attendance documents in place; from then
    on, on a collection with unique employee ids, every report over a range
    that holds one of these documents is answered 500 'Server error' for as
    long as an active employee is left. *)
Theorem employee_delete_breaks_report
  (tz : Z) (id : string) (eid : Z) (db : Db) (emp other : Employee)
  (a : Attendance) (s e : Z) :
  ObjectId.cast id = Some eid ->
  NoDup (map emp_id (employees db)) ->
  find (fun x => emp_id x =? eid) (employees db) = Some emp ->
  In a (attendances db) -> att_employee a = eid ->
  JsDate.localDay tz s <= JsDate.localDay tz (att_date a) ->
  JsDate.localDay tz (att_date a) <= JsDate.localDay tz e ->
  In other (employees db) -> emp_id other <> eid -> isActive other = true ->
  let r := EmployeesRouter.delete_id id db in
  snd r = Json "Employee removed"
  /\ attendances (fst r) = attendances db
  /\ AttendanceRouter.get_report tz (JsDate.Parsed s) (JsDate.Parsed e) (fst r)
     = (fst r, Status 500 "Server error").
Proof.
  intros Hcast Hnd Hfind Hin Hae Hlo Hhi Hother Hne Hact. cbv zeta.
  assert (Hemp : emp_id emp = eid).
  { apply find_some in Hfind. now apply Z.eqb_eq. }
  rewrite (employee_delete_state id eid db emp Hcast Hfind). cbn [fst snd].
  split; [reflexivity|]. split; [reflexivity|].
  set (db' := mkDb _ _ _ _).
  assert (Hgone : find (fun x => emp_id x =? eid) (employees db') = None).
  { cbn. now apply find_deleteOne_unique. }
  assert (Hstays : In other (filter isActive (employees db'))).
  { apply filter_In. split; [|exact Hact]. cbn.
    rewrite deleteOne_unique by exact Hnd. apply filter_In.
    split; [exact Hother|]. now apply negb_true_iff, Z.eqb_neq. }
  unfold AttendanceRouter.get_report, tryCatch, bind at 1 2 3 4, Employee_find,
    castDate, ret, Attendance_find. cbn [fst snd].
  set (found := filter _ (attendances db')).
  assert (Hfound : In a found).
  { apply filter_In. split; [exact Hin|].
    rewrite window_daysb.
    apply andb_true_iff. split; apply Z.leb_le; assumption. }
  set (g := fun x : Attendance =>
              (x, find (fun y => emp_id y =? att_employee x) (employees db'))).
  unfold bind at 1.
  rewrite (mapM_pure _ g) by (intros x _; reflexivity).
  destruct (filter isActive (employees db')) as [|first rest]; [contradiction|].
  cbn [mapM]. unfold bind at 1 2.
  rewrite (filterM_throws _ (map g found) db' TypeError (g a)).
  - reflexivity.
  - now apply in_map.
  - unfold g. cbn [snd]. rewrite Hae, Hgone. reflexivity.
  - intros [x p] Hx. cbn. destruct p; [left; eexists; reflexivity|now right].
Qed.

(** An employee that is made inactive is shut out. After PUT
    /employees/:id has stored a status other than 'active' for an employee,
    POST /attendance and POST /leaves for that employee are refused with
    their 'Only active employees' messages, whatever else they carry, while
    the attendance and leaves already stored stay as they are. *)
Theorem employee_deactivation
  (id : string) (eid : Z) (name position department : option string)
  (status : string) (db : Db) (emp : Employee) :
  ObjectId.cast id = Some eid ->
  find (fun x => emp_id x =? eid) (employees db) = Some emp ->
  status <> "" -> status <> "active" ->
  let db' := fst (EmployeesRouter.put_id id name position department
                    (Some status) false db) in
  attendances db' = attendances db /\ leaves db' = leaves db
  /\ (forall date st user now,
        AttendanceRouter.post_root id date st user now db'
        = (db', Status 400 "Only active employees can have attendance records"))
  /\ (forall startDate endDate reason type file user now,
        LeavesRouter.post_root id startDate endDate reason type file user now db'
        = (db', Status 400 "Only active employees can apply for leave")).
Proof.
  intros Hcast Hfind Hne Hna. cbv zeta.
  rewrite (employee_put_state id eid name position department (Some status)
             db emp Hcast Hfind).
  set (fields := EmployeesRouter.employeeFields name position department
                   (Some status)).
  set (db' := mkDb _ _ _ _).
  assert (Hnew : find (fun x => emp_id x =? eid) (employees db')
                 = Some (fields emp)).
  { cbn. rewrite find_updateOne by reflexivity. now rewrite Hfind. }
  assert (Hin : isActive (fields emp) = false).
  { unfold isActive, fields, EmployeesRouter.employeeFields. cbn.
    apply String.eqb_neq in Hne. rewrite Hne. cbn.
    now apply String.eqb_neq. }
  unfold isActive in Hin.
  split; [reflexivity|]. split; [reflexivity|]. split.
  - intros. unfold AttendanceRouter.post_root, tryCatch, bind, castObjectId,
      Employee_findOne, respond, isActive.
    rewrite Hcast. cbn [fst snd ret]. rewrite Hnew. cbn [fst snd].
    now rewrite Hin.
  - intros. unfold LeavesRouter.post_root, tryCatch, bind, castObjectId,
      Employee_findOne, respond, isActive.
    rewrite Hcast. cbn [fst snd ret]. rewrite Hnew. cbn [fst snd].
    now rewrite Hin.
Qed.

(* ================================================================== *)
(** ** Instances                                                       *)
(* ================================================================== *)

Ltac distinct :=
  vm_compute;
  repeat (constructor; [vm_compute; intuition congruence|]); constructor.

Lemma sync_leaves_other_days_alone_witness :
  let outside a :=
    negb (inSpan 0 (emp_id Sample.ashaDoc)
            (lv_startDate (Sample.leave2 "approved"))
            (lv_endDate (Sample.leave2 "approved")) a) in
  filter outside
    (attendances
       (fst (LeavesRouter.syncAttendance 0 (Sample.leave2 "approved")
               (Some Sample.ashaDoc) Sample.admin 200
               (Sample.dbWith "approved"))))
  = filter outside (attendances (Sample.dbWith "approved")).
Proof.
  apply (sync_leaves_other_days_alone 0 (Sample.leave2 "approved")
           Sample.ashaDoc Sample.admin 200 (Sample.dbWith "approved")).
  - vm_compute. reflexivity.
  - unfold uniqueIds. cbn. distinct.
Defined.

Lemma approve_twice_witness :
  let db1 := fst (LeavesRouter.put_id 0 Sample.leave2Id (Some "approved") None
                    Sample.admin 200 (Sample.dbWith "pending")) in
  let db2 := fst (LeavesRouter.put_id 0 Sample.leave2Id (Some "approved") None
                    Sample.admin 300 db1) in
  attendances db2 = attendances db1 /\ nextId db2 = nextId db1.
Proof.
  apply (approve_twice 0 Sample.leave2Id 2 None None Sample.admin 200
           Sample.admin 300 (Sample.dbWith "pending") (Sample.leave2 "pending")).
  - vm_compute. reflexivity.
  - vm_compute. reflexivity.
  - vm_compute. reflexivity.
Defined.

Lemma unique_index_kept_witness :
  (forall employee date status user now,
     uniqueIndex (fst (AttendanceRouter.post_root employee date status user
                         now Sample.dbJanuary)))
  /\ (forall id status,
        uniqueIndex (fst (AttendanceCrud.put_id id status Sample.dbJanuary)))
  /\ (forall id, uniqueIndex (fst (AttendanceCrud.delete_id id Sample.dbJanuary)))
  /\ (forall tz id status file user now,
        uniqueIndex (fst (LeavesRouter.put_id tz id status file user now
                            Sample.dbJanuary))).
Proof.
  apply (unique_index_kept Sample.dbJanuary).
  unfold uniqueIndex, indexKeys. vm_compute. distinct.
Defined.

Lemma attendance_post_twice_witness :
  let db' := fst (AttendanceRouter.post_root Sample.asha
                    (JsDate.Parsed (Sample.jan2024 8)) "present" Sample.admin
                    300 Sample.db0) in
  AttendanceRouter.post_root Sample.asha (JsDate.Parsed (Sample.jan2024 8))
    "absent" Sample.admin 400 db'
  = (db', Status 400
            "Attendance record already exists for this employee on this date").
Proof.
  apply (attendance_post_twice Sample.asha (JsDate.Parsed (Sample.jan2024 8))
           "present" Sample.admin 300 Sample.db0
           (mkAttendance 2 Sample.ashaId (Sample.jan2024 8) "present"
                         Sample.admin 300)
           (Some Sample.ashaDoc) "absent" Sample.admin 400).
  vm_compute. reflexivity.
Defined.

Lemma attendance_put_effect_witness :
  let r := AttendanceCrud.put_id Sample2.attendance1Id "holiday" Sample.db0 in
  snd r = Json (Some (set_att_status "holiday" Sample2.attendance1,
                      find (fun e => emp_id e =? att_employee Sample2.attendance1)
                           (employees Sample.db0)))
  /\ find (fun x => att_id x =? 1) (attendances (fst r))
     = Some (set_att_status "holiday" Sample2.attendance1)
  /\ indexKeys (fst r) = indexKeys Sample.db0
  /\ map att_id (attendances (fst r)) = map att_id (attendances Sample.db0)
  /\ employees (fst r) = employees Sample.db0
  /\ leaves (fst r) = leaves Sample.db0
  /\ nextId (fst r) = nextId Sample.db0.
Proof.
  apply (attendance_put_effect Sample2.attendance1Id 1 "holiday" Sample.db0
           Sample2.attendance1).
  - vm_compute. reflexivity.
  - vm_compute. reflexivity.
Defined.

Lemma attendance_delete_effect_witness :
  let r := AttendanceCrud.delete_id Sample2.attendance1Id Sample.dbJanuary in
  snd r = Json "Attendance record removed"
  /\ attendances (fst r)
     = filter (fun x => negb (att_id x =? 1)) (attendances Sample.dbJanuary)
  /\ employees (fst r) = employees Sample.dbJanuary
  /\ leaves (fst r) = leaves Sample.dbJanuary
  /\ AttendanceCrud.delete_id Sample2.attendance1Id (fst r)
     = (fst r, Status 404 "Attendance record not found").
Proof.
  apply (attendance_delete_effect Sample2.attendance1Id 1 Sample.dbJanuary
           Sample2.attendance1).
  - vm_compute. reflexivity.
  - vm_compute. reflexivity.
  - unfold uniqueIds. cbn. distinct.
Defined.

Lemma attendance_delete_then_post_witness :
  let db' := fst (AttendanceCrud.delete_id Sample2.attendance1Id
                    Sample.dbJanuary) in
  AttendanceRouter.post_root Sample.asha
    (JsDate.Parsed (att_date Sample2.attendance1)) "absent" Sample.admin 500 db'
  = (mkDb (employees db')
          (attendances db'
           ++ [mkAttendance (nextId db') (att_employee Sample2.attendance1)
                 (att_date Sample2.attendance1) "absent" Sample.admin 500])
          (leaves db') (nextId db' + 1),
     Json (mkAttendance (nextId db') (att_employee Sample2.attendance1)
             (att_date Sample2.attendance1) "absent" Sample.admin 500,
           Some Sample.ashaDoc)).
Proof.
  apply (attendance_delete_then_post Sample2.attendance1Id Sample.asha
           Sample.dbJanuary Sample2.attendance1 Sample.ashaDoc "absent"
           Sample.admin 500).
  - vm_compute. reflexivity.
  - left. reflexivity.
  - unfold uniqueIds. cbn. distinct.
  - unfold uniqueIndex, indexKeys. vm_compute. distinct.
  - vm_compute. reflexivity.
  - vm_compute. reflexivity.
  - reflexivity.
  - reflexivity.
Defined.

Lemma leaves_list_one_date_ignored_witness :
  exists l,
    LeavesCrud.get_root None None None (JsDate.Parsed (Sample.jan2024 20))
      JsDate.Absent None Sample.dbJanuary = (Sample.dbJanuary, Json l)
    /\ Permutation (map fst l) (leaves Sample.dbJanuary)
    /\ Sorted (fun a b => LeavesCrud.sortOption None a b = true) (map fst l).
Proof.
  apply (leaves_list_one_date_ignored (JsDate.Parsed (Sample.jan2024 20))
           JsDate.Absent None Sample.dbJanuary).
  right. reflexivity.
Defined.

Lemma leaves_list_overlapping_witness :
  exists l,
    LeavesCrud.get_root None None None (JsDate.Parsed (Sample.jan2024 12))
      (JsDate.Parsed (Sample.jan2024 20)) None Sample.dbJanuary
    = (Sample.dbJanuary, Json l)
    /\ Permutation (map fst l)
         (filter (fun x => overlaps (lv_startDate x) (lv_endDate x)
                             (Sample.jan2024 12) (Sample.jan2024 20))
                 (leaves Sample.dbJanuary))
    /\ Sorted (fun a b => LeavesCrud.sortOption None a b = true) (map fst l).
Proof.
  apply (leaves_list_overlapping (Sample.jan2024 12) (Sample.jan2024 20) None
           Sample.dbJanuary).
  - vm_compute. discriminate.
  - repeat constructor. vm_compute. discriminate.
Defined.

Lemma malformed_id_answers_witness :
  LeavesRouter.get_id "calendar" Sample.db0
  = (Sample.db0, Status 404 "Leave not found")
  /\ AttendanceCrud.delete_id "calendar" Sample.db0
     = (Sample.db0, Status 404 "Attendance record not found")
  /\ LeavesCrud.delete_id "calendar" Sample.db0
     = (Sample.db0, Status 404 "Leave not found")
  /\ EmployeesRouter.delete_id "calendar" Sample.db0
     = (Sample.db0, Status 404 "Employee not found")
  /\ (forall status,
        AttendanceCrud.put_id "calendar" status Sample.db0
        = (Sample.db0, Status 500 "Server error"))
  /\ (forall tz status file user now,
        LeavesRouter.put_id tz "calendar" status file user now Sample.db0
        = (Sample.db0, Status 500 "Server error"))
  /\ (forall name position department status others,
        EmployeesRouter.put_id "calendar" name position department status
          others Sample.db0
        = (Sample.db0, Status 500 "Server error"))
  /\ LeavesCrud.get_id_document "calendar" Sample.db0
     = (Sample.db0, Status 500 "Server error").
Proof.
  apply (malformed_id_answers "calendar" Sample.db0). reflexivity.
Defined.

Lemma leave_post_then_get_witness :
  let db' := fst (LeavesRouter.post_root Sample.asha
                    (JsDate.Parsed (Sample.jan2024 10))
                    (JsDate.Parsed (Sample.jan2024 12)) "flu" "sick"
                    (Some "note.pdf") Sample.admin 100 Sample.db0) in
  let leave := mkLeave 2 Sample.ashaId (Sample.jan2024 10) (Sample.jan2024 12)
                 "flu" "sick" "pending" "/uploads/documents/note.pdf"
                 Sample.admin None 100 None in
  LeavesRouter.get_id Sample.leave2Id db'
  = (db', Json (leave, Some Sample.ashaDoc))
  /\ LeavesCrud.get_id_document Sample.leave2Id db'
     = (db', Json "/uploads/documents/note.pdf").
Proof.
  apply (leave_post_then_get Sample.asha (JsDate.Parsed (Sample.jan2024 10))
           (JsDate.Parsed (Sample.jan2024 12)) "flu" "sick" (Some "note.pdf")
           Sample.admin 100 Sample.db0
           (mkLeave 2 Sample.ashaId (Sample.jan2024 10) (Sample.jan2024 12)
              "flu" "sick" "pending" "/uploads/documents/note.pdf"
              Sample.admin None 100 None)
           (Some Sample.ashaDoc) Sample.leave2Id).
  - reflexivity.
  - vm_compute. reflexivity.
  - vm_compute. reflexivity.
Defined.

Lemma disjoint_leaves_kept_witness :
  (forall employee s e reason type file user now,
     s <= e ->
     disjointLeaves
       (fst (LeavesRouter.post_root employee (JsDate.Parsed s) (JsDate.Parsed e)
               reason type file user now (Sample.dbWith "approved"))))
  /\ (forall tz id status file user now,
        disjointLeaves (fst (LeavesRouter.put_id tz id status file user now
                               (Sample.dbWith "approved"))))
  /\ (forall id, disjointLeaves (fst (LeavesCrud.delete_id id
                                        (Sample.dbWith "approved")))).
Proof.
  apply (disjoint_leaves_kept (Sample.dbWith "approved")).
  split.
  - repeat constructor. vm_compute. discriminate.
  - repeat constructor.
Defined.



Lemma calendar_on_whole_days_witness :
  LeavesRouter.get_calendar 0 (Some 1) (Some 2024) Sample.dbCalendar
  = (Sample.dbCalendar,
     match JsDate.newDate 0 2024 (1 - 1) 1, JsDate.newDate 0 2024 1 0 with
     | Some startDate, Some endDate =>
         let first := utcDay startDate in
         let last := utcDay endDate in
         Json (flat_map
                 (fun l =>
                    match find (fun x => emp_id x =? lv_employee l)
                               (employees Sample.dbCalendar)
                    with
                    | Some e => clippedEntries first last (emp_name e) l
                    | None => []
                    end)
                 (filter (fun l => (lv_status l =? "approved")%string
                                   && overlaps (utcDay (lv_startDate l))
                                               (utcDay (lv_endDate l))
                                               first last)
                         (leaves Sample.dbCalendar)))
     | _, _ => Status 500 "Server error"
     end).
Proof.
  apply (calendar_on_whole_days 1 2024 Sample.dbCalendar).
  intros l [<-|[]] _. split.
  - vm_compute. reflexivity.
  - eexists. vm_compute. reflexivity.
Defined.

Lemma employee_delete_breaks_report_witness :
  let r := EmployeesRouter.delete_id Sample.asha Sample2.dbTwo in
  snd r = Json "Employee removed"
  /\ attendances (fst r) = attendances Sample2.dbTwo
  /\ AttendanceRouter.get_report 0 (JsDate.Parsed (Sample.jan2024 1))
       (JsDate.Parsed (Sample.jan2024 31)) (fst r)
     = (fst r, Status 500 "Server error").
Proof.
  apply (employee_delete_breaks_report 0 Sample.asha Sample.ashaId
           Sample2.dbTwo Sample.ashaDoc Sample2.meeraDoc Sample2.attendance1
           (Sample.jan2024 1) (Sample.jan2024 31)).
  - vm_compute. reflexivity.
  - cbn. distinct.
  - vm_compute. reflexivity.
  - left. reflexivity.
  - reflexivity.
  - vm_compute. discriminate.
  - vm_compute. discriminate.
  - right. left. reflexivity.
  - vm_compute. discriminate.
  - reflexivity.
Defined.

Lemma employee_deactivation_witness :
  let db' := fst (EmployeesRouter.put_id Sample.asha None None None
                    (Some "inactive") false Sample.db0) in
  attendances db' = attendances Sample.db0 /\ leaves db' = leaves Sample.db0
  /\ (forall date st user now,
        AttendanceRouter.post_root Sample.asha date st user now db'
        = (db', Status 400 "Only active employees can have attendance records"))
  /\ (forall startDate endDate reason type file user now,
        LeavesRouter.post_root Sample.asha startDate endDate reason type file
          user now db'
        = (db', Status 400 "Only active employees can apply for leave")).
Proof.
  apply (employee_deactivation Sample.asha Sample.ashaId None None None
           "inactive" Sample.db0 Sample.ashaDoc).
  - vm_compute. reflexivity.
  - vm_compute. reflexivity.
  - discriminate.
  - discriminate.
Defined.
